(** * Credential and account invariants of the medical-practice admin tools

  A shallow embedding of the credential and account logic of

  - [medical_practice_app/lib/python_owner/owner_app.py]
    ([SecurityManager], [AzureServices]: admin accounts, deactivation and
    password reset, [OwnerCredentials], the login and password screens of
    [OwnerApp] and [OwnerApp._populate_doctors_tree]),
  - [medical_practice_app/lib/python_admin/admin_app.py]
    ([AzureServices]: doctor, pharmacy and laboratory accounts kept in a
    Cosmos DB container),
  - [python_admin/admin_app.py] ([AdminApplication]: the local SQLite
    variant, its doctors and their accounts),

  together with the library functions they call ([hashlib.sha256],
  [hashlib.pbkdf2_hmac], [base64], [uuid.uuid4], [datetime]).

  Conventions.
  - A Python [bytes] value is a [list Z] whose elements lie in [0, 256).
  - A Python [str] is a Rocq [string] holding its UTF-8 encoding, one
    [ascii] per byte, so that [s.encode('utf-8')] lists the characters of
    [s].  A [str] with a lone surrogate, the only kind that [encode]
    rejects, has no representation.
  - A 32-bit word is a [Z] in [0, 2^32), the wrap-around written out.
  - Random draws, clock readings and identity-service answers are read from
    an explicit [World]; exceptions are values of [exn]. *)

From Stdlib Require Import ZArith List Lia Ascii String Bool.
From stdpp Require Import base option numbers list strings gmap fin_maps.
Import ListNotations.

Local Open Scope string_scope.
Local Open Scope list_scope.
Local Open Scope Z_scope.

(** ** Bytes *)

Module Bytes.

Definition is_byte (b : Z) : Prop := 0 <= b < 256.

Definition bytes_ok (l : list Z) : Prop := Forall is_byte l.

(** [s.encode('utf-8')] under the representation of [str] chosen above. *)
Definition encode_utf8 (s : string) : list Z :=
  map (fun c => Z.of_N (N_of_ascii c)) (list_ascii_of_string s).

(** [b.decode('utf-8')] for bytes that are already valid UTF-8. *)
Definition decode_utf8 (b : list Z) : string :=
  string_of_list_ascii (map (fun x => ascii_of_N (Z.to_N x)) b).

(** Big-endian serialisation of [x] on [n] bytes. *)
Fixpoint be_bytes (n : nat) (x : Z) : list Z :=
  match n with
  | O => []
  | S n' => Z.land (Z.shiftr x (8 * Z.of_nat n')) 255 :: be_bytes n' x
  end.

Definition be_word (bs : list Z) : Z :=
  fold_left (fun acc b => Z.lor (Z.shiftl acc 8) b) bs 0.

(** [bytes(a ^ b for a, b in zip(x, y))] *)
Fixpoint xor_bytes (x y : list Z) : list Z :=
  match x, y with
  | a :: x', b :: y' => Z.lxor a b :: xor_bytes x' y'
  | _, _ => []
  end.

Definition hex_digit (d : Z) : ascii :=
  if d <? 10 then ascii_of_N (Z.to_N (48 + d)) else ascii_of_N (Z.to_N (87 + d)).

(** [b.hex()]: two lowercase hexadecimal digits per byte. *)
Fixpoint hex (b : list Z) : string :=
  match b with
  | [] => EmptyString
  | x :: b' => String (hex_digit (Z.shiftr x 4)) (String (hex_digit (Z.land x 15)) (hex b'))
  end.

Definition eqb (x y : list Z) : bool := bool_decide (x = y).

(** The 256 byte values, for properties checked byte by byte. *)
Definition all_bytes : list Z := map Z.of_nat (seq 0 256).

End Bytes.

(** ** SHA-256 (FIPS 180-4), as computed by [hashlib.sha256] *)

Module Sha256.
Import Bytes.

Definition mask32 : Z := 4294967295.

Definition add32 (x y : Z) : Z := Z.land (x + y) mask32.

Definition rotr (n x : Z) : Z :=
  Z.land (Z.lor (Z.shiftr x n) (Z.shiftl x (32 - n))) mask32.

Definition Ch (x y z : Z) : Z :=
  Z.lxor (Z.land x y) (Z.land (Z.lxor x mask32) z).

Definition Maj (x y z : Z) : Z :=
  Z.lxor (Z.lxor (Z.land x y) (Z.land x z)) (Z.land y z).

Definition Sigma0 (x : Z) : Z := Z.lxor (Z.lxor (rotr 2 x) (rotr 13 x)) (rotr 22 x).
Definition Sigma1 (x : Z) : Z := Z.lxor (Z.lxor (rotr 6 x) (rotr 11 x)) (rotr 25 x).
Definition sigma0 (x : Z) : Z := Z.lxor (Z.lxor (rotr 7 x) (rotr 18 x)) (Z.shiftr x 3).
Definition sigma1 (x : Z) : Z := Z.lxor (Z.lxor (rotr 17 x) (rotr 19 x)) (Z.shiftr x 10).

(** The first 64 primes. *)
Definition primes : list Z :=
  [ 2; 3; 5; 7; 11; 13; 17; 19; 23; 29; 31; 37; 41; 43; 47; 53;
    59; 61; 67; 71; 73; 79; 83; 89; 97; 101; 103; 107; 109; 113; 127; 131;
    137; 139; 149; 151; 157; 163; 167; 173; 179; 181; 191; 193; 197; 199; 211; 223;
    227; 229; 233; 239; 241; 251; 257; 263; 269; 271; 277; 281; 283; 293; 307; 311 ].

(** The integer cube root, one bit at a time from bit [k - 1] down. *)
Fixpoint icbrt_bits (k : nat) (n r : Z) : Z :=
  match k with
  | O => r
  | S k' =>
      let r' := r + 2 ^ Z.of_nat k' in
      icbrt_bits k' n (if r' * r' * r' <=? n then r' else r)
  end.

Definition icbrt (n : Z) : Z := icbrt_bits 44 n 0.

(** The round constants: the first 32 bits of the fractional parts of the
    cube roots of the first 64 primes. *)
Definition K : list Z :=
  Eval vm_compute in map (fun p => Z.land (icbrt (p * 2 ^ 96)) mask32) primes.

(** The initial hash value: the first 32 bits of the fractional parts of
    the square roots of the first 8 primes. *)
Definition H0 : list Z :=
  Eval vm_compute in map (fun p => Z.land (Z.sqrt (p * 2 ^ 64)) mask32) (firstn 8 primes).

(** Padding: a [0x80] byte, zeros up to 56 modulo 64, the bit length on 8 bytes. *)
Definition pad (msg : list Z) : list Z :=
  let len := Z.of_nat (length msg) in
  let zeros := Z.to_nat ((55 - len) mod 64) in
  msg ++ 128 :: repeat 0 zeros ++ be_bytes 8 (8 * len).

(** Cut a byte string into big-endian 32-bit words. *)
Fixpoint words_of (fuel : nat) (bs : list Z) : list Z :=
  match fuel, bs with
  | S fuel', _ :: _ => be_word (firstn 4 bs) :: words_of fuel' (skipn 4 bs)
  | _, _ => []
  end.

(** The message schedule, grown from the 16 words of a block to 64 words. *)
Fixpoint schedule (n : nat) (w : list Z) : list Z :=
  match n with
  | O => w
  | S n' =>
      let t := length w in
      let g i := nth (t - i) w 0 in
      schedule n' (w ++ [add32 (add32 (add32 (sigma1 (g 2%nat)) (g 7%nat)) (sigma0 (g 15%nat))) (g 16%nat)])
  end.

Record regs := Regs { ra : Z; rb : Z; rc : Z; rd : Z; re : Z; rf : Z; rg : Z; rh : Z }.

Definition round (s : regs) (kw : Z * Z) : regs :=
  let t1 := add32 (add32 (add32 (add32 (rh s) (Sigma1 (re s))) (Ch (re s) (rf s) (rg s))) (fst kw)) (snd kw) in
  let t2 := add32 (Sigma0 (ra s)) (Maj (ra s) (rb s) (rc s)) in
  Regs (add32 t1 t2) (ra s) (rb s) (rc s) (add32 (rd s) t1) (re s) (rf s) (rg s).

Definition regs_of (h : list Z) : regs :=
  Regs (nth 0 h 0) (nth 1 h 0) (nth 2 h 0) (nth 3 h 0) (nth 4 h 0) (nth 5 h 0) (nth 6 h 0) (nth 7 h 0).

Definition compress (h : list Z) (block : list Z) : list Z :=
  let w := schedule 48 block in
  let s0 := regs_of h in
  let s := fold_left round (combine K w) s0 in
  [ add32 (ra s0) (ra s); add32 (rb s0) (rb s); add32 (rc s0) (rc s); add32 (rd s0) (rd s);
    add32 (re s0) (re s); add32 (rf s0) (rf s); add32 (rg s0) (rg s); add32 (rh s0) (rh s) ].

Fixpoint blocks (fuel : nat) (h : list Z) (ws : list Z) : list Z :=
  match fuel, ws with
  | S fuel', _ :: _ => blocks fuel' (compress h (firstn 16 ws)) (skipn 16 ws)
  | _, _ => h
  end.

(** [hashlib.sha256(msg).digest()] *)
Definition sha256 (msg : list Z) : list Z :=
  let p := pad msg in
  let ws := words_of (length p) p in
  flat_map (be_bytes 4) (blocks (length ws) H0 ws).

(** [hashlib.sha256(msg).hexdigest()] *)
Definition hexdigest (msg : list Z) : string := hex (sha256 msg).

End Sha256.

(** ** HMAC-SHA256 (RFC 2104) and PBKDF2 (RFC 8018), as computed by
     [hashlib.pbkdf2_hmac('sha256', password, salt, iterations)] *)

Module Pbkdf2.
Import Bytes Sha256.

Definition block_size : nat := 64.

(** A key longer than a block is hashed; the key is then padded with zero
    bytes to a full block. *)
Definition prepare_key (key : list Z) : list Z :=
  let k := if (block_size <? length key)%nat then sha256 key else key in
  k ++ repeat 0 (block_size - length k).

Definition hmac_block (kb : list Z) (msg : list Z) : list Z :=
  sha256 (map (Z.lxor 92) kb ++ sha256 (map (Z.lxor 54) kb ++ msg)).

Definition hmac (key msg : list Z) : list Z := hmac_block (prepare_key key) msg.

(** One step of the inner loop: [U = prf(U); T ^= U]. *)
Definition step (kb : list Z) (ut : list Z * list Z) : list Z * list Z :=
  let u := hmac_block kb (fst ut) in (u, xor_bytes (snd ut) u).

(** Block [i] of the derived key: the xor of [iterations] chained HMACs. *)
Definition F (kb salt : list Z) (iterations : N) (i : Z) : list Z :=
  let u1 := hmac_block kb (salt ++ be_bytes 4 i) in
  snd (N.iter (iterations - 1) (step kb) (u1, u1)).

(** [dklen] defaults to the digest size, 32. *)
Definition pbkdf2_hmac (password salt : list Z) (iterations : N) (dklen : nat) : list Z :=
  let kb := prepare_key password in
  let l := ((dklen + 31) / 32)%nat in
  firstn dklen (flat_map (fun i => F kb salt iterations (Z.of_nat i)) (seq 1 l)).

End Pbkdf2.

(** ** Base64, as computed by [base64.b64encode] and [base64.b64decode] *)

Module Base64.
Import Bytes.

Definition alphabet : string :=
  "ABCDEFGHIJKLMNOPQRSTUVWXYZabcdefghijklmnopqrstuvwxyz0123456789+/".

Definition pad_char : ascii := "="%char.

Definition b64char (i : Z) : ascii :=
  nth (Z.to_nat i) (list_ascii_of_string alphabet) pad_char.

(** [table_a2b_base64]: the value of an alphabet character, [None] for any
    other character. *)
Definition b64index (ch : ascii) : option Z :=
  let n := Z.of_N (N_of_ascii ch) in
  if (65 <=? n) && (n <=? 90) then Some (n - 65)
  else if (97 <=? n) && (n <=? 122) then Some (n - 71)
  else if (48 <=? n) && (n <=? 57) then Some (n + 4)
  else if n =? 43 then Some 62
  else if n =? 47 then Some 63
  else None.

(** [binascii.b2a_base64(s, newline=False)] *)
Fixpoint b64encode (bs : list Z) : string :=
  match bs with
  | [] => EmptyString
  | [a] =>
      String (b64char (Z.shiftr a 2))
        (String (b64char (Z.shiftl (Z.land a 3) 4))
           (String pad_char (String pad_char EmptyString)))
  | [a; b] =>
      String (b64char (Z.shiftr a 2))
        (String (b64char (Z.lor (Z.shiftl (Z.land a 3) 4) (Z.shiftr b 4)))
           (String (b64char (Z.shiftl (Z.land b 15) 2))
              (String pad_char EmptyString)))
  | a :: b :: c :: rest =>
      String (b64char (Z.shiftr a 2))
        (String (b64char (Z.lor (Z.shiftl (Z.land a 3) 4) (Z.shiftr b 4)))
           (String (b64char (Z.lor (Z.shiftl (Z.land b 15) 2) (Z.shiftr c 6)))
              (String (b64char (Z.land c 63)) (b64encode rest))))
  end.

(** The decoder's registers: position in the current quad, bits left over
    from the previous character, padding characters seen in a row, and the
    bytes written so far. *)
Record dstate := DState { quad_pos : Z; leftchar : Z; pads : Z; out : list Z }.

Definition dinit : dstate := DState 0 0 0 [].

Definition push (st : dstate) (v : Z) : dstate :=
  if quad_pos st =? 0 then DState 1 v 0 (out st)
  else if quad_pos st =? 1 then
    DState 2 (Z.land v 15) 0
      (out st ++ [Z.land (Z.lor (Z.shiftl (leftchar st) 2) (Z.shiftr v 4)) 255])
  else if quad_pos st =? 2 then
    DState 3 (Z.land v 3) 0
      (out st ++ [Z.land (Z.lor (Z.shiftl (leftchar st) 4) (Z.shiftr v 2)) 255])
  else
    DState 0 0 0
      (out st ++ [Z.land (Z.lor (Z.shiftl (leftchar st) 6) v) 255]).

(** [binascii.a2b_base64(s, strict_mode=False)]: characters outside the
    alphabet are skipped, a complete pad sequence ends the input, and
    leftover characters of an incomplete quad are an error ([None]). *)
Fixpoint a2b_base64 (s : string) (st : dstate) : option (list Z) :=
  match s with
  | EmptyString => if quad_pos st =? 0 then Some (out st) else None
  | String ch rest =>
      if Ascii.eqb ch pad_char then
        if 2 <=? quad_pos st then
          if 4 <=? quad_pos st + (pads st + 1) then Some (out st)
          else a2b_base64 rest (DState (quad_pos st) (leftchar st) (pads st + 1) (out st))
        else a2b_base64 rest st
      else
        match b64index ch with
        | None => a2b_base64 rest st
        | Some v => a2b_base64 rest (push st v)
        end
  end.

Definition is_ascii (s : string) : bool :=
  forallb (fun c => (N_of_ascii c <? 128)%N) (list_ascii_of_string s).

(** The four characters that encode the bytes [a], [b], [c], the last
    character of a one-byte and of a two-byte tail, and the checks that the
    round-trip proof runs over all pairs of bytes. *)
Definition e0 (a : Z) : Z := Z.shiftr a 2.
Definition e1 (a b : Z) : Z := Z.lor (Z.shiftl (Z.land a 3) 4) (Z.shiftr b 4).
Definition e2 (b c : Z) : Z := Z.lor (Z.shiftl (Z.land b 15) 2) (Z.shiftr c 6).
Definition e3 (c : Z) : Z := Z.land c 63.
Definition t1 (a : Z) : Z := Z.shiftl (Z.land a 3) 4.
Definition t2 (a : Z) : Z := Z.shiftl (Z.land a 15) 2.

Definition sextet_ok (e : Z) : bool :=
  (0 <=? e) && (e <? 64) && negb (Ascii.eqb (b64char e) pad_char) &&
  bool_decide (b64index (b64char e) = Some e) && (N_of_ascii (b64char e) <? 128)%N.

Definition sextets_ok (a b : Z) : bool :=
  sextet_ok (e0 a) && sextet_ok (e1 a b) && sextet_ok (e2 a b) && sextet_ok (e3 a) &&
  sextet_ok (t1 a) && sextet_ok (t2 a).

Definition decoded_ok (a b : Z) : bool :=
  (Z.land (Z.lor (Z.shiftl (e0 a) 2) (Z.shiftr (e1 a b) 4)) 255 =? a) &&
  (Z.land (Z.lor (Z.shiftl (e0 a) 2) (Z.shiftr (t1 a) 4)) 255 =? a) &&
  (Z.land (e1 a b) 15 =? Z.shiftr b 4) &&
  (Z.land (Z.lor (Z.shiftl (Z.shiftr a 4) 4) (Z.shiftr (e2 a b) 2)) 255 =? a) &&
  (Z.land (Z.lor (Z.shiftl (Z.shiftr a 4) 4) (Z.shiftr (t2 a) 2)) 255 =? a) &&
  (Z.land (e2 a b) 3 =? Z.shiftr b 6) &&
  (Z.land (Z.lor (Z.shiftl (Z.shiftr a 6) 6) (e3 a)) 255 =? a).

(** [base64.b64decode(s)] on a [str]: a non-ASCII character raises
    [ValueError], bad padding raises [binascii.Error]; both are [None]. *)
Definition b64decode (s : string) : option (list Z) :=
  if is_ascii s then a2b_base64 s dinit else None.

End Base64.

(** ** Calendar arithmetic and ISO strings of Python's [datetime] *)

Module Datetime.

(** [tz] is the UTC offset in microseconds of an aware value, [None] for a
    naive one. *)
Record datetime := Datetime {
  year : Z; month : Z; day : Z;
  hour : Z; minute : Z; second : Z; microsecond : Z;
  tz : option Z
}.

#[global] Instance datetime_eq_dec : EqDecision datetime.
Proof. solve_decision. Defined.

Definition _is_leap (y : Z) : bool :=
  (y mod 4 =? 0) && (negb (y mod 100 =? 0) || (y mod 400 =? 0)).

Definition _DAYS_IN_MONTH : list Z := [-1; 31; 28; 31; 30; 31; 30; 31; 31; 30; 31; 30; 31].
Definition _DAYS_BEFORE_MONTH : list Z := [-1; 0; 31; 59; 90; 120; 151; 181; 212; 243; 273; 304; 334].

Definition _days_before_year (y : Z) : Z :=
  let y1 := y - 1 in y1 * 365 + y1 / 4 - y1 / 100 + y1 / 400.

Definition _days_in_month (y m : Z) : Z :=
  if (m =? 2) && _is_leap y then 29 else nth (Z.to_nat m) _DAYS_IN_MONTH 0.

Definition _days_before_month (y m : Z) : Z :=
  nth (Z.to_nat m) _DAYS_BEFORE_MONTH 0 + (if (2 <? m) && _is_leap y then 1 else 0).

Definition _ymd2ord (y m d : Z) : Z :=
  _days_before_year y + _days_before_month y m + d.

Definition _DI400Y : Z := 146097.
Definition _DI100Y : Z := 36524.
Definition _DI4Y : Z := 1461.
Definition _MAXORDINAL : Z := 3652059.

(** The end of [_ord2ymd]: month and day of the day numbered [n] from 0
    within its year, by an estimate of the month that is corrected when it
    is one too large. *)
Definition month_day (n : Z) (leapyear : bool) : Z * Z :=
  let m := Z.shiftr (n + 50) 5 in
  let preceding := nth (Z.to_nat m) _DAYS_BEFORE_MONTH 0 + (if (2 <? m) && leapyear then 1 else 0) in
  if n <? preceding then
    let m := m - 1 in
    let preceding :=
      preceding - (nth (Z.to_nat m) _DAYS_IN_MONTH 0 + (if (m =? 2) && leapyear then 1 else 0)) in
    (m, n - preceding + 1)
  else (m, n - preceding + 1).

Definition _ord2ymd (n0 : Z) : Z * Z * Z :=
  let n := n0 - 1 in
  let n400 := n / _DI400Y in let n := n mod _DI400Y in
  let y := n400 * 400 + 1 in
  let n100 := n / _DI100Y in let n := n mod _DI100Y in
  let n4 := n / _DI4Y in let n := n mod _DI4Y in
  let n1 := n / 365 in let n := n mod 365 in
  let y := y + n100 * 100 + n4 * 4 + n1 in
  if (n1 =? 4) || (n100 =? 4) then (y - 1, 12, 31)
  else
    let leapyear := (n1 =? 3) && (negb (n4 =? 24) || (n100 =? 3)) in
    let '(m, d) := month_day n leapyear in
    (y, m, d).

(** The range checks of the [datetime] constructor. *)
Definition valid (d : datetime) : bool :=
  (1 <=? year d) && (year d <=? 9999) && (1 <=? month d) && (month d <=? 12) &&
  (1 <=? day d) && (day d <=? _days_in_month (year d) (month d)) &&
  (0 <=? hour d) && (hour d <=? 23) && (0 <=? minute d) && (minute d <=? 59) &&
  (0 <=? second d) && (second d <=? 59) &&
  (0 <=? microsecond d) && (microsecond d <=? 999999) &&
  match tz d with
  | None => true
  | Some o => (-86400000000 <? o) && (o <? 86400000000)
  end.

Definition toordinal (d : datetime) : Z := _ymd2ord (year d) (month d) (day d).

(** [d + timedelta(days=n)]: [None] is [OverflowError]. *)
Definition add_days (d : datetime) (n : Z) : option datetime :=
  let o := toordinal d + n in
  if (Z.abs n <=? 999999999) && (0 <? o) && (o <=? _MAXORDINAL) then
    let '(y, m, dd) := _ord2ymd o in
    Some (Datetime y m dd (hour d) (minute d) (second d) (microsecond d) (tz d))
  else None.

(** Microseconds since the start of day 1 of year 1, local time. *)
Definition to_microseconds (d : datetime) : Z :=
  (((toordinal d * 24 + hour d) * 60 + minute d) * 60 + second d) * 1000000 + microsecond d.

(** [(a - b).days]: [None] is the [TypeError] raised when exactly one of
    the operands is naive. *)
Definition sub_days (a b : datetime) : option Z :=
  match tz a, tz b with
  | None, None => Some ((to_microseconds a - to_microseconds b) / 86400000000)
  | Some oa, Some ob =>
      Some (((to_microseconds a - oa) - (to_microseconds b - ob)) / 86400000000)
  | _, _ => None
  end.

(** *** Printing *)

Definition digit_char (d : Z) : ascii := ascii_of_N (Z.to_N (48 + d)).

(** [n] on [w] decimal digits, zero padded. *)
Fixpoint zpad (w : nat) (n : Z) : string :=
  match w with
  | O => EmptyString
  | S w' => zpad w' (n / 10) +:+ String (digit_char (n mod 10)) EmptyString
  end.

Definition format_offset (o : Z) : string :=
  let sign := if o <? 0 then "-" else "+" in
  let a := Z.abs o in
  let hh := a / 3600000000 in
  let mm := (a mod 3600000000) / 60000000 in
  let ss := (a mod 60000000) / 1000000 in
  let us := a mod 1000000 in
  sign +:+ zpad 2 hh +:+ ":" +:+ zpad 2 mm
    +:+ (if (ss =? 0) && (us =? 0) then EmptyString
         else ":" +:+ zpad 2 ss +:+ (if us =? 0 then EmptyString else "." +:+ zpad 6 us)).

(** [d.isoformat()] *)
Definition isoformat (d : datetime) : string :=
  zpad 4 (year d) +:+ "-" +:+ zpad 2 (month d) +:+ "-" +:+ zpad 2 (day d) +:+ "T"
    +:+ zpad 2 (hour d) +:+ ":" +:+ zpad 2 (minute d) +:+ ":" +:+ zpad 2 (second d)
    +:+ (if microsecond d =? 0 then EmptyString else "." +:+ zpad 6 (microsecond d))
    +:+ match tz d with None => EmptyString | Some o => format_offset o end.

(** [d.strftime('%Y-%m-%d %H:%M:%S')] *)
Definition strftime_seconds (d : datetime) : string :=
  zpad 4 (year d) +:+ "-" +:+ zpad 2 (month d) +:+ "-" +:+ zpad 2 (day d) +:+ " "
    +:+ zpad 2 (hour d) +:+ ":" +:+ zpad 2 (minute d) +:+ ":" +:+ zpad 2 (second d).

(** *** Parsing: the grammar of [datetime.fromisoformat] in Python 3.7 to
    3.10, [YYYY-MM-DD[*HH[:MM[:SS[.fff[fff]]]][+HH:MM[:SS[.ffffff]]]]].
    Later versions accept more strings and agree on these. *)

Definition digit_val (c : ascii) : option Z :=
  let n := Z.of_N (N_of_ascii c) in
  if (48 <=? n) && (n <=? 57) then Some (n - 48) else None.

(** The value of a string made of decimal digits only. *)
Fixpoint parse_digits (s : list ascii) (acc : Z) : option Z :=
  match s with
  | [] => Some acc
  | c :: s' =>
      match digit_val c with
      | Some d => parse_digits s' (10 * acc + d)
      | None => None
      end
  end.

(** [int(s[a:b])] for a slice that must be [n] digits long. *)
Definition int_field (n : nat) (s : list ascii) : option Z :=
  if (length s =? n)%nat then parse_digits s 0 else None.

Definition slice (a b : nat) (s : list ascii) : list ascii := firstn (b - a) (skipn a s).

Definition _parse_isoformat_date (s : list ascii) : option (Z * Z * Z) :=
  match int_field 4 (slice 0 4 s), int_field 2 (slice 5 7 s), int_field 2 (slice 8 10 s) with
  | Some y, Some m, Some d =>
      if bool_decide (slice 4 5 s = ["-"%char]) && bool_decide (slice 7 8 s = ["-"%char])
      then Some (y, m, d) else None
  | _, _, _ => None
  end.

(** The loop of [_parse_hh_mm_ss_ff] over the components [comp], [comp+1],
    ... up to seconds; it returns the components read and the rest. *)
Fixpoint parse_hms (fuel : nat) (comp : nat) (s : list ascii) (acc : list Z)
  : option (list Z * list ascii) :=
  match fuel with
  | O => Some (acc, s)
  | S fuel' =>
      match int_field 2 (firstn 2 s) with
      | None => None
      | Some v =>
          let rest := skipn 2 s in
          match rest with
          | [] => Some (acc ++ [v], [])
          | c :: rest' =>
              if (2 <=? comp)%nat then Some (acc ++ [v], rest)
              else if Ascii.eqb c ":" then parse_hms fuel' (S comp) rest' (acc ++ [v])
              else None
          end
      end
  end.

Definition _parse_hh_mm_ss_ff (s : list ascii) : option (Z * Z * Z * Z) :=
  match parse_hms 3 0 s [] with
  | None => None
  | Some (comps, rest) =>
      let h := nth 0 comps 0 in let m := nth 1 comps 0 in let sec := nth 2 comps 0 in
      match rest with
      | [] => Some (h, m, sec, 0)
      | c :: frac =>
          if Ascii.eqb c "." then
            match length frac, parse_digits frac 0 with
            | 3%nat, Some us => Some (h, m, sec, us * 1000)
            | 6%nat, Some us => Some (h, m, sec, us)
            | _, _ => None
            end
          else None
      end
  end.

(** Position of the first occurrence of [c], as [str.find]. *)
Fixpoint find_char (c : ascii) (s : list ascii) : option nat :=
  match s with
  | [] => None
  | x :: s' => if Ascii.eqb x c then Some O else option_map S (find_char c s')
  end.

Definition _parse_isoformat_time (s : list ascii) : option (Z * Z * Z * Z * option Z) :=
  if (length s <? 2)%nat then None
  else
    let tz_pos :=
      match find_char "-" s with
      | Some p => Some p
      | None => find_char "+" s
      end in
    match tz_pos with
    | None =>
        match _parse_hh_mm_ss_ff s with
        | Some (h, m, sec, us) => Some (h, m, sec, us, None)
        | None => None
        end
    | Some p =>
        let tzstr := skipn (S p) s in
        match _parse_hh_mm_ss_ff (firstn p s) with
        | Some (h, m, sec, us) =>
            if bool_decide (length tzstr ∈ [5%nat; 8%nat; 15%nat]) then
              match _parse_hh_mm_ss_ff tzstr with
              | Some (oh, om, os, ous) =>
                  let mag := ((oh * 60 + om) * 60 + os) * 1000000 + ous in
                  let sign := if bool_decide (nth_error s p = Some "-"%char) then -1 else 1 in
                  Some (h, m, sec, us, Some (sign * mag))
              | None => None
              end
            else None
        | None => None
        end
    end.

(** [datetime.fromisoformat(s)]: [None] is [ValueError]. *)
Definition fromisoformat (str : string) : option datetime :=
  let s := list_ascii_of_string str in
  match _parse_isoformat_date (firstn 10 s) with
  | None => None
  | Some (y, m, d) =>
      let tstr := skipn 11 s in
      let time :=
        match tstr with
        | [] => Some (0, 0, 0, 0, None)
        | _ => _parse_isoformat_time tstr
        end in
      match time with
      | None => None
      | Some (h, mi, sec, us, o) =>
          let r := Datetime y m d h mi sec us o in
          if valid r then Some r else None
      end
  end.

(** [s.replace('Z', '+00:00')] *)
Fixpoint replace_Z (s : string) : string :=
  match s with
  | EmptyString => EmptyString
  | String c s' => if Ascii.eqb c "Z" then "+00:00" +:+ replace_Z s' else String c (replace_Z s')
  end.

End Datetime.

(** ** The environment of a run: randomness, clock, identity service, store *)

Module Runtime.
Import Bytes Datetime.

Inductive exn :=
| ValueError (msg : string)
| KeyError (key : string)
| TypeError
| OverflowError
| AttributeError
| RecursionError
| ResourceNotFoundError
| ResourceExistsError
| GraphError
| SqliteError
| SqliteIntegrityError.

Inductive result (A : Type) := Ok (a : A) | Raise (e : exn).
Arguments Ok {A} a.
Arguments Raise {A} e.

(** [rand] is the tape of the system random source, [clock] the successive
    answers of [datetime.now()], [graph] the successive answers of the
    identity service (an object id, or [None] when the call fails); each
    has a cursor.  [store] is the backing store of the application. *)
Record World (St : Type) := MkWorld {
  rand : nat → nat; rand_pos : nat;
  clock : nat → datetime; clock_pos : nat;
  graph : nat → option string; graph_pos : nat;
  store : St
}.
Arguments MkWorld {St}.
Arguments rand {St}. Arguments rand_pos {St}.
Arguments clock {St}. Arguments clock_pos {St}.
Arguments graph {St}. Arguments graph_pos {St}.
Arguments store {St}.

Definition M (St A : Type) : Type := World St → result A * World St.

Definition ret {St A} (a : A) : M St A := fun w => (Ok a, w).

Definition bind {St A B} (m : M St A) (k : A → M St B) : M St B :=
  fun w => match m w with
           | (Ok a, w') => k a w'
           | (Raise e, w') => (Raise e, w')
           end.

Definition raise {St A} (e : exn) : M St A := fun w => (Raise e, w).

#[global] Instance M_ret {St} : MRet (M St) := fun A => @ret St A.
#[global] Instance M_bind {St} : MBind (M St) := fun A B k m => bind m k.

Definition get_store {St} : M St St := fun w => (Ok (store w), w).

Definition with_store {St} (s : St) (w : World St) : World St :=
  MkWorld (rand w) (rand_pos w) (clock w) (clock_pos w) (graph w) (graph_pos w) s.

Definition put_store {St} (s : St) : M St () := fun w => (Ok (), with_store s w).

(** One draw below [n] from the random source. *)
Definition randbelow {St} (n : nat) : M St nat :=
  fun w => (Ok (rand w (rand_pos w) mod n)%nat,
            MkWorld (rand w) (S (rand_pos w)) (clock w) (clock_pos w) (graph w) (graph_pos w) (store w)).

(** [secrets.choice(alphabet)] *)
Definition choice {St} (alphabet : string) : M St ascii :=
  i ← randbelow (String.length alphabet);
  mret (nth i (list_ascii_of_string alphabet) "000"%char).

(** [''.join(secrets.choice(alphabet) for _ in range(length))] *)
Fixpoint join_choices {St} (alphabet : string) (length : nat) : M St string :=
  match length with
  | O => mret EmptyString
  | S n => c ← choice alphabet; s ← join_choices alphabet n; mret (String c s)
  end.

(** [os.urandom(n)] *)
Fixpoint urandom {St} (n : nat) : M St (list Z) :=
  match n with
  | O => mret []
  | S n' => b ← randbelow 256; bs ← urandom n'; mret (Z.of_nat b :: bs)
  end.

(** The closed forms of the generators: [n] draws below [m] starting at
    position [pos] of the tape, and the world after [n] draws. *)
Fixpoint draws (rnd : nat → nat) (m : nat) (n pos : nat) : list nat :=
  match n with
  | O => []
  | S n' => (rnd pos mod m)%nat :: draws rnd m n' (S pos)
  end.

Definition skip_rand {St} (n : nat) (w : World St) : World St :=
  MkWorld (rand w) (rand_pos w + n) (clock w) (clock_pos w) (graph w) (graph_pos w) (store w).

Definition drawn_bytes {St} (n : nat) (w : World St) : list Z :=
  map Z.of_nat (draws (rand w) 256 n (rand_pos w)).

Definition drawn_string {St} (alphabet : string) (n : nat) (w : World St) : string :=
  string_of_list_ascii
    (map (fun i => nth i (list_ascii_of_string alphabet) "000"%char)
       (draws (rand w) (String.length alphabet) n (rand_pos w))).

Definition skip_clock {St} (n : nat) (w : World St) : World St :=
  MkWorld (rand w) (rand_pos w) (clock w) (n + clock_pos w) (graph w) (graph_pos w) (store w).

Definition skip_graph {St} (n : nat) (w : World St) : World St :=
  MkWorld (rand w) (rand_pos w) (clock w) (clock_pos w) (graph w) (n + graph_pos w) (store w).

(** [datetime.datetime.now()] *)
Definition now {St} : M St datetime :=
  fun w => (Ok (clock w (clock_pos w)), skip_clock 1 w).

(** A call to the identity service. *)
Definition graph_call {St} : M St string :=
  fun w =>
    match graph w (graph_pos w) with
    | Some oid => (Ok oid, skip_graph 1 w)
    | None => (Raise GraphError, skip_graph 1 w)
    end.

Definition substr (a b : nat) (s : string) : string := String.substring a (b - a) s.

(** [str(uuid.uuid4())]: 16 random bytes, the version and variant bits
    forced, printed as 8-4-4-4-12 hexadecimal digits. *)
Definition uuid_bytes (b : list Z) : list Z :=
  let b := <[6%nat := Z.lor (Z.land (nth 6 b 0) 15) 64]> b in
  <[8%nat := Z.lor (Z.land (nth 8 b 0) 63) 128]> b.

Definition uuid_str (b : list Z) : string :=
  let h := hex (uuid_bytes b) in
  substr 0 8 h +:+ "-" +:+ substr 8 12 h +:+ "-" +:+ substr 12 16 h +:+ "-"
    +:+ substr 16 20 h +:+ "-" +:+ substr 20 32 h.

Definition uuid4 {St} : M St string := b ← urandom 16; mret (uuid_str b).

Definition string_ascii_uppercase : string := "ABCDEFGHIJKLMNOPQRSTUVWXYZ".
Definition string_ascii_lowercase : string := "abcdefghijklmnopqrstuvwxyz".
Definition string_ascii_letters : string := string_ascii_lowercase +:+ string_ascii_uppercase.
Definition string_digits : string := "0123456789".
Definition string_punctuation : string :=
  String "!" (String "034" "#$%&'()*+,-./:;<=>?@[\]^_`{|}~").

End Runtime.

(** ** [SecurityManager] of the owner application *)

Module SecurityManager.
Import Bytes Pbkdf2 Base64 Runtime.

Definition hash_password {St} (password : string) : M St string :=
  salt ← urandom 32;
  let key := pbkdf2_hmac (encode_utf8 password) salt 100000 32 in
  mret (b64encode (salt ++ key)).

(** Every exception raised in the body is caught and answered [False]. *)
Definition verify_password (stored_password provided_password : string) : bool :=
  match b64decode stored_password with
  | None => false
  | Some decoded =>
      let salt := firstn 32 decoded in
      let stored_key := skipn 32 decoded in
      let new_key := pbkdf2_hmac (encode_utf8 provided_password) salt 100000 32 in
      Bytes.eqb stored_key new_key
  end.

Definition generate_secure_password {St} (length : nat) : M St string :=
  let alphabet := string_ascii_letters +:+ string_digits +:+ string_punctuation in
  join_choices alphabet length.

Definition generate_access_code {St} (length : nat) : M St string :=
  let alphabet := string_ascii_uppercase +:+ string_digits in
  join_choices alphabet length.

End SecurityManager.

(** ** The Cosmos DB container of account documents

  A document is a dictionary from field names to JSON values.  The users
  container is a finite map from the id under which a document was written
  to the document; [containers] are the per-doctor containers of the
  database. *)

Module Cosmos.
Import Runtime.

#[warnings="-register-all"] Inductive value :=
| VNone
| VBool (b : bool)
| VInt (n : Z)
| VStr (s : string)
| VDict (kvs : list (string * value)).

Abbreviation item := (gmap string value).

Record db := Db { users : gmap string item; containers : gset string }.

(** Python truthiness. *)
Definition truthy (v : value) : bool :=
  match v with
  | VNone => false
  | VBool b => b
  | VInt n => negb (n =? 0)
  | VStr s => negb (bool_decide (s = EmptyString))
  | VDict kvs => match kvs with [] => false | _ => true end
  end.

(** [record.get(key)] and [record.get(key, default)] *)
Definition get (r : item) (k : string) : value := default VNone (r !! k).
Definition get_or (r : item) (k : string) (d : value) : value := default d (r !! k).

(** [record[key]] *)
Definition index {St} (r : item) (k : string) : M St value :=
  match r !! k with
  | Some v => mret v
  | None => raise (KeyError k)
  end.

(** [v == 'literal'] *)
Definition eq_str (v : value) (s : string) : bool :=
  match v with
  | VStr s' => bool_decide (s' = s)
  | _ => false
  end.

Definition read_item (id : string) : M db item :=
  d ← get_store;
  match users d !! id with
  | Some it => mret it
  | None => raise ResourceNotFoundError
  end.

Definition create_item (body : item) : M db item :=
  d ← get_store;
  match body !! "id" with
  | Some (VStr id) =>
      match users d !! id with
      | Some _ => raise ResourceExistsError
      | None => _ ← put_store (Db (<[id := body]> (users d)) (containers d)); mret body
      end
  | _ => raise (ValueError "id")
  end.

Definition replace_item (id : string) (body : item) : M db item :=
  d ← get_store;
  match users d !! id with
  | Some _ => _ ← put_store (Db (<[id := body]> (users d)) (containers d)); mret body
  | None => raise ResourceNotFoundError
  end.

Definition create_container_if_not_exists (name : string) : M db () :=
  d ← get_store;
  put_store (Db (users d) ({[name]} ∪ containers d)).

(** Decimal digits of a natural number, most significant first. *)
Fixpoint decimal (fuel : nat) (n : Z) (acc : string) : string :=
  match fuel with
  | O => acc
  | S fuel' =>
      let acc' := String (ascii_of_N (Z.to_N (48 + n mod 10))) acc in
      if n <? 10 then acc' else decimal fuel' (n / 10) acc'
  end.

Definition str_of_int (n : Z) : string :=
  if n <? 0 then "-" +:+ decimal (Z.to_nat (Z.log2 (- n) + 1)) (- n) EmptyString
  else decimal (Z.to_nat (Z.log2 n + 1)) n EmptyString.

(** [str(v)], as an f-string formats a value.  A string stands for itself;
    inside a dictionary strings are quoted, without escapes. *)
Fixpoint repr (v : value) : string :=
  match v with
  | VNone => "None"
  | VBool true => "True"
  | VBool false => "False"
  | VInt n => str_of_int n
  | VStr s => "'" +:+ s +:+ "'"
  | VDict kvs =>
      "{" +:+ String.concat ", " (map (fun kv => "'" +:+ fst kv +:+ "': " +:+ repr (snd kv)) kvs) +:+ "}"
  end.

Definition str_of (v : value) : string :=
  match v with
  | VStr s => s
  | _ => repr v
  end.

(** The loop [for key, value in update_data.items(): if key in record:
    record[key] = value] of [update_doctor_account] and
    [update_admin_account]. *)
Definition merge_fields (record update_data : item) : item :=
  map_fold (fun key value rec => if bool_decide (is_Some (rec !! key)) then <[key := value]> rec else rec)
    record update_data.

(** The live access codes: those of the pharmacy and laboratory documents. *)
Definition is_access_account (it : item) : bool :=
  eq_str (get it "role") "pharmacy" || eq_str (get it "role") "laboratory".

End Cosmos.

(** ** [AzureServices] of the admin application
     ([medical_practice_app/lib/python_admin/admin_app.py])

  Every method wraps its body in [try: ... except Exception: log; raise],
  which leaves results and exceptions as they are. *)

Module AdminAzureServices.
Import Datetime Runtime Cosmos.

Definition _generate_secure_password (length : nat) : M db string :=
  let alphabet := string_ascii_letters +:+ string_digits +:+ string_punctuation in
  join_choices alphabet length.

Definition _generate_access_code (length : nat) : M db string :=
  let alphabet := string_ascii_uppercase +:+ string_digits in
  join_choices alphabet length.

(** The dictionary that [_create_doctor] builds from the form. *)
Record doctor_data := DoctorData {
  first_name : string; last_name : string; email : string;
  speciality : string; phone_number : string; address : string;
  create_lab_account : bool
}.

(** The dictionary that [create_doctor_account] returns. *)
Record created := Created {
  doctor_id : string; doctor_email : string; doctor_password : string;
  pharmacy_id : string; pharmacy_code : string;
  lab_id : option string; lab_code : option string
}.

Definition opt_value (o : option string) : value :=
  match o with Some s => VStr s | None => VNone end.

(** [now().isoformat()] *)
Definition now_iso : M db string := t ← now; mret (isoformat t).

Definition access_record (id doctor name mail role code created updated : string) : item :=
  <["id" := VStr id]> (<["doctorId" := VStr doctor]> (<["name" := VStr name]>
  (<["email" := VStr mail]> (<["role" := VStr role]> (<["accessCode" := VStr code]>
  (<["isActive" := VBool true]> (<["createdAt" := VStr created]>
  (<["updatedAt" := VStr updated]> ∅)))))))).

(** The document written for a new doctor. *)
Definition new_doctor_record (data : doctor_data) (doctor_id object_id pharmacy_id : string)
    (lab_id : option string) (start finish created_at updated_at : string) : item :=
  <["id" := VStr doctor_id]> (<["userId" := VStr object_id]>
  (<["email" := VStr (email data)]> (<["firstName" := VStr (first_name data)]>
  (<["lastName" := VStr (last_name data)]>
  (<["displayName" := VStr (first_name data +:+ " " +:+ last_name data)]>
  (<["role" := VStr "doctor"]> (<["speciality" := VStr (speciality data)]>
  (<["phoneNumber" := VStr (phone_number data)]> (<["address" := VStr (address data)]>
  (<["isActive" := VBool true]> (<["hasPharmacyAccount" := VBool true]>
  (<["hasLabAccount" := VBool (bool_decide (lab_id ≠ None))]>
  (<["pharmacyAccountId" := VStr pharmacy_id]> (<["labAccountId" := opt_value lab_id]>
  (<["pharmacyAccountActive" := VBool true]>
  (<["labAccountActive" := VBool (bool_decide (lab_id ≠ None))]>
  (<["subscriptionStartDate" := VStr start]>
  (<["subscriptionEndDate" := VStr finish]>
  (<["createdAt" := VStr created_at]> (<["updatedAt" := VStr updated_at]>
  (<["settings" := VDict []]> ∅))))))))))))))))))))).

(** The laboratory account of [create_doctor_account], written only for a
    non-empty [lab_id]. *)
Definition create_lab_record (lab_id : option string) (doctor_id display_name : string)
  : M db (option string) :=
  match lab_id with
  | Some l =>
      if truthy (VStr l) then
        lab_code ← _generate_access_code 8;
        lc ← now_iso;
        lu ← now_iso;
        _ ← create_item
              (access_record l doctor_id (display_name +:+ "'s Laboratory")
                 ("lab-" +:+ substr 0 8 doctor_id +:+ "@example.com") "laboratory"
                 lab_code lc lu);
        mret (Some lab_code)
      else mret None
  | None => mret None
  end.

Definition create_doctor_account (data : doctor_data) : M db created :=
  password ← _generate_secure_password 16;
  let display_name := first_name data +:+ " " +:+ last_name data in
  object_id ← graph_call;
  doctor_id ← uuid4;
  pharmacy_id ← uuid4;
  lab_id ← (if create_lab_account data then l ← uuid4; mret (Some l) else mret None);
  start ← now_iso;
  t ← now;
  match add_days t 365 with
  | None => raise OverflowError
  | Some e =>
      created_at ← now_iso;
      updated_at ← now_iso;
      _ ← create_item
            (new_doctor_record data doctor_id object_id pharmacy_id lab_id
               start (isoformat e) created_at updated_at);
      pharmacy_code ← _generate_access_code 8;
      pc ← now_iso;
      pu ← now_iso;
      _ ← create_item
            (access_record pharmacy_id doctor_id (display_name +:+ "'s Pharmacy")
               ("pharmacy-" +:+ substr 0 8 doctor_id +:+ "@example.com") "pharmacy"
               pharmacy_code pc pu);
      lab_code ← create_lab_record lab_id doctor_id display_name;
      _ ← create_container_if_not_exists ("patients-" +:+ doctor_id);
      mret (Created doctor_id (email data) password pharmacy_id pharmacy_code lab_id lab_code)
  end.

Definition update_doctor_account (doctor_id : string) (update_data : item) : M db item :=
  doctor_record ← read_item doctor_id;
  let doctor_record := merge_fields doctor_record update_data in
  t ← now_iso;
  let doctor_record := <["updatedAt" := VStr t]> doctor_record in
  replace_item doctor_id doctor_record.

Definition activate_doctor_account (doctor_id : string) (active : bool) : M db item :=
  update_doctor_account doctor_id {["isActive" := VBool active]}.

(** The two shapes of the value returned by [add_lab_account_to_doctor]:
    the doctor document as it stands, or the new account. *)
Inductive lab_answer :=
| Existing (doctor_record : item)
| Added (doctor : item) (lab_id lab_code : string).

Definition add_lab_account_to_doctor (doctor_id : string) : M db lab_answer :=
  doctor_record ← read_item doctor_id;
  if truthy (get_or doctor_record "hasLabAccount" (VBool false))
     && truthy (get doctor_record "labAccountId")
  then mret (Existing doctor_record)
  else
    lab_id ← uuid4;
    lab_code ← _generate_access_code 8;
    let display_name := get_or doctor_record "displayName" (VStr "Doctor") in
    lc ← now_iso;
    lu ← now_iso;
    _ ← create_item
          (access_record lab_id doctor_id (str_of display_name +:+ "'s Laboratory")
             ("lab-" +:+ substr 0 8 doctor_id +:+ "@example.com") "laboratory" lab_code lc lu);
    t ← now_iso;
    let doctor_record :=
      <["updatedAt" := VStr t]> (<["labAccountActive" := VBool true]>
      (<["labAccountId" := VStr lab_id]> (<["hasLabAccount" := VBool true]> doctor_record))) in
    updated_doctor ← replace_item doctor_id doctor_record;
    mret (Added updated_doctor lab_id lab_code).

Definition regenerate_access_code (account_id : string) : M db string :=
  account_record ← read_item account_id;
  if negb (eq_str (get account_record "role") "pharmacy"
           || eq_str (get account_record "role") "laboratory")
  then raise (ValueError "Account is not a pharmacy or lab account")
  else
    new_code ← _generate_access_code 8;
    t ← now_iso;
    let account_record := <["updatedAt" := VStr t]> (<["accessCode" := VStr new_code]> account_record) in
    _ ← replace_item account_id account_record;
    mret new_code.

Definition update_subscription (doctor_id : string) (days : Z) : M db item :=
  doctor_record ← read_item doctor_id;
  let current_end_date := get doctor_record "subscriptionEndDate" in
  current_end ←
    (if truthy current_end_date then
       match current_end_date with
       | VStr s =>
           match fromisoformat (replace_Z s) with
           | Some d => mret d
           | None => raise (ValueError "Invalid isoformat string")
           end
       | _ => raise AttributeError
       end
     else now);
  match add_days current_end days with
  | None => raise OverflowError
  | Some new_end =>
      t ← now_iso;
      let doctor_record :=
        <["updatedAt" := VStr t]> (<["subscriptionEndDate" := VStr (isoformat new_end)]> doctor_record) in
      replace_item doctor_id doctor_record
  end.

End AdminAzureServices.

(** ** [AzureServices] and [OwnerApp] of the owner application
     ([medical_practice_app/lib/python_owner/owner_app.py]) *)

Module OwnerAzureServices.
Import Datetime Runtime Cosmos.

(** [v.lower()] exists on strings only. *)
Definition lower {St} (v : value) : M St () :=
  match v with
  | VStr _ => mret ()
  | _ => raise AttributeError
  end.

(** The block that brings the identity service in line when a name or the
    email was supplied. *)
Definition update_directory_user (admin_record update_data : item) : M db () :=
  if bool_decide (is_Some (update_data !! "firstName"))
     || bool_decide (is_Some (update_data !! "lastName"))
     || bool_decide (is_Some (update_data !! "email"))
  then
    _ ← index admin_record "firstName";
    _ ← index admin_record "lastName";
    first ← index admin_record "firstName";
    _ ← lower first;
    _ ← (if bool_decide (is_Some (update_data !! "email"))
         then _ ← index admin_record "email"; mret ()
         else mret ());
    _ ← index admin_record "userId";
    _ ← graph_call;
    mret ()
  else mret ().

Definition update_admin_account (admin_id : string) (update_data : item) : M db item :=
  admin_record ← read_item admin_id;
  if negb (eq_str (get admin_record "role") "admin")
  then raise (ValueError "The account is not an admin account")
  else
    let admin_record := merge_fields admin_record update_data in
    t ← now;
    let admin_record := <["updatedAt" := VStr (isoformat t)]> admin_record in
    updated_record ← replace_item admin_id admin_record;
    _ ← update_directory_user admin_record update_data;
    mret updated_record.

End OwnerAzureServices.

Module OwnerApp.
Import Datetime Runtime Cosmos.

(** The chain of tests on [days_left] in [_populate_doctors_tree]. *)
Definition subscription_status (days_left : Z) : string :=
  if days_left <? 0 then "Expired"
  else if days_left <? 30 then "Expiring Soon"
  else "Active".

Definition parse_date (v : value) : option datetime :=
  match v with
  | VStr s => fromisoformat (replace_Z s)
  | _ => None
  end.

(** [days_left] and [subscription_status] of one doctor of the list; both
    stay empty when a date is missing, does not parse, or cannot be
    compared with [now]. *)
Definition doctor_subscription (now : datetime) (doctor : item) : option Z * string :=
  let start_date_str := get_or doctor "subscriptionStartDate" (VStr EmptyString) in
  let end_date_str := get_or doctor "subscriptionEndDate" (VStr EmptyString) in
  if truthy start_date_str && truthy end_date_str then
    match parse_date start_date_str, parse_date end_date_str with
    | Some _, Some end_date_dt =>
        match sub_days end_date_dt now with
        | Some days_left => (Some days_left, subscription_status days_left)
        | None => (None, EmptyString)
        end
    | _, _ => (None, EmptyString)
    end
  else (None, EmptyString).

End OwnerApp.

(** ** [AdminApplication], the local SQLite variant
     ([python_admin/admin_app.py]) *)

Module AdminApplication.
Import Bytes Sha256 Datetime Runtime.

Record doctor_row := DoctorRow {
  d_id : Z; d_username : string; d_password : string; d_name : string;
  d_specialty : string; d_email : string; d_phone : string; d_created_at : string
}.

(** A row of [pharmacies] or of [laboratories]; [None] is [NULL]. *)
Record account_row := AccountRow {
  a_id : Z; a_name : string; a_address : option string; a_phone : option string;
  a_access_code : string; a_doctor_id : option Z; a_created_at : string
}.

(** The three tables with their [AUTOINCREMENT] counters.  [broken] marks a
    connection on which every statement raises [sqlite3.Error]. *)
Record db := Db {
  doctors : list doctor_row; doctors_seq : Z;
  pharmacies : list account_row; pharmacies_seq : Z;
  laboratories : list account_row; laboratories_seq : Z;
  broken : bool
}.

(** [SELECT COUNT( * ) FROM t WHERE access_code = ?] *)
Definition count_code (t : list account_row) (code : string) : Z :=
  Z.of_nat (length (filter (fun r => a_access_code r = code) t)).

(** [SELECT COUNT( * ) FROM t WHERE doctor_id = ?] *)
Definition count_doctor (t : list account_row) (doctor_id : Z) : Z :=
  Z.of_nat (length (filter (fun r => a_doctor_id r = Some doctor_id) t)).

(** [fuel] is the depth of recursion left before [RecursionError]. *)
Fixpoint generate_access_code (fuel : nat) : M db string :=
  match fuel with
  | O => raise RecursionError
  | S fuel' =>
      let characters := string_ascii_uppercase +:+ string_digits in
      code ← join_choices characters 8;
      d ← get_store;
      if broken d then mret code
      else if 0 <? count_code (pharmacies d) code then generate_access_code fuel'
      else if 0 <? count_code (laboratories d) code then generate_access_code fuel'
      else mret code
  end.

(** Whether one of the first [fuel] candidates is returned: the connection
    is broken, or the candidate is in neither table. *)
Fixpoint settles (fuel : nat) (w : World db) : bool :=
  match fuel with
  | O => false
  | S fuel' =>
      let code := drawn_string (string_ascii_uppercase +:+ string_digits) 8 w in
      broken (store w)
      || (count_code (pharmacies (store w)) code =? 0)
         && (count_code (laboratories (store w)) code =? 0)
      || settles fuel' (skip_rand 8 w)
  end.

(** [hashlib.sha256(password.encode()).hexdigest()] *)
Definition hash_doctor_password (password : string) : string :=
  hexdigest (encode_utf8 password).

(** The fields of the doctor dialog as [validate_and_save] reads them, the
    text fields other than the passwords already stripped. *)
Record doctor_form := DoctorForm {
  f_username : string; f_password : string; f_confirm_password : string;
  f_name : string; f_specialty : string; f_email : string; f_phone : string;
  f_create_related_accounts : bool
}.

Inductive outcome := Saved | Cancelled | ErrorLabel (text : string) | ErrorBox (text : string).

(** The longest prefix without [@]. *)
Fixpoint until_at (s : list ascii) : list ascii :=
  match s with
  | c :: s' => if Ascii.eqb c "@" then [] else c :: until_at s'
  | [] => []
  end.

Fixpoint dot_then_char (s : list ascii) : bool :=
  match s with
  | c :: s' =>
      (Ascii.eqb c "." && match s' with _ :: _ => true | [] => false end) || dot_then_char s'
  | [] => false
  end.

(** [re.match(r"[^@]+@[^@]+\.[^@]+", email)]: a non-empty part without
    [@], an [@], and before the next [@] a dot that is neither first nor
    last. *)
Definition email_matches (email : string) : bool :=
  let s := list_ascii_of_string email in
  let local := until_at s in
  match local, drop (length local) s with
  | _ :: _, _ :: rest =>
      match until_at rest with
      | _ :: tail => dot_then_char tail
      | [] => false
      end
  | _, _ => false
  end.

Definition insert_account (t : list account_row) (seq : Z) (name code : string)
    (doctor_id : Z) (created_at : string) : option (list account_row * Z) :=
  if bool_decide (Exists (fun r => a_access_code r = code) t) then None
  else Some (t ++ [AccountRow (seq + 1) name None None code (Some doctor_id) created_at], seq + 1).

(** [confirm] is the answer to the question asked when the doctor already
    has accounts.  A failing statement is reported in a message box and
    leaves the statements before it in place. *)
Definition create_associated_accounts (fuel : nat) (confirm : bool)
    (doctor_id : Z) (doctor_name : string) : M db outcome :=
  d ← get_store;
  if broken d then mret (ErrorBox "Error creating associated accounts")
  else if ((0 <? count_doctor (pharmacies d) doctor_id) || (0 <? count_doctor (laboratories d) doctor_id))
          && negb confirm
  then mret Cancelled
  else
    pharmacy_access_code ← generate_access_code fuel;
    t ← now;
    d ← get_store;
    match insert_account (pharmacies d) (pharmacies_seq d) (doctor_name +:+ "'s Pharmacy")
            pharmacy_access_code doctor_id (strftime_seconds t) with
    | None => mret (ErrorBox "Error creating associated accounts")
    | Some (ph, phs) =>
        _ ← put_store (Db (doctors d) (doctors_seq d) ph phs (laboratories d) (laboratories_seq d) (broken d));
        lab_access_code ← generate_access_code fuel;
        t ← now;
        d ← get_store;
        match insert_account (laboratories d) (laboratories_seq d) (doctor_name +:+ "'s Laboratory")
                lab_access_code doctor_id (strftime_seconds t) with
        | None => mret (ErrorBox "Error creating associated accounts")
        | Some (lb, lbs) =>
            _ ← put_store (Db (doctors d) (doctors_seq d) (pharmacies d) (pharmacies_seq d) lb lbs (broken d));
            mret Saved
        end
    end.

(** [validate_and_save] of [add_doctor]. *)
Definition add_doctor (fuel : nat) (confirm : bool) (f : doctor_form) : M db outcome :=
  if bool_decide (f_username f = EmptyString) then mret (ErrorLabel "Username is required")
  else if bool_decide (f_password f = EmptyString) then mret (ErrorLabel "Password is required")
  else if bool_decide (f_password f ≠ f_confirm_password f) then mret (ErrorLabel "Passwords do not match")
  else if bool_decide (f_name f = EmptyString) then mret (ErrorLabel "Name is required")
  else if negb (bool_decide (f_email f = EmptyString)) && negb (email_matches (f_email f))
  then mret (ErrorLabel "Invalid email format")
  else
    let hashed_password := hash_doctor_password (f_password f) in
    d ← get_store;
    if broken d then mret (ErrorLabel "Database error")
    else
      t ← now;
      if bool_decide (Exists (fun r => d_username r = f_username f) (doctors d))
      then mret (ErrorLabel "Username already exists")
      else
        let doctor_id := doctors_seq d + 1 in
        let row := DoctorRow doctor_id (f_username f) hashed_password (f_name f)
                     (f_specialty f) (f_email f) (f_phone f) (strftime_seconds t) in
        _ ← put_store (Db (doctors d ++ [row]) doctor_id (pharmacies d) (pharmacies_seq d)
                         (laboratories d) (laboratories_seq d) (broken d));
        _ ← (if f_create_related_accounts f
             then create_associated_accounts fuel confirm doctor_id (f_name f)
             else mret Saved);
        mret Saved.

Definition set_doctor (doctor_id : Z) (f : doctor_form) (r : doctor_row) : doctor_row :=
  if bool_decide (d_id r = doctor_id) then
    DoctorRow (d_id r) (d_username r)
      (if bool_decide (f_password f = EmptyString) then d_password r
       else hash_doctor_password (f_password f))
      (f_name f) (f_specialty f) (f_email f) (f_phone f) (d_created_at r)
  else r.

(** [validate_and_save] of [edit_doctor]: the password column is rewritten
    only when a new password was typed. *)
Definition edit_doctor (doctor_id : Z) (f : doctor_form) : M db outcome :=
  if negb (bool_decide (f_password f = EmptyString)) && bool_decide (f_password f ≠ f_confirm_password f)
  then mret (ErrorLabel "Passwords do not match")
  else if bool_decide (f_name f = EmptyString) then mret (ErrorLabel "Name is required")
  else if negb (bool_decide (f_email f = EmptyString)) && negb (email_matches (f_email f))
  then mret (ErrorLabel "Invalid email format")
  else
    d ← get_store;
    if broken d then mret (ErrorLabel "Database error")
    else
      _ ← put_store (Db (map (set_doctor doctor_id f) (doctors d)) (doctors_seq d)
                       (pharmacies d) (pharmacies_seq d)
                       (laboratories d) (laboratories_seq d) (broken d));
      mret Saved.

End AdminApplication.

(** ** Predicates used in the statements *)

Module Shape.
Import Bytes Base64 Datetime Runtime Cosmos.

Definition is_code_char (c : ascii) : bool :=
  let n := N_of_ascii c in
  ((65 <=? n) && (n <=? 90) || (48 <=? n) && (n <=? 57))%N.

(** Eight characters, each an uppercase letter or a digit. *)
Definition access_code_ok (code : string) : Prop :=
  String.length code = 8%nat ∧
  Forall (fun c => is_code_char c = true) (list_ascii_of_string code).

(** A stored hash is well formed when it decodes to 64 bytes, a 32-byte
    salt followed by a 32-byte key. *)
Definition malformed (stored : string) : Prop :=
  match b64decode stored with
  | None => True
  | Some decoded => length decoded ≠ 64%nat
  end.

Definition world0 {St} (s : St) : World St :=
  MkWorld (fun _ => 0%nat) 0 (fun _ => Datetime 2024 1 1 0 0 0 0 None) 0 (fun _ => None) 0 s.

(** A world whose random tape counts upwards, whose clock advances by a
    microsecond per reading and whose identity service always answers. *)
Definition sample_world {St} (s : St) : World St :=
  MkWorld (fun n => n) 0 (fun n => Datetime 2024 1 1 0 0 0 (Z.of_nat n) None) 0
    (fun _ => Some "object-1") 0 s.

Definition sample_doctor : AdminAzureServices.doctor_data :=
  AdminAzureServices.DoctorData "Ada" "Lovelace" "ada@example.com"
    EmptyString EmptyString EmptyString false.

Definition no_doctor : AdminAzureServices.created :=
  AdminAzureServices.Created EmptyString EmptyString EmptyString EmptyString EmptyString
    None None.

(** The outcome of creating [sample_doctor] in an empty container. *)
Definition sample_created : AdminAzureServices.created :=
  match fst (AdminAzureServices.create_doctor_account sample_doctor
               (sample_world (Cosmos.Db ∅ ∅))) with
  | Ok c => c
  | Raise _ => no_doctor
  end.

Definition sample_after : World Cosmos.db :=
  snd (AdminAzureServices.create_doctor_account sample_doctor (sample_world (Cosmos.Db ∅ ∅))).

(** A container that holds one doctor whose subscription ends at [s], the
    end date read back, and the world after an extension by [days]. *)
Definition doctor_ending (s : string) : World Cosmos.db :=
  sample_world
    (Cosmos.Db
       {[ "doctor-1" := <["id" := VStr "doctor-1"]> (<["role" := VStr "doctor"]>
                        (<["subscriptionEndDate" := VStr s]> ∅)) ]}
       ∅).

Definition end_date (doctor_id : string) (w : World Cosmos.db) : option value :=
  match users (store w) !! doctor_id with
  | Some r => r !! "subscriptionEndDate"
  | None => None
  end.

Definition extend (doctor_id : string) (days : Z) (w : World Cosmos.db) : World Cosmos.db :=
  snd (AdminAzureServices.update_subscription doctor_id days w).

(** A container with a live pharmacy code and a laboratory account, in a
    world whose random source draws that very code. *)
Definition collision_world : World Cosmos.db :=
  world0
    (Cosmos.Db
       (<["pharmacy-1" := AdminAzureServices.access_record "pharmacy-1" "doctor-1"
                            "Pharmacy" "pharmacy@example.com" "pharmacy" "AAAAAAAA"
                            "2024-01-01T00:00:00" "2024-01-01T00:00:00"]>
        (<["lab-1" := AdminAzureServices.access_record "lab-1" "doctor-1"
                        "Laboratory" "lab@example.com" "laboratory" "BBBBBBBB"
                        "2024-01-01T00:00:00" "2024-01-01T00:00:00"]> ∅))
       ∅).

Definition access_code_of (id : string) (w : World Cosmos.db) : option value :=
  match users (store w) !! id with
  | Some r => r !! "accessCode"
  | None => None
  end.

(** Two doctors typed with the same password, an edit that types it
    again, and the worlds they lead to from empty tables. *)
Definition form_alice : AdminApplication.doctor_form :=
  AdminApplication.DoctorForm "alice" "abc" "abc" "Alice" EmptyString EmptyString EmptyString false.
Definition form_bob : AdminApplication.doctor_form :=
  AdminApplication.DoctorForm "bob" "abc" "abc" "Bob" EmptyString EmptyString EmptyString false.
Definition form_edit : AdminApplication.doctor_form :=
  AdminApplication.DoctorForm EmptyString "abc" "abc" "Alice A." EmptyString EmptyString EmptyString false.
Definition doctors_0 : World AdminApplication.db :=
  sample_world (AdminApplication.Db [] 0 [] 0 [] 0 false).
Definition doctors_1 : World AdminApplication.db :=
  snd (AdminApplication.add_doctor 10 true form_alice doctors_0).
Definition doctors_2 : World AdminApplication.db :=
  snd (AdminApplication.add_doctor 10 true form_bob doctors_1).
Definition doctors_3 : World AdminApplication.db :=
  snd (AdminApplication.edit_doctor 1 form_edit doctors_2).

(** An administrator on record and an update that names one field the
    record has and one it has not. *)
Definition sample_admin : Cosmos.item :=
  <["id" := VStr "admin-1"]> (<["role" := VStr "admin"]> (<["isActive" := VBool true]>
  (<["updatedAt" := VStr "2023-01-01T00:00:00"]> ∅))).

Definition admin_world : World Cosmos.db :=
  sample_world (Cosmos.Db {[ "admin-1" := sample_admin ]} ∅).

Definition sample_update : Cosmos.item :=
  <["isActive" := VBool false]> (<["nickname" := VStr "root"]> ∅).

(** The password ["a"] followed by a NUL character. *)
Definition nul_suffixed : string := String "a" (String "000" EmptyString).

End Shape.

(** ** [OwnerCredentials] and the login screens of the owner application
     ([medical_practice_app/lib/python_owner/owner_app.py]) *)

Module OwnerCredentials.
Import Bytes Datetime Runtime Cosmos SecurityManager.

(** The credentials file: absent, present without holding JSON (or not
    readable), or holding a JSON object, as [json.dump] writes one for the
    dictionary of credentials. *)
Inductive file := Missing | Unreadable | Holds (content : item).

(** [credentials] is the dictionary kept in memory; [writable] tells whether
    the file can be opened for writing. *)
Record state := State { credentials : item; credentials_file : file; writable : bool }.

Definition set_credentials (c : item) : M state () :=
  s ← get_store; put_store (State c (credentials_file s) (writable s)).

(** A failure to open or read the file is logged and answered with the
    empty dictionary. *)
Definition _load_credentials : M state item :=
  s ← get_store;
  mret (match credentials_file s with Holds content => content | _ => ∅ end).

(** A failure to write is logged and otherwise ignored. *)
Definition _save_credentials : M state () :=
  s ← get_store;
  if writable s then put_store (State (credentials s) (Holds (credentials s)) (writable s))
  else mret ().

(** The call answers the password that it prints. *)
Definition _create_initial_credentials : M state string :=
  initial_password ← generate_secure_password 16;
  hashed_password ← hash_password initial_password;
  created_at ← now;
  last_password_change ← now;
  _ ← set_credentials
        (<["username" := VStr "owner"]> (<["password_hash" := VStr hashed_password]>
        (<["created_at" := VStr (isoformat created_at)]> (<["last_login" := VNone]>
        (<["last_password_change" := VStr (isoformat last_password_change)]>
        (<["require_password_change" := VBool true]> ∅))))));
  _ ← _save_credentials;
  mret initial_password.

(** [OwnerCredentials()]: the initial password when one was created. *)
Definition __init__ : M state (option string) :=
  c ← _load_credentials;
  _ ← set_credentials c;
  if bool_decide (c = ∅) then p ← _create_initial_credentials; mret (Some p)
  else mret None.

(** [SecurityManager.verify_password] on a stored value: anything but a
    string makes [b64decode] raise, which is answered [False]. *)
Definition verify_stored (stored : value) (provided_password : string) : bool :=
  match stored with
  | VStr s => verify_password s provided_password
  | _ => false
  end.

Definition authenticate (username password : string) : M state bool :=
  s ← get_store;
  if negb (eq_str (get (credentials s) "username") username) then mret false
  else if negb (verify_stored (get_or (credentials s) "password_hash" (VStr EmptyString)) password)
  then mret false
  else
    t ← now;
    _ ← set_credentials (<["last_login" := VStr (isoformat t)]> (credentials s));
    _ ← _save_credentials;
    mret true.

Definition change_password (old_password new_password : string) : M state bool :=
  s ← get_store;
  if negb (verify_stored (get_or (credentials s) "password_hash" (VStr EmptyString)) old_password)
  then mret false
  else
    hashed_password ← hash_password new_password;
    t ← now;
    _ ← set_credentials
          (<["require_password_change" := VBool false]>
          (<["last_password_change" := VStr (isoformat t)]>
          (<["password_hash" := VStr hashed_password]> (credentials s))));
    _ ← _save_credentials;
    mret true.

Definition reset_password : M state string :=
  new_password ← generate_secure_password 16;
  hashed_password ← hash_password new_password;
  t ← now;
  s ← get_store;
  _ ← set_credentials
        (<["require_password_change" := VBool true]>
        (<["last_password_change" := VStr (isoformat t)]>
        (<["password_hash" := VStr hashed_password]> (credentials s))));
  _ ← _save_credentials;
  mret new_password.

Definition requires_password_change : M state value :=
  s ← get_store; mret (get_or (credentials s) "require_password_change" (VBool true)).

(** [len(s)]: the characters of a [str], that is the bytes of its encoding
    that do not continue a character. *)
Definition len (s : string) : Z :=
  Z.of_nat (length (filter (fun b => Z.land b 192 ≠ 128) (encode_utf8 s))).

(** What the window shows after a button was pressed. *)
Inductive screen :=
| ShowError (text : string)
| PasswordChangeScreen
| MainApp.

(** [OwnerApp._handle_login]; [self.authenticated] is set exactly when
    the answer is not an error. *)
Definition _handle_login (username password : string) : M state screen :=
  if bool_decide (username = EmptyString) || bool_decide (password = EmptyString)
  then mret (ShowError "Please enter both username and password.")
  else
    ok ← authenticate username password;
    if ok : bool then
      change ← requires_password_change;
      if truthy change then mret PasswordChangeScreen else mret MainApp
    else mret (ShowError "Invalid credentials. Please try again.").

(** [OwnerApp._handle_password_change]; [_handle_change_password] of the
    settings dialog runs the same checks. *)
Definition _handle_password_change (current_password new_password confirm_password : string)
  : M state screen :=
  if bool_decide (current_password = EmptyString) || bool_decide (new_password = EmptyString)
     || bool_decide (confirm_password = EmptyString)
  then mret (ShowError "Please fill in all fields.")
  else if bool_decide (new_password ≠ confirm_password)
  then mret (ShowError "New password and confirmation do not match.")
  else if len new_password <? 8
  then mret (ShowError "New password must be at least 8 characters long.")
  else
    ok ← change_password current_password new_password;
    if ok : bool then mret MainApp
    else mret (ShowError "Current password is incorrect.").

End OwnerCredentials.

(** The worlds that the operations on the credentials lead to. *)

Module OwnerWorlds.
Import Bytes Pbkdf2 Base64 Datetime Runtime Cosmos SecurityManager OwnerCredentials.

Definition password_alphabet : string :=
  string_ascii_letters +:+ string_digits +:+ string_punctuation.

(** The state once [_save_credentials] has run. *)
Definition saved (s : state) : state :=
  if writable s then State (credentials s) (Holds (credentials s)) (writable s) else s.

(** The text that [hash_password] makes of [p] in the world [w]. *)
Definition hashed {St} (p : string) (w : World St) : string :=
  b64encode (drawn_bytes 32 w ++ pbkdf2_hmac (encode_utf8 p) (drawn_bytes 32 w) 100000 32).

Definition rehashed (c : item) (h t : string) (b : bool) : item :=
  <["require_password_change" := VBool b]>
    (<["last_password_change" := VStr t]> (<["password_hash" := VStr h]> c)).

(** The world after the password [p] was hashed, written and saved. *)
Definition after_rehash (p : string) (b : bool) (w : World state) : World state :=
  with_store
    (saved (State (rehashed (credentials (store w)) (hashed p w)
                     (isoformat (clock w (clock_pos w))) b)
              (credentials_file (store w)) (writable (store w))))
    (skip_clock 1 (skip_rand 32 w)).

(** The world after a login was recorded. *)
Definition after_login (w : World state) : World state :=
  with_store
    (saved (State (<["last_login" := VStr (isoformat (clock w (clock_pos w)))]>
                     (credentials (store w)))
              (credentials_file (store w)) (writable (store w))))
    (skip_clock 1 w).

(** The password that [generate_secure_password] draws in [w], and the
    world after [_create_initial_credentials]. *)
Definition drawn_password {St} (w : World St) : string := drawn_string password_alphabet 16 w.

Definition initial_credentials (h created changed : string) : item :=
  <["username" := VStr "owner"]> (<["password_hash" := VStr h]>
  (<["created_at" := VStr created]> (<["last_login" := VNone]>
  (<["last_password_change" := VStr changed]>
  (<["require_password_change" := VBool true]> ∅))))).

Definition after_initial (w : World state) : World state :=
  with_store
    (saved (State (initial_credentials (hashed (drawn_password w) (skip_rand 16 w))
                     (isoformat (clock w (clock_pos w)))
                     (isoformat (clock w (S (clock_pos w)))))
              (credentials_file (store w)) (writable (store w))))
    (skip_clock 1 (skip_clock 1 (skip_rand 32 (skip_rand 16 w)))).

(** A new process: the memory holds nothing yet, the file is as [w] left
    it. *)
Definition restarted (w : World state) : World state :=
  with_store (State ∅ (credentials_file (store w)) (writable (store w))) w.

Definition fresh_install : World state :=
  MkWorld (fun n => n) 0 (fun n => Datetime 2024 1 1 0 0 0 (Z.of_nat n) None) 0
    (fun _ => None) 0 (State ∅ Missing true).

Definition owner_without_hash : World state :=
  MkWorld (fun n => n) 0 (fun n => Datetime 2024 1 1 0 0 0 (Z.of_nat n) None) 0
    (fun _ => None) 0 (State {["username" := VStr "owner"]} Missing true).

End OwnerWorlds.

(** ** Activation, deletion and password reset of accounts

  The remaining methods of the two [AzureServices] classes
  ([medical_practice_app/lib/python_admin/admin_app.py] and
  [medical_practice_app/lib/python_owner/owner_app.py]). *)

Module Accounts.
Import Datetime Runtime Cosmos SecurityManager.

Definition delete_item (id : string) : M db () :=
  d ← get_store;
  match users d !! id with
  | Some _ => put_store (Db (delete id (users d)) (containers d))
  | None => raise ResourceNotFoundError
  end.

(** [list(container.query_items("SELECT * FROM c WHERE c.role = '<role>'"))];
    the order of the documents is that of the container. *)
Definition query_role (role : string) : M db (list item) :=
  d ← get_store;
  mret (filter (fun it => eq_str (get it "role") role = true) (map snd (map_to_list (users d)))).

(** [try: body except ResourceNotFoundError: log a warning] *)
Definition except_not_found (body : M db ()) : M db () :=
  fun w =>
    match body w with
    | (Raise ResourceNotFoundError, w') => (Ok (), w')
    | r => r
    end.

(** The block that follows the write of the doctor document in
    [activate_pharmacy_account], [activate_lab_account] and
    [deactivate_all_accounts_for_doctor]: the linked account, when the
    doctor document names one, gets [isActive] and a new [updatedAt]; a
    linked account that is not in the container is passed over.  An id is a
    string; the SDK raises on any other value that is not a document. *)
Definition set_linked_account (link : value) (active : bool) : M db () :=
  if truthy link then
    except_not_found
      (match link with
       | VStr account_id =>
           account_record ← read_item account_id;
           t ← now;
           _ ← replace_item account_id
                 (<["updatedAt" := VStr (isoformat t)]>
                    (<["isActive" := VBool active]> account_record));
           mret ()
       | _ => raise TypeError
       end)
  else mret ().

(** *** The admin application *)

Definition get_doctor_accounts : M db (list item) := query_role "doctor".

Definition activate_pharmacy_account (doctor_id : string) (active : bool) : M db item :=
  doctor_record ← read_item doctor_id;
  t ← now;
  let doctor_record :=
    <["updatedAt" := VStr (isoformat t)]> (<["pharmacyAccountActive" := VBool active]> doctor_record) in
  updated_doctor ← replace_item doctor_id doctor_record;
  _ ← set_linked_account (get doctor_record "pharmacyAccountId") active;
  mret updated_doctor.

Definition activate_lab_account (doctor_id : string) (active : bool) : M db item :=
  doctor_record ← read_item doctor_id;
  t ← now;
  let doctor_record :=
    <["updatedAt" := VStr (isoformat t)]> (<["labAccountActive" := VBool active]> doctor_record) in
  updated_doctor ← replace_item doctor_id doctor_record;
  _ ← set_linked_account (get doctor_record "labAccountId") active;
  mret updated_doctor.

(** *** The owner application *)

(** The dictionary that [_create_admin] builds from the form. *)
Record admin_data := AdminData {
  first_name : string; last_name : string; email : string; permissions : option value
}.

Definition default_permissions : value :=
  VDict [("manageAccounts", VBool true); ("viewReports", VBool true); ("manageSettings", VBool true)].

(** The dictionary that [create_admin_account] returns. *)
Record created_admin := CreatedAdmin {
  admin_id : string; admin_email : string; admin_password : string
}.

Definition new_admin_record (data : admin_data) (admin_id object_id created_at updated_at : string)
  : item :=
  <["id" := VStr admin_id]> (<["userId" := VStr object_id]>
  (<["email" := VStr (email data)]> (<["firstName" := VStr (first_name data)]>
  (<["lastName" := VStr (last_name data)]>
  (<["displayName" := VStr (first_name data +:+ " " +:+ last_name data)]>
  (<["role" := VStr "admin"]> (<["isActive" := VBool true]>
  (<["permissions" := default default_permissions (permissions data)]>
  (<["createdAt" := VStr created_at]> (<["updatedAt" := VStr updated_at]> ∅)))))))))).

Definition create_admin_account (data : admin_data) : M db created_admin :=
  password ← generate_secure_password 16;
  object_id ← graph_call;
  admin_id ← uuid4;
  created_at ← now;
  updated_at ← now;
  _ ← create_item
        (new_admin_record data admin_id object_id (isoformat created_at) (isoformat updated_at));
  mret (CreatedAdmin admin_id (email data) password).

Definition get_admin_accounts : M db (list item) := query_role "admin".

Definition delete_admin_account (admin_id : string) : M db bool :=
  admin_record ← read_item admin_id;
  if negb (eq_str (get admin_record "role") "admin")
  then raise (ValueError "The account is not an admin account")
  else
    _ ← delete_item admin_id;
    _ ← index admin_record "userId";
    _ ← graph_call;
    mret true.

Definition deactivate_all_accounts_for_doctor (doctor_id : string) : M db bool :=
  doctor_record ← read_item doctor_id;
  t ← now;
  let doctor_record :=
    <["updatedAt" := VStr (isoformat t)]> (<["isActive" := VBool false]> doctor_record) in
  _ ← replace_item doctor_id doctor_record;
  _ ← set_linked_account (get doctor_record "pharmacyAccountId") false;
  _ ← set_linked_account (get doctor_record "labAccountId") false;
  mret true.

Definition reset_password (user_id : string) : M db string :=
  user_record ← read_item user_id;
  new_password ← generate_secure_password 16;
  _ ← index user_record "userId";
  _ ← graph_call;
  mret new_password.

End Accounts.

(** The shape of a link field and the effect of the linked write. *)

Module AccountShapes.
Import Datetime Runtime Cosmos.

(** A link field names an account by its id, or is empty. *)
Definition link_ok (link : value) : Prop :=
  match link with
  | VStr _ => True
  | _ => truthy link = false
  end.

Definition set_active (active : bool) (t : string) (account_record : item) : item :=
  <["updatedAt" := VStr t]> (<["isActive" := VBool active]> account_record).

(** The container after the linked account, if any, was written at [t]. *)
Definition link_alter (link : value) (active : bool) (t : string) (u : gmap string item)
  : gmap string item :=
  match link with
  | VStr account_id => if truthy link then alter (set_active active t) account_id u else u
  | _ => u
  end.

(** What [activate_pharmacy_account] and [activate_lab_account] do, for the
    method [run] that writes the field [flag] of the doctor document and
    follows the field [link]: the answer is the doctor document with [flag]
    set and nothing else changed but [updatedAt], it is what the container
    holds unless the doctor is linked to itself; the linked account, if it
    is in the container, is written with [isActive] set; no other document
    changes, none appears or disappears, and the linked account keeps its
    other fields. *)
Definition activates (run : string → bool → M db item) (flag link : string)
    (w : World db) (doctor_id : string) (rec : item) (active : bool) : Prop :=
  ∃ doc w',
    run doctor_id active w = (Ok doc, w') ∧
    doc !! flag = Some (VBool active) ∧
    (∀ k, k ≠ flag → k ≠ "updatedAt" → doc !! k = rec !! k) ∧
    (get rec link ≠ VStr doctor_id → users (store w') !! doctor_id = Some doc) ∧
    (∀ id r', get rec link = VStr id → id ≠ EmptyString →
              users (store w') !! id = Some r' → r' !! "isActive" = Some (VBool active)) ∧
    (∀ id, id ≠ doctor_id → get rec link ≠ VStr id →
           users (store w') !! id = users (store w) !! id) ∧
    (∀ id, is_Some (users (store w') !! id) ↔ is_Some (users (store w) !! id)) ∧
    (∀ id r r' k, id ≠ doctor_id →
                  users (store w) !! id = Some r → users (store w') !! id = Some r' →
                  k ≠ "isActive" → k ≠ "updatedAt" → r' !! k = r !! k).

(** A printable character other than the space. *)
Definition is_password_char (c : ascii) : bool :=
  let n := N_of_ascii c in ((33 <=? n) && (n <=? 126))%N.

Definition empty_clinic : World db :=
  MkWorld (fun n => n) 0 (fun n => Datetime 2024 1 1 0 0 0 (Z.of_nat n) None) 0
    (fun _ => Some "object-1") 0 (Db ∅ ∅).

(** A doctor whose subscription ran from 2024-01-01 to 2024-03-01. *)
Definition subscribed_doctor : item :=
  <["id" := VStr "doctor-1"]> (<["role" := VStr "doctor"]>
  (<["subscriptionStartDate" := VStr "2024-01-01T00:00:00"]>
  (<["subscriptionEndDate" := VStr "2024-03-01T00:00:00"]> ∅))).

Definition subscribed_clinic : World db :=
  MkWorld (fun n => n) 0 (fun n => Datetime 2024 1 1 0 0 0 (Z.of_nat n) None) 0
    (fun _ => Some "object-1") 0 (Db {[ "doctor-1" := subscribed_doctor ]} ∅).

(** A doctor with a pharmacy account and no laboratory account. *)
Definition sample_doctor_record : item :=
  <["id" := VStr "doctor-1"]> (<["role" := VStr "doctor"]> (<["isActive" := VBool true]>
  (<["pharmacyAccountId" := VStr "pharmacy-1"]> (<["labAccountId" := VNone]> ∅)))).

Definition sample_clinic : World db :=
  MkWorld (fun n => n) 0 (fun n => Datetime 2024 1 1 0 0 0 (Z.of_nat n) None) 0
    (fun _ => Some "object-1") 0
    (Db (<["doctor-1" := sample_doctor_record]>
        (<["pharmacy-1" := <["id" := VStr "pharmacy-1"]> (<["role" := VStr "pharmacy"]>
                           (<["isActive" := VBool true]> ∅))]> ∅))
        ∅).

End AccountShapes.

(** ** Deletions in the SQLite variant, and the constraints of its tables
     ([python_admin/admin_app.py]) *)

Module Tables.
Import Runtime AdminApplication.

(** [delete_doctor]: the accounts of the doctor go first, then the doctor;
    [confirm] is the answer to the question asked before. *)
Definition delete_doctor (confirm : bool) (doctor_id : Z) : M db outcome :=
  if negb confirm then mret Cancelled
  else
    d ← get_store;
    if broken d then mret (ErrorBox "Error deleting doctor")
    else
      _ ← put_store
            (Db (filter (fun r => d_id r ≠ doctor_id) (doctors d)) (doctors_seq d)
               (filter (fun r => a_doctor_id r ≠ Some doctor_id) (pharmacies d)) (pharmacies_seq d)
               (filter (fun r => a_doctor_id r ≠ Some doctor_id) (laboratories d))
               (laboratories_seq d) (broken d));
      mret Saved.

Definition delete_pharmacy (confirm : bool) (pharmacy_id : Z) : M db outcome :=
  if negb confirm then mret Cancelled
  else
    d ← get_store;
    if broken d then mret (ErrorBox "Error deleting pharmacy")
    else
      _ ← put_store
            (Db (doctors d) (doctors_seq d)
               (filter (fun r => a_id r ≠ pharmacy_id) (pharmacies d)) (pharmacies_seq d)
               (laboratories d) (laboratories_seq d) (broken d));
      mret Saved.

Definition delete_lab (confirm : bool) (lab_id : Z) : M db outcome :=
  if negb confirm then mret Cancelled
  else
    d ← get_store;
    if broken d then mret (ErrorBox "Error deleting laboratory")
    else
      _ ← put_store
            (Db (doctors d) (doctors_seq d) (pharmacies d) (pharmacies_seq d)
               (filter (fun r => a_id r ≠ lab_id) (laboratories d)) (laboratories_seq d)
               (broken d));
      mret Saved.

(** The constraints that the schema puts on the doctors: [username] is
    [UNIQUE], [id] is the primary key and never above the counter of
    [AUTOINCREMENT]. *)
Definition doctors_ok (d : db) : Prop :=
  NoDup (d_username <$> doctors d) ∧ NoDup (d_id <$> doctors d) ∧
  Forall (fun r => d_id r <= doctors_seq d) (doctors d).

(** The same for the ids of a table of accounts. *)
Definition account_ids_ok (t : list account_row) (seq : Z) : Prop :=
  NoDup (a_id <$> t) ∧ Forall (fun r => a_id r <= seq) t.

(** No access code is held twice, be it by two pharmacies, two laboratories
    or a pharmacy and a laboratory. *)
Definition codes_unique (d : db) : Prop :=
  NoDup (a_access_code <$> pharmacies d ++ laboratories d).

(** An account belongs to no doctor or to one whose id was handed out. *)
Definition owners_ok (d : db) : Prop :=
  Forall (fun r => ∀ i, a_doctor_id r = Some i → i <= doctors_seq d)
    (pharmacies d ++ laboratories d).

Definition tables_ok (d : db) : Prop :=
  doctors_ok d ∧ account_ids_ok (pharmacies d) (pharmacies_seq d) ∧
  account_ids_ok (laboratories d) (laboratories_seq d) ∧ codes_unique d ∧ owners_ok d.

(** The form passes the checks of [validate_and_save]. *)
Definition form_ok (f : doctor_form) : Prop :=
  f_username f ≠ EmptyString ∧ f_password f ≠ EmptyString ∧
  f_confirm_password f = f_password f ∧ f_name f ≠ EmptyString ∧
  (f_email f = EmptyString ∨ email_matches (f_email f) = true).

Definition empty_tables : World db :=
  MkWorld (fun n => n) 0 (fun n => Datetime.Datetime 2024 1 1 0 0 0 (Z.of_nat n) None) 0
    (fun _ => None) 0 (Db [] 0 [] 0 [] 0 false).

End Tables.

(** * Properties *)

(** ** Bytes, digests and derived keys *)

Module BytesFacts.
Import Bytes.

Lemma all_bytes_complete b : is_byte b → In b all_bytes.
Proof.
  intros [Hlo Hhi]. unfold all_bytes.
  apply in_map_iff. exists (Z.to_nat b). split; [lia |].
  apply in_seq. lia.
Qed.

Lemma forall_bytes (P : Z → bool) :
  forallb P all_bytes = true → ∀ b, is_byte b → P b = true.
Proof.
  intros H b Hb. rewrite forallb_forall in H. apply H, all_bytes_complete, Hb.
Qed.

Lemma forall_bytes2 (P : Z → Z → bool) :
  forallb (fun a => forallb (P a) all_bytes) all_bytes = true →
  ∀ a b, is_byte a → is_byte b → P a b = true.
Proof.
  intros H a b Ha Hb.
  pose proof (forall_bytes (fun a => forallb (P a) all_bytes) H a Ha) as Hrow.
  exact (forall_bytes (P a) Hrow b Hb).
Qed.

Lemma lxor_is_byte a b : is_byte a → is_byte b → is_byte (Z.lxor a b).
Proof.
  intros Ha Hb.
  assert (H : ((0 <=? Z.lxor a b) && (Z.lxor a b <? 256)) = true).
  { apply (forall_bytes2 (fun a b => (0 <=? Z.lxor a b) && (Z.lxor a b <? 256)));
      [vm_compute; reflexivity | assumption | assumption]. }
  unfold is_byte. apply andb_true_iff in H as [H1 H2]. lia.
Qed.

Lemma land_255_is_byte x : is_byte (Z.land x 255).
Proof.
  unfold is_byte. change 255 with (Z.ones 8). rewrite Z.land_ones by lia.
  pose proof (Z.mod_pos_bound x (2 ^ 8)). lia.
Qed.

Lemma length_be_bytes n x : length (be_bytes n x) = n.
Proof. induction n as [|n IH]; simpl; [reflexivity | by rewrite IH]. Qed.

Lemma be_bytes_ok n x : bytes_ok (be_bytes n x).
Proof.
  induction n as [|n IH]; simpl; constructor; [apply land_255_is_byte | exact IH].
Qed.

Lemma length_xor_bytes x y :
  length x = length y → length (xor_bytes x y) = length x.
Proof.
  revert y. induction x as [|a x IH]; intros [|b y] H; simpl in *; try done.
  by rewrite IH by lia.
Qed.

Lemma xor_bytes_ok x y : bytes_ok x → bytes_ok y → bytes_ok (xor_bytes x y).
Proof.
  intros Hx. revert y. induction Hx as [|a x Ha Hx IH]; intros y Hy; simpl.
  - constructor.
  - destruct Hy as [|b y Hb Hy]; constructor; [by apply lxor_is_byte | by apply IH].
Qed.

Lemma eqb_true x y : eqb x y = true ↔ x = y.
Proof. unfold eqb. apply bool_decide_eq_true. Qed.

Lemma encode_utf8_ok s : bytes_ok (encode_utf8 s).
Proof.
  unfold encode_utf8, bytes_ok. apply Forall_forall. intros b Hb.
  apply list_elem_of_In, in_map_iff in Hb as (c & <- & _).
  pose proof (N_ascii_bounded c). unfold is_byte. lia.
Qed.

End BytesFacts.

Module Sha256Facts.
Import Bytes BytesFacts Sha256.

Lemma length_compress h block : length (compress h block) = 8%nat.
Proof. reflexivity. Qed.

Lemma length_blocks fuel h ws : length h = 8%nat → length (blocks fuel h ws) = 8%nat.
Proof.
  revert h ws. induction fuel as [|fuel IH]; intros h ws Hh; simpl; [exact Hh |].
  destruct ws as [|w ws]; [exact Hh |]. apply IH, length_compress.
Qed.

Lemma length_flat_be_bytes ws : length (flat_map (be_bytes 4) ws) = (4 * length ws)%nat.
Proof.
  induction ws as [|w ws IH]; [reflexivity |].
  cbn [flat_map]. rewrite length_app, length_be_bytes, IH. simpl. lia.
Qed.

Lemma flat_be_bytes_ok ws : bytes_ok (flat_map (be_bytes 4) ws).
Proof.
  induction ws as [|w ws IH]; [constructor |].
  cbn [flat_map]. apply Forall_app. split; [apply be_bytes_ok | exact IH].
Qed.

(** A digest is 32 bytes long. *)
Lemma length_sha256 msg : length (sha256 msg) = 32%nat.
Proof.
  unfold sha256. rewrite length_flat_be_bytes, length_blocks; reflexivity.
Qed.

Lemma sha256_ok msg : bytes_ok (sha256 msg).
Proof. unfold sha256. apply flat_be_bytes_ok. Qed.

End Sha256Facts.

Module Pbkdf2Facts.
Import Bytes BytesFacts Sha256 Sha256Facts Pbkdf2.

Lemma length_hmac_block kb msg : length (hmac_block kb msg) = 32%nat.
Proof. apply length_sha256. Qed.

Lemma hmac_block_ok kb msg : bytes_ok (hmac_block kb msg).
Proof. apply sha256_ok. Qed.

Lemma F_shape kb salt c i : length (F kb salt c i) = 32%nat ∧ bytes_ok (F kb salt c i).
Proof.
  unfold F.
  set (Inv := fun ut : list Z * list Z =>
                (length (fst ut) = 32%nat ∧ bytes_ok (fst ut)) ∧
                (length (snd ut) = 32%nat ∧ bytes_ok (snd ut))).
  enough (H : Inv (N.iter (c - 1) (step kb)
                     (hmac_block kb (salt ++ be_bytes 4 i), hmac_block kb (salt ++ be_bytes 4 i))))
    by exact (proj2 H).
  apply N.iter_invariant.
  - intros [u t] [[Hu1 Hu2] [Ht1 Ht2]]. unfold Inv, step; simpl in *.
    repeat split.
    + apply length_hmac_block.
    + apply hmac_block_ok.
    + rewrite length_xor_bytes; [exact Ht1 | by rewrite Ht1, length_hmac_block].
    + apply xor_bytes_ok; [exact Ht2 | apply hmac_block_ok].
  - unfold Inv; simpl. auto using length_hmac_block, hmac_block_ok.
Qed.

Lemma pbkdf2_hmac_32 password salt c :
  pbkdf2_hmac password salt c 32 = F (prepare_key password) salt c 1.
Proof.
  unfold pbkdf2_hmac.
  change ((32 + 31) / 32)%nat with 1%nat.
  cbn [seq flat_map]. rewrite app_nil_r.
  change (Z.of_nat 1) with 1.
  apply firstn_all2. by rewrite (proj1 (F_shape _ _ _ _)).
Qed.

(** The derived key is 32 bytes long. *)
Lemma length_pbkdf2_hmac password salt c : length (pbkdf2_hmac password salt c 32) = 32%nat.
Proof. rewrite pbkdf2_hmac_32. apply F_shape. Qed.

Lemma pbkdf2_hmac_ok password salt c : bytes_ok (pbkdf2_hmac password salt c 32).
Proof. rewrite pbkdf2_hmac_32. apply F_shape. Qed.

(** Two passwords with the same HMAC key block derive the same key. *)
Lemma pbkdf2_hmac_same_key_block p1 p2 salt c :
  prepare_key p1 = prepare_key p2 →
  pbkdf2_hmac p1 salt c 32 = pbkdf2_hmac p2 salt c 32.
Proof. intros H. rewrite !pbkdf2_hmac_32. by rewrite H. Qed.

End Pbkdf2Facts.

(** ** Base64: decoding undoes encoding *)

Module Base64Facts.
Import Bytes BytesFacts Base64.

Lemma sextets_ok_all a b :
  is_byte a → is_byte b →
  sextet_ok (e0 a) = true ∧ sextet_ok (e1 a b) = true ∧ sextet_ok (e2 a b) = true ∧
  sextet_ok (e3 a) = true ∧ sextet_ok (t1 a) = true ∧ sextet_ok (t2 a) = true.
Proof.
  intros Ha Hb.
  assert (H : sextets_ok a b = true)
    by (apply (forall_bytes2 sextets_ok); [vm_compute; reflexivity | done | done]).
  unfold sextets_ok in H. rewrite !andb_true_iff in H. tauto.
Qed.

Lemma decoded_ok_all a b :
  is_byte a → is_byte b →
  Z.land (Z.lor (Z.shiftl (e0 a) 2) (Z.shiftr (e1 a b) 4)) 255 = a ∧
  Z.land (Z.lor (Z.shiftl (e0 a) 2) (Z.shiftr (t1 a) 4)) 255 = a ∧
  Z.land (e1 a b) 15 = Z.shiftr b 4 ∧
  Z.land (Z.lor (Z.shiftl (Z.shiftr a 4) 4) (Z.shiftr (e2 a b) 2)) 255 = a ∧
  Z.land (Z.lor (Z.shiftl (Z.shiftr a 4) 4) (Z.shiftr (t2 a) 2)) 255 = a ∧
  Z.land (e2 a b) 3 = Z.shiftr b 6 ∧
  Z.land (Z.lor (Z.shiftl (Z.shiftr a 6) 6) (e3 a)) 255 = a.
Proof.
  intros Ha Hb.
  assert (H : decoded_ok a b = true)
    by (apply (forall_bytes2 decoded_ok); [vm_compute; reflexivity | done | done]).
  unfold decoded_ok in H. rewrite !andb_true_iff, !Z.eqb_eq in H. tauto.
Qed.

Lemma zero_is_byte : is_byte 0.
Proof. unfold is_byte. lia. Qed.

Lemma sextet_ok_spec e :
  sextet_ok e = true →
  Ascii.eqb (b64char e) pad_char = false ∧ b64index (b64char e) = Some e ∧
  (N_of_ascii (b64char e) <? 128)%N = true.
Proof.
  unfold sextet_ok. intros H.
  apply andb_true_iff in H as [H H5]. apply andb_true_iff in H as [H H4].
  apply andb_true_iff in H as [H H3].
  apply negb_true_iff in H3. apply bool_decide_eq_true in H4. auto.
Qed.

(** One alphabet character moves the decoder by [push]. *)
Lemma a2b_step e rest st :
  sextet_ok e = true →
  a2b_base64 (String (b64char e) rest) st = a2b_base64 rest (push st e).
Proof.
  intros H. apply sextet_ok_spec in H as (H1 & H2 & _).
  cbn [a2b_base64]. by rewrite H1, H2.
Qed.

Lemma sextet_ascii e : sextet_ok e = true → (N_of_ascii (b64char e) <? 128)%N = true.
Proof. intros H. by apply sextet_ok_spec in H as (_ & _ & H). Qed.

Lemma list_ind3 {A} (P : list A → Prop) :
  P [] → (∀ a, P [a]) → (∀ a b, P [a; b]) →
  (∀ a b c l, P l → P (a :: b :: c :: l)) → ∀ l, P l.
Proof.
  intros H0 H1 H2 H3 l.
  enough (H : ∀ n l, (length l ≤ n)%nat → P l) by (apply (H (length l)); lia).
  clear l. induction n as [|n IH]; intros l Hl.
  - destruct l; [exact H0 | simpl in Hl; lia].
  - destruct l as [|a [|b [|c l]]]; auto.
    apply H3, IH. simpl in Hl. lia.
Qed.

Lemma push0 l p o v : push (DState 0 l p o) v = DState 1 v 0 o.
Proof. reflexivity. Qed.

Lemma push1 l p o v :
  push (DState 1 l p o) v
  = DState 2 (Z.land v 15) 0 (o ++ [Z.land (Z.lor (Z.shiftl l 2) (Z.shiftr v 4)) 255]).
Proof. reflexivity. Qed.

Lemma push2 l p o v :
  push (DState 2 l p o) v
  = DState 3 (Z.land v 3) 0 (o ++ [Z.land (Z.lor (Z.shiftl l 4) (Z.shiftr v 2)) 255]).
Proof. reflexivity. Qed.

Lemma push3 l p o v :
  push (DState 3 l p o) v = DState 0 0 0 (o ++ [Z.land (Z.lor (Z.shiftl l 6) v) 255]).
Proof. reflexivity. Qed.

Lemma a2b_quad a b c rest acc :
  is_byte a → is_byte b → is_byte c →
  a2b_base64
    (String (b64char (e0 a)) (String (b64char (e1 a b))
       (String (b64char (e2 b c)) (String (b64char (e3 c)) rest))))
    (DState 0 0 0 acc)
  = a2b_base64 rest (DState 0 0 0 (acc ++ [a; b; c])).
Proof.
  intros Ha Hb Hc.
  destruct (sextets_ok_all a b Ha Hb) as (S0 & S1 & _).
  destruct (sextets_ok_all b c Hb Hc) as (_ & _ & S2 & _).
  destruct (sextets_ok_all c 0 Hc zero_is_byte) as (_ & _ & _ & S3 & _).
  destruct (decoded_ok_all a b Ha Hb) as (D0 & _ & D1 & _).
  destruct (decoded_ok_all b c Hb Hc) as (_ & _ & _ & D2 & _ & D3 & _).
  destruct (decoded_ok_all c 0 Hc zero_is_byte) as (_ & _ & _ & _ & _ & _ & D4).
  rewrite !a2b_step by assumption.
  rewrite push0, push1, D0, D1, push2, D2, D3, push3, D4.
  by rewrite <- !app_assoc.
Qed.

Lemma a2b_tail2 a b acc :
  is_byte a → is_byte b →
  a2b_base64
    (String (b64char (e0 a)) (String (b64char (e1 a b))
       (String (b64char (t2 b)) (String pad_char EmptyString))))
    (DState 0 0 0 acc)
  = Some (acc ++ [a; b]).
Proof.
  intros Ha Hb.
  destruct (sextets_ok_all a b Ha Hb) as (S0 & S1 & _).
  destruct (sextets_ok_all b 0 Hb zero_is_byte) as (_ & _ & _ & _ & _ & S2).
  destruct (decoded_ok_all a b Ha Hb) as (D0 & _ & D1 & _).
  destruct (decoded_ok_all b 0 Hb zero_is_byte) as (_ & _ & _ & _ & D2 & _).
  rewrite !a2b_step by assumption.
  rewrite push0, push1, D0, D1, push2, D2.
  cbn. by rewrite <- !app_assoc.
Qed.

Lemma a2b_tail1 a acc :
  is_byte a →
  a2b_base64
    (String (b64char (e0 a)) (String (b64char (t1 a))
       (String pad_char (String pad_char EmptyString))))
    (DState 0 0 0 acc)
  = Some (acc ++ [a]).
Proof.
  intros Ha.
  destruct (sextets_ok_all a 0 Ha zero_is_byte) as (S0 & _ & _ & _ & S1 & _).
  destruct (decoded_ok_all a 0 Ha zero_is_byte) as (_ & D0 & _).
  rewrite !a2b_step by assumption.
  rewrite push0, push1, D0. reflexivity.
Qed.

Lemma a2b_b64encode bs : bytes_ok bs → ∀ acc,
  a2b_base64 (b64encode bs) (DState 0 0 0 acc) = Some (acc ++ bs).
Proof.
  induction bs as [|a|a b|a b c l IH] using list_ind3; intros Hok acc.
  - simpl. by rewrite app_nil_r.
  - apply Forall_cons in Hok as [Ha _]. by apply a2b_tail1.
  - apply Forall_cons in Hok as [Ha Hok]. apply Forall_cons in Hok as [Hb _].
    by apply a2b_tail2.
  - apply Forall_cons in Hok as [Ha Hok]. apply Forall_cons in Hok as [Hb Hok].
    apply Forall_cons in Hok as [Hc Hok].
    cbn [b64encode]. fold (e0 a) (e1 a b) (e2 b c) (e3 c).
    rewrite a2b_quad by assumption. rewrite IH by assumption.
    by rewrite <- !app_assoc.
Qed.

Lemma is_ascii_b64encode bs : bytes_ok bs → is_ascii (b64encode bs) = true.
Proof.
  unfold is_ascii.
  induction bs as [|a|a b|a b c l IH] using list_ind3; intros Hok.
  - reflexivity.
  - apply Forall_cons in Hok as [Ha _].
    destruct (sextets_ok_all a 0 Ha zero_is_byte) as (S0 & _ & _ & _ & S1 & _).
    cbn [b64encode list_ascii_of_string forallb].
    fold (e0 a) (t1 a). by rewrite !sextet_ascii by assumption.
  - apply Forall_cons in Hok as [Ha Hok]. apply Forall_cons in Hok as [Hb _].
    destruct (sextets_ok_all a b Ha Hb) as (S0 & S1 & _).
    destruct (sextets_ok_all b 0 Hb zero_is_byte) as (_ & _ & _ & _ & _ & S2).
    cbn [b64encode list_ascii_of_string forallb].
    fold (e0 a) (e1 a b) (t2 b). by rewrite !sextet_ascii by assumption.
  - apply Forall_cons in Hok as [Ha Hok]. apply Forall_cons in Hok as [Hb Hok].
    apply Forall_cons in Hok as [Hc Hok].
    destruct (sextets_ok_all a b Ha Hb) as (S0 & S1 & _).
    destruct (sextets_ok_all b c Hb Hc) as (_ & _ & S2 & _).
    destruct (sextets_ok_all c 0 Hc zero_is_byte) as (_ & _ & _ & S3 & _).
    cbn [b64encode list_ascii_of_string forallb].
    fold (e0 a) (e1 a b) (e2 b c) (e3 c).
    rewrite !sextet_ascii by assumption.
    cbn [andb]. by apply IH.
Qed.

(** [b64decode(b64encode(bs)) == bs] *)
Lemma b64decode_b64encode bs : bytes_ok bs → b64decode (b64encode bs) = Some bs.
Proof.
  intros Hok. unfold b64decode, dinit.
  rewrite is_ascii_b64encode by assumption.
  by rewrite a2b_b64encode.
Qed.

End Base64Facts.

(** ** The generators in closed form *)

Module RuntimeFacts.
Import Bytes BytesFacts Runtime.

Lemma bind_Ok {St A B} (m : M St A) (k : A → M St B) w a w' :
  m w = (Ok a, w') → (m ≫= k) w = k a w'.
Proof. intros H. unfold mbind, M_bind, bind. by rewrite H. Qed.

Lemma bind_Raise {St A B} (m : M St A) (k : A → M St B) w e w' :
  m w = (Raise e, w') → (m ≫= k) w = (Raise e, w').
Proof. intros H. unfold mbind, M_bind, bind. by rewrite H. Qed.

Lemma skip_rand_0 {St} (w : World St) : skip_rand 0 w = w.
Proof. destruct w. unfold skip_rand; simpl. by rewrite Nat.add_0_r. Qed.

Lemma skip_rand_S {St} n (w : World St) :
  skip_rand n (skip_rand 1 w) = skip_rand (S n) w.
Proof. unfold skip_rand; simpl. f_equal. lia. Qed.

Lemma randbelow_eq {St} n (w : World St) :
  randbelow n w = (Ok (rand w (rand_pos w) mod n)%nat, skip_rand 1 w).
Proof. unfold randbelow, skip_rand. do 2 f_equal. lia. Qed.

Lemma rand_pos_skip_1 {St} (w : World St) : rand_pos (skip_rand 1 w) = S (rand_pos w).
Proof. simpl. lia. Qed.

Lemma urandom_eq {St} n (w : World St) :
  urandom n w = (Ok (drawn_bytes n w), skip_rand n w).
Proof.
  revert w. induction n as [|n IH]; intros w.
  - cbn. by rewrite skip_rand_0.
  - cbn [urandom].
    rewrite (bind_Ok _ _ _ _ _ (randbelow_eq 256 w)).
    rewrite (bind_Ok _ _ _ _ _ (IH (skip_rand 1 w))).
    unfold mret, M_ret, ret. rewrite skip_rand_S.
    unfold drawn_bytes. rewrite rand_pos_skip_1. reflexivity.
Qed.

Lemma join_choices_eq {St} alphabet n (w : World St) :
  join_choices alphabet n w = (Ok (drawn_string alphabet n w), skip_rand n w).
Proof.
  revert w. induction n as [|n IH]; intros w.
  - cbn. by rewrite skip_rand_0.
  - cbn [join_choices]. unfold choice.
    rewrite (bind_Ok _ _ _ _ _
               (bind_Ok _ _ _ _ _ (randbelow_eq (String.length alphabet) w))).
    rewrite (bind_Ok _ _ _ _ _ (IH (skip_rand 1 w))).
    unfold mret, M_ret, ret. rewrite skip_rand_S.
    unfold drawn_string. rewrite rand_pos_skip_1. reflexivity.
Qed.

Lemma uuid4_eq {St} (w : World St) :
  uuid4 w = (Ok (uuid_str (drawn_bytes 16 w)), skip_rand 16 w).
Proof. unfold uuid4. by rewrite (bind_Ok _ _ _ _ _ (urandom_eq 16 w)). Qed.

Lemma length_draws rnd m n pos : length (draws rnd m n pos) = n.
Proof. revert pos. induction n as [|n IH]; intros pos; simpl; [done | by rewrite IH]. Qed.

Lemma draws_below rnd m n pos : m ≠ 0%nat → Forall (fun i => (i < m)%nat) (draws rnd m n pos).
Proof.
  intros Hm. revert pos. induction n as [|n IH]; intros pos; simpl; constructor.
  - by apply Nat.mod_upper_bound.
  - apply IH.
Qed.

Lemma length_drawn_bytes {St} n (w : World St) : length (drawn_bytes n w) = n.
Proof. unfold drawn_bytes. by rewrite length_map, length_draws. Qed.

Lemma drawn_bytes_ok {St} n (w : World St) : bytes_ok (drawn_bytes n w).
Proof.
  unfold drawn_bytes, bytes_ok. apply Forall_map.
  eapply Forall_impl; [apply (draws_below _ 256); lia |].
  intros i Hi. unfold is_byte. simpl in Hi. lia.
Qed.

Lemma length_string_of_list l : String.length (string_of_list_ascii l) = length l.
Proof. induction l as [|c l IH]; simpl; [done | by rewrite IH]. Qed.

Lemma length_list_of_string s : length (list_ascii_of_string s) = String.length s.
Proof. induction s as [|c s IH]; simpl; [done | by rewrite IH]. Qed.

Lemma length_drawn_string {St} alphabet n (w : World St) :
  String.length (drawn_string alphabet n w) = n.
Proof.
  unfold drawn_string. by rewrite length_string_of_list, length_map, length_draws.
Qed.

(** Every character of a drawn string is a character of the alphabet. *)
Lemma drawn_string_chars {St} alphabet n (w : World St) (P : ascii → Prop) :
  alphabet ≠ EmptyString →
  Forall P (list_ascii_of_string alphabet) →
  Forall P (list_ascii_of_string (drawn_string alphabet n w)).
Proof.
  intros Hne HP. unfold drawn_string.
  rewrite list_ascii_of_string_of_list_ascii.
  apply Forall_map.
  eapply Forall_impl.
  - apply (draws_below _ (String.length alphabet)). by destruct alphabet.
  - intros i Hi. simpl in Hi. rewrite Forall_forall in HP. apply HP.
    apply list_elem_of_In, nth_In. by rewrite length_list_of_string.
Qed.

Lemma length_append s1 s2 :
  String.length (s1 +:+ s2) = (String.length s1 + String.length s2)%nat.
Proof. induction s1 as [|c s1 IH]; simpl; [done | by rewrite IH]. Qed.

Lemma uuid_str_nonempty b : uuid_str b ≠ EmptyString.
Proof.
  unfold uuid_str. intros H.
  apply (f_equal String.length) in H.
  rewrite !length_append in H. simpl in H. lia.
Qed.

End RuntimeFacts.

(** ** Password hashing and verification *)

Module SecurityManagerFacts.
Import Bytes BytesFacts Sha256Facts Pbkdf2 Pbkdf2Facts Base64 Base64Facts.
Import Runtime RuntimeFacts SecurityManager Shape.

(** [hash_password] returns the Base64 text of the drawn salt followed by
    the key derived under it. *)
Lemma hash_password_eq {St} (password : string) (w : World St) :
  hash_password password w
  = (Ok (b64encode (drawn_bytes 32 w
                    ++ pbkdf2_hmac (encode_utf8 password) (drawn_bytes 32 w) 100000 32)),
     skip_rand 32 w).
Proof. unfold hash_password. by rewrite (bind_Ok _ _ _ _ _ (urandom_eq 32 w)). Qed.

(** Verifying against the text of [salt ++ key] compares [key] with the
    key derived from the candidate under [salt]. *)
Lemma verify_password_encoded salt key candidate :
  length salt = 32%nat → bytes_ok salt → bytes_ok key →
  verify_password (b64encode (salt ++ key)) candidate
  = Bytes.eqb key (pbkdf2_hmac (encode_utf8 candidate) salt 100000 32).
Proof.
  intros Hlen Hsalt Hkey. unfold verify_password.
  rewrite b64decode_b64encode by (apply Forall_app; auto).
  rewrite take_app_length' by done.
  rewrite drop_app_length' by done.
  reflexivity.
Qed.

Lemma verify_hash_password {St} (w : World St) (password candidate : string) :
  verify_password
    (b64encode (drawn_bytes 32 w
                ++ pbkdf2_hmac (encode_utf8 password) (drawn_bytes 32 w) 100000 32))
    candidate
  = bool_decide (pbkdf2_hmac (encode_utf8 candidate) (drawn_bytes 32 w) 100000 32
                 = pbkdf2_hmac (encode_utf8 password) (drawn_bytes 32 w) 100000 32).
Proof.
  rewrite verify_password_encoded
    by auto using length_drawn_bytes, drawn_bytes_ok, pbkdf2_hmac_ok.
  unfold Bytes.eqb. apply bool_decide_ext. split; congruence.
Qed.

(** C1 (the claim as stated fails): the password ["a"] followed by a NUL
    character differs from ["a"], yet it is accepted against the hash of
    ["a"], because HMAC pads both to the same key block. *)
Lemma verify_password_accepts_nul_suffix :
  nul_suffixed ≠ "a" ∧
  ∃ h w', hash_password "a" (world0 ()) = (Ok h, w') ∧
          verify_password h nul_suffixed = true.
Proof.
  split; [discriminate |].
  eexists _, _. split; [apply hash_password_eq |].
  rewrite verify_hash_password. apply bool_decide_eq_true.
  apply pbkdf2_hmac_same_key_block. reflexivity.
Qed.

(** C1 (amended): for every password [P], the hash of [P] verifies [P];
    a candidate [P'] is accepted exactly when the key derived from [P']
    under the stored salt equals the key derived from [P], and is rejected
    otherwise. *)
Theorem hash_password_verify_password {St} (w : World St) (P P' : string) :
  ∃ h, hash_password P w = (Ok h, skip_rand 32 w) ∧
       verify_password h P = true ∧
       verify_password h P'
       = bool_decide (pbkdf2_hmac (encode_utf8 P') (drawn_bytes 32 w) 100000 32
                      = pbkdf2_hmac (encode_utf8 P) (drawn_bytes 32 w) 100000 32).
Proof.
  eexists. split; [apply hash_password_eq |]. split.
  - rewrite verify_hash_password. by apply bool_decide_eq_true.
  - apply verify_hash_password.
Qed.

(** C9: a stored hash that does not decode, or that decodes to anything
    but 64 bytes, makes [verify_password] answer [false] for every
    candidate. *)
Theorem verify_password_malformed (stored candidate : string) :
  malformed stored → verify_password stored candidate = false.
Proof.
  unfold malformed, verify_password.
  destruct (b64decode stored) as [decoded|]; [| reflexivity].
  intros Hlen. unfold Bytes.eqb. apply bool_decide_eq_false.
  intros Heq. apply (f_equal length) in Heq.
  rewrite length_drop, length_pbkdf2_hmac in Heq. lia.
Qed.

Lemma verify_password_malformed_witness :
  malformed "abc" ∧ verify_password "abc" "secret" = false.
Proof.
  split; [exact I | apply (verify_password_malformed "abc" "secret"); exact I].
Defined.

End SecurityManagerFacts.

(** ** Access codes *)

Module AccessCodeFacts.
Import Bytes Runtime RuntimeFacts Shape.

Lemma code_alphabet_chars :
  Forall (fun c => is_code_char c = true)
    (list_ascii_of_string (string_ascii_uppercase +:+ string_digits)).
Proof. apply Forall_forall. intros c Hc. apply list_elem_of_In in Hc. revert c Hc.
       apply forallb_forall. reflexivity. Qed.

(** Eight draws from the uppercase letters and digits form an access code. *)
Lemma drawn_code_ok {St} (w : World St) :
  access_code_ok (drawn_string (string_ascii_uppercase +:+ string_digits) 8 w).
Proof.
  split; [apply length_drawn_string |].
  apply drawn_string_chars; [discriminate | apply code_alphabet_chars].
Qed.

Import AdminApplication.

(** What the SQLite generator answers: a well-formed code that, on a
    working connection, is in neither table; the tables are not touched. *)
Lemma generate_access_code_sqlite fuel (w : World db) :
  match generate_access_code fuel w with
  | (Ok code, w') =>
      access_code_ok code ∧ store w' = store w ∧
      (broken (store w) = false →
       count_code (pharmacies (store w)) code = 0 ∧
       count_code (laboratories (store w)) code = 0)
  | (Raise e, w') => e = RecursionError ∧ store w' = store w
  end.
Proof.
  revert w. induction fuel as [|fuel IH]; intros w; [by cbn |].
  cbn [generate_access_code].
  rewrite (bind_Ok _ _ _ _ _ (join_choices_eq _ 8 w)).
  unfold mbind, M_bind, bind, get_store. cbn [store skip_rand].
  set (code := drawn_string _ 8 w).
  destruct (broken (store w)) eqn:Hb.
  { unfold mret, M_ret, ret. split; [apply drawn_code_ok | split; [done | done]]. }
  destruct (0 <? count_code (pharmacies (store w)) code) eqn:Hp.
  { specialize (IH (skip_rand 8 w)).
    destruct (generate_access_code fuel (skip_rand 8 w)) as [[c|e] w'];
      cbn [store skip_rand] in IH; rewrite ?Hb in IH; exact IH. }
  destruct (0 <? count_code (laboratories (store w)) code) eqn:Hl.
  { specialize (IH (skip_rand 8 w)).
    destruct (generate_access_code fuel (skip_rand 8 w)) as [[c|e] w'];
      cbn [store skip_rand] in IH; rewrite ?Hb in IH; exact IH. }
  unfold mret, M_ret, ret. split; [apply drawn_code_ok |]. split; [done |]. intros _.
  apply Z.ltb_ge in Hp, Hl. unfold count_code in *. lia.
Qed.

Lemma generate_access_code_settles fuel (w : World db) :
  settles fuel w = true →
  ∃ code w', generate_access_code fuel w = (Ok code, w').
Proof.
  revert w. induction fuel as [|fuel IH]; intros w; [discriminate |].
  cbn [settles generate_access_code].
  rewrite (bind_Ok _ _ _ _ _ (join_choices_eq _ 8 w)).
  unfold mbind, M_bind, bind, get_store. cbn [store skip_rand].
  set (code := drawn_string _ 8 w).
  destruct (broken (store w)) eqn:Hb; [cbn; eauto |].
  cbn [orb].
  destruct (0 <? count_code (pharmacies (store w)) code) eqn:Hp.
  { apply Z.ltb_lt in Hp.
    replace (count_code (pharmacies (store w)) code =? 0) with false
      by (symmetry; apply Z.eqb_neq; lia).
    cbn. apply IH. }
  destruct (0 <? count_code (laboratories (store w)) code) eqn:Hl.
  { apply Z.ltb_lt in Hl.
    replace (count_code (laboratories (store w)) code =? 0) with false
      by (symmetry; apply Z.eqb_neq; lia).
    rewrite andb_false_r. cbn. apply IH. }
  intros _. cbn. eauto.
Qed.

(** C8: each of the three generators answers eight characters drawn from
    the uppercase letters and the digits.  The generator of the SQLite
    variant retries while its candidate is in use: it answers such a code
    or, once the recursion is exhausted, raises [RecursionError], and it
    answers as soon as one of its candidates is unused. *)
Theorem generate_access_code_shape {St}
    (w : World St) (wa : World Cosmos.db) (ws : World db) (fuel : nat) :
  (∃ code w', SecurityManager.generate_access_code 8 w = (Ok code, w') ∧ access_code_ok code) ∧
  (∃ code w', AdminAzureServices._generate_access_code 8 wa = (Ok code, w') ∧
              access_code_ok code) ∧
  match generate_access_code fuel ws with
  | (Ok code, _) => access_code_ok code
  | (Raise e, _) => e = RecursionError
  end ∧
  (settles fuel ws = true →
   ∃ code w', generate_access_code fuel ws = (Ok code, w') ∧ access_code_ok code).
Proof.
  split; [| split; [| split]].
  - eexists _, _. split; [apply join_choices_eq | apply drawn_code_ok].
  - eexists _, _. split; [apply join_choices_eq | apply drawn_code_ok].
  - pose proof (generate_access_code_sqlite fuel ws) as H.
    destruct (generate_access_code fuel ws) as [[c|e] w']; [apply H | apply H].
  - intros Hs. destruct (generate_access_code_settles fuel ws Hs) as (code & w' & Heq).
    exists code, w'. split; [exact Heq |].
    pose proof (generate_access_code_sqlite fuel ws) as H. rewrite Heq in H. apply H.
Qed.

Lemma generate_access_code_shape_witness :
  settles 1 (world0 (Db [] 0 [] 0 [] 0 false)) = true ∧
  ∃ code w', generate_access_code 1 (world0 (Db [] 0 [] 0 [] 0 false)) = (Ok code, w') ∧
             access_code_ok code.
Proof.
  split; [reflexivity |].
  apply (generate_access_code_shape (world0 ()) (world0 (Cosmos.Db ∅ ∅))
           (world0 (Db [] 0 [] 0 [] 0 false)) 1).
  reflexivity.
Defined.

End AccessCodeFacts.

(** ** The users container *)

Module CosmosFacts.
Import Datetime Runtime RuntimeFacts Cosmos.

Lemma read_item_Some id it (w : World db) :
  users (store w) !! id = Some it → read_item id w = (Ok it, w).
Proof. intros H. unfold read_item, get_store, mbind, M_bind, bind. by rewrite H. Qed.

Lemma read_item_None id (w : World db) :
  users (store w) !! id = None → read_item id w = (Raise ResourceNotFoundError, w).
Proof. intros H. unfold read_item, get_store, mbind, M_bind, bind. by rewrite H. Qed.

Lemma replace_item_Some id old body (w : World db) :
  users (store w) !! id = Some old →
  replace_item id body w
  = (Ok body, with_store (Db (<[id := body]> (users (store w))) (containers (store w))) w).
Proof. intros H. unfold replace_item, get_store, mbind, M_bind, bind. by rewrite H. Qed.

Lemma create_item_fresh id body (w : World db) :
  body !! "id" = Some (VStr id) → users (store w) !! id = None →
  create_item body w
  = (Ok body, with_store (Db (<[id := body]> (users (store w))) (containers (store w))) w).
Proof.
  intros Hid H. unfold create_item, get_store, mbind, M_bind, bind. by rewrite Hid, H.
Qed.

Lemma create_item_taken id body old (w : World db) :
  body !! "id" = Some (VStr id) → users (store w) !! id = Some old →
  create_item body w = (Raise ResourceExistsError, w).
Proof.
  intros Hid H. unfold create_item, get_store, mbind, M_bind, bind. by rewrite Hid, H.
Qed.

Lemma now_iso_eq (w : World db) :
  AdminAzureServices.now_iso w = (Ok (isoformat (clock w (clock_pos w))), skip_clock 1 w).
Proof. reflexivity. Qed.

(** The update loop writes exactly the supplied fields that the record
    already has. *)
Lemma lookup_merge_fields (rec upd : item) k :
  merge_fields rec upd !! k
  = match rec !! k with
    | Some v => Some (default v (upd !! k))
    | None => None
    end.
Proof.
  unfold merge_fields. revert k.
  apply (map_fold_weak_ind
           (fun (r : item) (m : item) =>
              ∀ k, r !! k = match rec !! k with
                            | Some v => Some (default v (m !! k))
                            | None => None
                            end)).
  - intros k. rewrite lookup_empty. by destruct (rec !! k).
  - intros i x m r Hi IH k.
    destruct (decide (i = k)) as [->|Hne].
    + rewrite lookup_insert_eq. specialize (IH k).
      case_bool_decide as Hin.
      * rewrite lookup_insert_eq. destruct (rec !! k); [done |].
        rewrite IH in Hin. by destruct Hin.
      * rewrite IH. destruct (rec !! k); [| done].
        rewrite IH in Hin. exfalso. apply Hin. eauto.
    + rewrite (lookup_insert_ne m) by done.
      case_bool_decide; [rewrite lookup_insert_ne by done |]; apply IH.
Qed.

End CosmosFacts.

Module AccountFacts.
Import Datetime Runtime RuntimeFacts Cosmos CosmosFacts Shape AccessCodeFacts.
Import AdminAzureServices.

(** C4: on an account that exists, [regenerate_access_code] writes a new
    code exactly when the role is pharmacy or laboratory; for any other
    role it raises [ValueError] and leaves the store, and the rest of the
    world, as they were.  An unknown id raises [ResourceNotFoundError]. *)
Theorem regenerate_access_code_kind (w : World db) (account_id : string) :
  match users (store w) !! account_id with
  | None => regenerate_access_code account_id w = (Raise ResourceNotFoundError, w)
  | Some rec =>
      if is_access_account rec then
        ∃ code w',
          regenerate_access_code account_id w = (Ok code, w') ∧
          access_code_ok code ∧
          users (store w') !! account_id
          = Some (<["updatedAt" := VStr (isoformat (clock w (clock_pos w)))]>
                    (<["accessCode" := VStr code]> rec))
      else
        regenerate_access_code account_id w
        = (Raise (ValueError "Account is not a pharmacy or lab account"), w)
  end.
Proof.
  unfold regenerate_access_code.
  destruct (users (store w) !! account_id) as [rec|] eqn:Hrec.
  - rewrite (bind_Ok _ _ _ _ _ (read_item_Some _ _ _ Hrec)).
    unfold is_access_account.
    destruct (eq_str (get rec "role") "pharmacy" || eq_str (get rec "role") "laboratory");
      cbn [negb]; [| reflexivity].
    unfold _generate_access_code.
    rewrite (bind_Ok _ _ _ _ _ (join_choices_eq _ 8 w)).
    rewrite (bind_Ok _ _ _ _ _ (now_iso_eq _)).
    rewrite (bind_Ok _ _ _ _ _
               (replace_item_Some account_id rec _ (skip_clock 1 (skip_rand 8 w)) Hrec)).
    eexists _, _. split; [reflexivity |]. split; [apply drawn_code_ok |].
    cbn. by rewrite lookup_insert_eq.
  - by rewrite (bind_Raise _ _ _ _ _ (read_item_None _ _ Hrec)).
Qed.

Lemma update_doctor_account_eq (w : World db) (id : string) (rec upd : item) :
  users (store w) !! id = Some rec →
  update_doctor_account id upd w
  = (Ok (<["updatedAt" := VStr (isoformat (clock w (clock_pos w)))]> (merge_fields rec upd)),
     with_store
       (Db (<[id := <["updatedAt" := VStr (isoformat (clock w (clock_pos w)))]>
                      (merge_fields rec upd)]> (users (store w)))
           (containers (store w)))
       (skip_clock 1 w)).
Proof.
  intros Hrec. unfold update_doctor_account.
  rewrite (bind_Ok _ _ _ _ _ (read_item_Some _ _ _ Hrec)).
  rewrite (bind_Ok _ _ _ _ _ (now_iso_eq _)).
  by rewrite (replace_item_Some id rec _ (skip_clock 1 w) Hrec).
Qed.

(** The admin variant writes the same merged record before it talks to
    the identity service; whatever that step answers, the store holds the
    merged record, and a returned record is the merged one. *)
Lemma index_store (r : item) k (w : World db) :
  store (snd (index (St := db) r k w)) = store w.
Proof. unfold index. by destruct (r !! k). Qed.

Lemma bind_store {A B} (m : M db A) (k : A → M db B) (w : World db) :
  (∀ w', store (snd (m w')) = store w') →
  (∀ a w', store (snd (k a w')) = store w') →
  store (snd ((m ≫= k) w)) = store w.
Proof.
  intros Hm Hk. unfold mbind, M_bind, bind.
  specialize (Hm w). destruct (m w) as [[a|e] w1]; cbn in *.
  - by rewrite Hk.
  - exact Hm.
Qed.

Lemma update_directory_user_store (rec upd : item) (w : World db) :
  store (snd (OwnerAzureServices.update_directory_user rec upd w)) = store w.
Proof.
  unfold OwnerAzureServices.update_directory_user.
  destruct (_ || _); [| reflexivity].
  repeat (apply bind_store; [intros ? | intros ? ?]); try apply index_store; try reflexivity.
  - unfold OwnerAzureServices.lower. by case_match.
  - destruct (bool_decide _); [| reflexivity].
    apply bind_store; [intros ?; apply index_store | reflexivity].
  - unfold graph_call. by case_match.
Qed.

Lemma update_admin_account_store (w : World db) (id : string) (rec upd : item) :
  users (store w) !! id = Some rec →
  eq_str (get rec "role") "admin" = true →
  let new := <["updatedAt" := VStr (isoformat (clock w (clock_pos w)))]> (merge_fields rec upd) in
  store (snd (OwnerAzureServices.update_admin_account id upd w))
  = Db (<[id := new]> (users (store w))) (containers (store w)) ∧
  ∀ r, fst (OwnerAzureServices.update_admin_account id upd w) = Ok r → r = new.
Proof.
  intros Hrec Hrole new. unfold OwnerAzureServices.update_admin_account.
  rewrite (bind_Ok _ _ _ _ _ (read_item_Some _ _ _ Hrec)).
  rewrite Hrole. cbn [negb].
  assert (Hnow : now w = (Ok (clock w (clock_pos w)), skip_clock 1 w)) by reflexivity.
  rewrite (bind_Ok _ _ _ _ _ Hnow).
  rewrite (bind_Ok _ _ _ _ _ (replace_item_Some id rec _ (skip_clock 1 w) Hrec)).
  fold new.
  pose proof (update_directory_user_store new upd
                (with_store (Db (<[id:=new]> (users (store (skip_clock 1 w))))
                               (containers (store (skip_clock 1 w)))) (skip_clock 1 w))) as Hs.
  unfold mbind, M_bind, bind.
  destruct (OwnerAzureServices.update_directory_user new upd _) as [[[]|e] w1]; cbn in *.
  - split; [exact Hs | intros r Hr; by simplify_eq].
  - split; [exact Hs | intros r Hr; discriminate].
Qed.

(** C6: for an existing record and any update map, the update writes
    back the record in which exactly the supplied keys that the record
    already had carry the supplied values, every other stored field is as
    before, no key is added, and [updatedAt] holds the time of the update. *)
Theorem update_account_merges_known_fields (w : World db) (id : string) (rec upd : item) :
  users (store w) !! id = Some rec →
  let stamp := VStr (isoformat (clock w (clock_pos w))) in
  let new := <["updatedAt" := stamp]> (merge_fields rec upd) in
  update_doctor_account id upd w
  = (Ok new,
     with_store (Db (<[id := new]> (users (store w))) (containers (store w))) (skip_clock 1 w)) ∧
  (eq_str (get rec "role") "admin" = true →
   users (store (snd (OwnerAzureServices.update_admin_account id upd w)))
   = <[id := new]> (users (store w)) ∧
   ∀ r, fst (OwnerAzureServices.update_admin_account id upd w) = Ok r → r = new) ∧
  new !! "updatedAt" = Some stamp ∧
  ∀ k, k ≠ "updatedAt" →
       new !! k = match rec !! k, upd !! k with
                  | Some _, Some v => Some v
                  | old, _ => old
                  end.
Proof.
  intros Hrec stamp new. split; [| split; [| split]].
  - by apply update_doctor_account_eq.
  - intros Hrole.
    destruct (update_admin_account_store w id rec upd Hrec Hrole) as [Hs Hr].
    split; [by rewrite Hs | exact Hr].
  - apply lookup_insert_eq.
  - intros k Hk. unfold new. rewrite lookup_insert_ne by done.
    rewrite lookup_merge_fields.
    destruct (rec !! k), (upd !! k); reflexivity.
Qed.

Lemma update_account_merges_known_fields_witness :
  users (store admin_world) !! "admin-1" = Some sample_admin ∧
  ∃ new w',
    update_doctor_account "admin-1" sample_update admin_world = (Ok new, w') ∧
    new !! "isActive" = Some (VBool false) ∧
    new !! "nickname" = None ∧
    new !! "role" = Some (VStr "admin").
Proof.
  assert (H : users (store admin_world) !! "admin-1" = Some sample_admin)
    by (vm_compute; reflexivity).
  split; [exact H |].
  destruct (update_account_merges_known_fields admin_world "admin-1"
              sample_admin sample_update H) as (Hrun & _ & _ & Hk).
  eexists _, _. split; [exact Hrun |].
  split; [| split]; (rewrite Hk by discriminate); vm_compute; reflexivity.
Defined.

End AccountFacts.

(** ** Adding a laboratory account *)

Module LabAccountFacts.
Import Datetime Runtime RuntimeFacts Cosmos CosmosFacts Shape.
Import AdminAzureServices.

Lemma bind_Ok_inv {St A B} (m : M St A) (k : A → M St B) w b w' :
  (m ≫= k) w = (Ok b, w') → ∃ a w1, m w = (Ok a, w1) ∧ k a w1 = (Ok b, w').
Proof.
  unfold mbind, M_bind, bind. destruct (m w) as [[a|e] w1]; [eauto | discriminate].
Qed.

Lemma bind_ret {St A B} (a : A) (k : A → M St B) w : (mret a ≫= k) w = k a w.
Proof. reflexivity. Qed.

Lemma now_eq {St} (w : World St) : now w = (Ok (clock w (clock_pos w)), skip_clock 1 w).
Proof. reflexivity. Qed.

Lemma graph_call_inv {St} oid (w w' : World St) :
  graph_call w = (Ok oid, w') → w' = skip_graph 1 w.
Proof.
  unfold graph_call. destruct (graph w (graph_pos w)); [| discriminate].
  by intros [= _ <-].
Qed.

Lemma access_record_id id doctor name mail role code c u :
  access_record id doctor name mail role code c u !! "id" = Some (VStr id).
Proof. vm_compute. reflexivity. Qed.

Lemma new_doctor_record_id data d o p l s f c u :
  new_doctor_record data d o p l s f c u !! "id" = Some (VStr d).
Proof. vm_compute. reflexivity. Qed.

Lemma new_doctor_record_lab data d o p l s f c u :
  new_doctor_record data d o p l s f c u !! "hasLabAccount"
  = Some (VBool (bool_decide (l ≠ None))) ∧
  new_doctor_record data d o p l s f c u !! "labAccountId" = Some (opt_value l).
Proof. split; vm_compute; reflexivity. Qed.

Lemma access_record_owner id doctor name mail role code c u :
  access_record id doctor name mail role code c u !! "doctorId" = Some (VStr doctor) ∧
  access_record id doctor name mail role code c u !! "role" = Some (VStr role).
Proof. split; vm_compute; reflexivity. Qed.

Lemma create_item_inv body r (w w' : World db) :
  create_item body w = (Ok r, w') →
  ∃ id, body !! "id" = Some (VStr id) ∧ users (store w) !! id = None ∧
        users (store w') = <[id := body]> (users (store w)).
Proof.
  unfold create_item, get_store, mbind, M_bind, bind; cbn.
  destruct (body !! "id") as [[| | |id|]|]; try discriminate.
  destruct (users (store w) !! id) eqn:Hid; [discriminate |].
  cbn. intros [= <- <-]. by exists id.
Qed.

Lemma join_choices_store {St} alphabet n x (w w' : World St) :
  join_choices alphabet n w = (Ok x, w') → store w' = store w.
Proof. rewrite join_choices_eq. by intros [= _ <-]. Qed.

Lemma uuid4_store {St} x (w w' : World St) :
  uuid4 w = (Ok x, w') → store w' = store w.
Proof. rewrite uuid4_eq. by intros [= _ <-]. Qed.

Lemma now_iso_store x (w w' : World db) : now_iso w = (Ok x, w') → store w' = store w.
Proof. rewrite now_iso_eq. by intros [= _ <-]. Qed.

Lemma now_store {St} x (w w' : World St) : now w = (Ok x, w') → store w' = store w.
Proof. rewrite now_eq. by intros [= _ <-]. Qed.

Lemma graph_call_store {St} x (w w' : World St) :
  graph_call w = (Ok x, w') → store w' = store w.
Proof. intros H. by apply graph_call_inv in H as ->. Qed.

Ltac mstep H x w Hx := apply bind_Ok_inv in H as (x & w & Hx & H).

(** A doctor created without a laboratory account is stored with
    [hasLabAccount] false and no [labAccountId]. *)
Lemma create_doctor_account_without_lab data c (w0 w : World db) :
  create_lab_account data = false →
  create_doctor_account data w0 = (Ok c, w) →
  ∃ rec, users (store w) !! doctor_id c = Some rec ∧
         rec !! "hasLabAccount" = Some (VBool false) ∧
         rec !! "labAccountId" = Some VNone.
Proof.
  intros Hlab.
  unfold create_doctor_account, _generate_secure_password, _generate_access_code.
  rewrite Hlab. intros H.
  mstep H pw w1 H1. apply join_choices_store in H1.
  mstep H oid w2 H2. apply graph_call_store in H2.
  mstep H did w3 H3. apply uuid4_store in H3.
  mstep H pid w4 H4. apply uuid4_store in H4.
  rewrite bind_ret in H.
  mstep H start w5 H5. apply now_iso_store in H5.
  mstep H t w6 H6. apply now_store in H6.
  destruct (add_days t 365) as [e|]; [| discriminate].
  mstep H ca w7 H7. apply now_iso_store in H7.
  mstep H ua w8 H8. apply now_iso_store in H8.
  mstep H r1 w9 H9. apply create_item_inv in H9 as (id1 & Hid1 & _ & Hu9).
  rewrite new_doctor_record_id in Hid1. injection Hid1 as <-.
  mstep H code w10 H10. apply join_choices_store in H10.
  mstep H pc w11 H11. apply now_iso_store in H11.
  mstep H pu w12 H12. apply now_iso_store in H12.
  mstep H r2 w13 H13. apply create_item_inv in H13 as (id2 & Hid2 & Hfree2 & Hu13).
  rewrite access_record_id in Hid2. injection Hid2 as <-.
  rewrite H12, H11, H10, Hu9 in Hfree2, Hu13.
  mstep H lc w14 H14. injection H14 as <- <-.
  mstep H u w15 H15. injection H15 as _ <-.
  injection H as <- <-. cbn [doctor_id store with_store users].
  rewrite Hu13.
  eexists. split; [| apply new_doctor_record_lab with (l := None)].
  rewrite lookup_insert_ne.
  - apply lookup_insert_eq.
  - intros Heq. rewrite Heq, lookup_insert_eq in Hfree2. discriminate.
Qed.

(** The first call on a doctor without a laboratory account. *)
Lemma add_lab_account_new (w : World db) (did : string) (rec : item) :
  users (store w) !! did = Some rec →
  truthy (get_or rec "hasLabAccount" (VBool false)) && truthy (get rec "labAccountId") = false →
  users (store w) !! uuid_str (drawn_bytes 16 w) = None →
  ∃ doc code labrec w1,
    add_lab_account_to_doctor did w = (Ok (Added doc (uuid_str (drawn_bytes 16 w)) code), w1) ∧
    users (store w1) = <[did := doc]> (<[uuid_str (drawn_bytes 16 w) := labrec]> (users (store w))) ∧
    doc !! "hasLabAccount" = Some (VBool true) ∧
    doc !! "labAccountId" = Some (VStr (uuid_str (drawn_bytes 16 w))) ∧
    labrec !! "doctorId" = Some (VStr did) ∧
    labrec !! "role" = Some (VStr "laboratory") ∧
    uuid_str (drawn_bytes 16 w) ≠ did.
Proof.
  intros Hrec Hguard Hfree. unfold add_lab_account_to_doctor.
  rewrite (bind_Ok _ _ _ _ _ (read_item_Some _ _ _ Hrec)).
  rewrite Hguard.
  rewrite (bind_Ok _ _ _ _ _ (uuid4_eq _)).
  unfold _generate_access_code.
  rewrite (bind_Ok _ _ _ _ _ (join_choices_eq _ 8 _)).
  rewrite (bind_Ok _ _ _ _ _ (now_iso_eq _)).
  rewrite (bind_Ok _ _ _ _ _ (now_iso_eq _)).
  assert (Hne : uuid_str (drawn_bytes 16 w) ≠ did) by congruence.
  rewrite (bind_Ok _ _ _ _ _
             (create_item_fresh (uuid_str (drawn_bytes 16 w)) _
                (skip_clock 1 (skip_clock 1 (skip_rand 8 (skip_rand 16 w))))
                (access_record_id _ _ _ _ _ _ _ _) Hfree)).
  rewrite (bind_Ok _ _ _ _ _ (now_iso_eq _)).
  cbn [store with_store skip_clock skip_rand users containers clock clock_pos].
  match goal with
  | |- context [(replace_item did ?body ≫= _) ?w1] =>
      assert (Hrec' : users (store w1) !! did = Some rec)
        by (cbn [store users with_store skip_clock skip_rand];
            by rewrite lookup_insert_ne);
      rewrite (bind_Ok _ _ _ _ _ (replace_item_Some did rec body w1 Hrec'))
  end.
  eexists _, _, _, _. split; [reflexivity |].
  cbn [store with_store skip_clock skip_rand users containers].
  split; [reflexivity |].
  split; [by rewrite !lookup_insert_ne, lookup_insert_eq by discriminate |].
  split; [by rewrite !lookup_insert_ne, lookup_insert_eq by discriminate |].
  split; [apply access_record_owner |].
  split; [apply access_record_owner | exact Hne].
Qed.

(** A call on a doctor whose laboratory account is flagged and linked
    answers the stored document and changes nothing. *)
Lemma add_lab_account_existing (w : World db) (did : string) (rec : item) :
  users (store w) !! did = Some rec →
  truthy (get_or rec "hasLabAccount" (VBool false)) && truthy (get rec "labAccountId") = true →
  add_lab_account_to_doctor did w = (Ok (Existing rec), w).
Proof.
  intros Hrec Hguard. unfold add_lab_account_to_doctor.
  rewrite (bind_Ok _ _ _ _ _ (read_item_Some _ _ _ Hrec)).
  by rewrite Hguard.
Qed.

End LabAccountFacts.

Module LabAccountIdempotence.
Import Datetime Runtime RuntimeFacts Cosmos CosmosFacts Shape.
Import AdminAzureServices LabAccountFacts.

(** C3: for a doctor created without a laboratory account the stored
    [hasLabAccount] is false; the first [add_lab_account_to_doctor], whose
    fresh id is free, succeeds, writes a laboratory document owned by the
    doctor and links it in the doctor document; a second call answers that
    doctor document, with the same [labAccountId], and leaves the world,
    hence the container, exactly as the first call left it. *)
Theorem add_lab_account_idempotent (data : doctor_data) (c : created) (w0 w : World db) :
  create_lab_account data = false →
  create_doctor_account data w0 = (Ok c, w) →
  users (store w) !! uuid_str (drawn_bytes 16 w) = None →
  ∃ rec doc code labrec w1,
    users (store w) !! doctor_id c = Some rec ∧
    rec !! "hasLabAccount" = Some (VBool false) ∧
    add_lab_account_to_doctor (doctor_id c) w
    = (Ok (Added doc (uuid_str (drawn_bytes 16 w)) code), w1) ∧
    users (store w1) !! uuid_str (drawn_bytes 16 w) = Some labrec ∧
    labrec !! "doctorId" = Some (VStr (doctor_id c)) ∧
    labrec !! "role" = Some (VStr "laboratory") ∧
    users (store w1) !! doctor_id c = Some doc ∧
    doc !! "hasLabAccount" = Some (VBool true) ∧
    doc !! "labAccountId" = Some (VStr (uuid_str (drawn_bytes 16 w))) ∧
    add_lab_account_to_doctor (doctor_id c) w1 = (Ok (Existing doc), w1).
Proof.
  intros Hlab Hcreate Hfree.
  destruct (create_doctor_account_without_lab data c w0 w Hlab Hcreate)
    as (rec & Hrec & Hflag & Hid).
  assert (Hguard : truthy (get_or rec "hasLabAccount" (VBool false))
                   && truthy (get rec "labAccountId") = false).
  { unfold get_or. by rewrite Hflag. }
  destruct (add_lab_account_new w (doctor_id c) rec Hrec Hguard Hfree)
    as (doc & code & labrec & w1 & Hadd & Hstore & Hd1 & Hd2 & Hl1 & Hl2 & Hne).
  exists rec, doc, code, labrec, w1.
  assert (Hdoc : users (store w1) !! doctor_id c = Some doc)
    by (rewrite Hstore; apply lookup_insert_eq).
  repeat split; try assumption.
  - rewrite Hstore, lookup_insert_ne by done. apply lookup_insert_eq.
  - apply add_lab_account_existing; [exact Hdoc |].
    unfold get_or, get. rewrite Hd1, Hd2. cbn.
    apply negb_true_iff, bool_decide_eq_false, uuid_str_nonempty.
Qed.

Lemma add_lab_account_idempotent_witness :
  create_lab_account sample_doctor = false ∧
  create_doctor_account sample_doctor (sample_world (Db ∅ ∅)) = (Ok sample_created, sample_after) ∧
  users (store sample_after) !! uuid_str (drawn_bytes 16 sample_after) = None ∧
  ∃ doc w1,
    users (store w1) !! doctor_id sample_created = Some doc ∧
    add_lab_account_to_doctor (doctor_id sample_created) w1 = (Ok (Existing doc), w1).
Proof.
  assert (H1 : create_lab_account sample_doctor = false) by reflexivity.
  assert (H2 : create_doctor_account sample_doctor (sample_world (Db ∅ ∅))
               = (Ok sample_created, sample_after)) by (vm_compute; reflexivity).
  assert (H3 : users (store sample_after) !! uuid_str (drawn_bytes 16 sample_after) = None)
    by (vm_compute; reflexivity).
  split; [exact H1 |]. split; [exact H2 |]. split; [exact H3 |].
  destruct (add_lab_account_idempotent sample_doctor sample_created
              (sample_world (Db ∅ ∅)) sample_after H1 H2 H3)
    as (rec & doc & code & labrec & w1 & _ & _ & _ & _ & _ & _ & Hdoc & _ & _ & Hagain).
  exists doc, w1. split; [exact Hdoc | exact Hagain].
Defined.

End LabAccountIdempotence.

(** ** Subscriptions *)

Module SubscriptionFacts.
Import Datetime Runtime RuntimeFacts Cosmos CosmosFacts Shape.
Import AdminAzureServices LabAccountFacts.

(** With an end date on record, the new end date is that date plus
    [days]. *)
Lemma update_subscription_from_end (w : World db) did rec s cur new_end days :
  users (store w) !! did = Some rec →
  get rec "subscriptionEndDate" = VStr s → s ≠ EmptyString →
  fromisoformat (replace_Z s) = Some cur →
  add_days cur days = Some new_end →
  ∃ w',
    update_subscription did days w
    = (Ok (<["updatedAt" := VStr (isoformat (clock w (clock_pos w)))]>
             (<["subscriptionEndDate" := VStr (isoformat new_end)]> rec)), w') ∧
    users (store w')
    = <[did := <["updatedAt" := VStr (isoformat (clock w (clock_pos w)))]>
                 (<["subscriptionEndDate" := VStr (isoformat new_end)]> rec)]>
        (users (store w)).
Proof.
  intros Hrec Hs Hne Hcur Hadd. unfold update_subscription.
  rewrite (bind_Ok _ _ _ _ _ (read_item_Some _ _ _ Hrec)).
  rewrite Hs. cbn [truthy]. rewrite bool_decide_eq_false_2 by exact Hne. cbn [negb].
  rewrite Hcur, bind_ret, Hadd.
  rewrite (bind_Ok _ _ _ _ _ (now_iso_eq _)).
  rewrite (replace_item_Some did rec _ (skip_clock 1 w) Hrec).
  eexists. split; reflexivity.
Qed.

(** Without an end date on record, the new end date is the current time
    plus [days]. *)
Lemma update_subscription_from_now (w : World db) did rec new_end days :
  users (store w) !! did = Some rec →
  truthy (get rec "subscriptionEndDate") = false →
  add_days (clock w (clock_pos w)) days = Some new_end →
  ∃ w',
    update_subscription did days w
    = (Ok (<["updatedAt" := VStr (isoformat (clock w (S (clock_pos w))))]>
             (<["subscriptionEndDate" := VStr (isoformat new_end)]> rec)), w') ∧
    users (store w')
    = <[did := <["updatedAt" := VStr (isoformat (clock w (S (clock_pos w))))]>
                 (<["subscriptionEndDate" := VStr (isoformat new_end)]> rec)]>
        (users (store w)).
Proof.
  intros Hrec Hs Hadd. unfold update_subscription.
  rewrite (bind_Ok _ _ _ _ _ (read_item_Some _ _ _ Hrec)).
  rewrite Hs.
  rewrite (bind_Ok _ _ _ _ _ (now_eq _)), Hadd.
  rewrite (bind_Ok _ _ _ _ _ (now_iso_eq _)).
  rewrite (replace_item_Some did rec _ (skip_clock 1 (skip_clock 1 w)) Hrec).
  eexists. split; reflexivity.
Qed.



Import OwnerApp.

(** C7: the status is [Expired] below zero days, [Expiring Soon] from 0
    to 29 days and [Active] from 30 days on; it is computed from the whole
    days between the end date and now. *)
Theorem subscription_status_thresholds (days_left : Z) :
  (days_left < 0 → subscription_status days_left = "Expired") ∧
  (0 <= days_left < 30 → subscription_status days_left = "Expiring Soon") ∧
  (30 <= days_left → subscription_status days_left = "Active") ∧
  subscription_status (-5) = "Expired" ∧
  subscription_status 10 = "Expiring Soon" ∧
  subscription_status 40 = "Active" ∧
  (∀ now doctor d s, doctor_subscription now doctor = (Some d, s) → s = subscription_status d).
Proof.
  split; [| split; [| split; [| split; [| split; [| split]]]]]; try reflexivity.
  - intros H. unfold subscription_status. by rewrite (proj2 (Z.ltb_lt _ _)) by lia.
  - intros H. unfold subscription_status.
    by rewrite (proj2 (Z.ltb_ge _ _)), (proj2 (Z.ltb_lt _ _)) by lia.
  - intros H. unfold subscription_status. by rewrite !(proj2 (Z.ltb_ge _ _)) by lia.
  - intros now doctor d s. unfold doctor_subscription.
    repeat case_match; intros [= <- <-]; reflexivity.
Qed.

Lemma subscription_status_thresholds_witness :
  -5 < 0 ∧ subscription_status (-5) = "Expired".
Proof.
  split; [lia |]. apply (proj1 (subscription_status_thresholds (-5))). lia.
Defined.

End SubscriptionFacts.

(** ** Uniqueness of access codes *)

Module UniquenessFacts.
Import Datetime Runtime RuntimeFacts Cosmos CosmosFacts Shape.
Import AdminAzureServices.

(** C2 (the cloud variant breaks the invariant): the generator of
    [AzureServices] draws a code and no caller compares it with the live
    codes.  In a container where pharmacy-1 holds the code [AAAAAAAA], a run
    of [regenerate_access_code] on lab-1 whose draws spell [AAAAAAAA] again
    succeeds, and both live accounts then carry the same code. *)
Theorem regenerate_access_code_reuses_live_code :
  access_code_of "pharmacy-1" collision_world = Some (VStr "AAAAAAAA") ∧
  fst (regenerate_access_code "lab-1" collision_world) = Ok "AAAAAAAA" ∧
  access_code_of "pharmacy-1" (snd (regenerate_access_code "lab-1" collision_world))
  = Some (VStr "AAAAAAAA") ∧
  access_code_of "lab-1" (snd (regenerate_access_code "lab-1" collision_world))
  = Some (VStr "AAAAAAAA").
Proof. repeat split; vm_compute; reflexivity. Qed.

(** The code that [regenerate_access_code] assigns is a function of the
    random tape alone: the container is not consulted. *)
Lemma regenerate_access_code_ignores_store (w : World db) (account_id code : string) w' :
  regenerate_access_code account_id w = (Ok code, w') →
  code = drawn_string (string_ascii_uppercase +:+ string_digits) 8 w.
Proof.
  unfold regenerate_access_code, _generate_access_code.
  destruct (users (store w) !! account_id) as [rec|] eqn:Hrec.
  - rewrite (bind_Ok _ _ _ _ _ (read_item_Some _ _ _ Hrec)).
    destruct (negb _); [discriminate |].
    rewrite (bind_Ok _ _ _ _ _ (join_choices_eq _ 8 w)).
    rewrite (bind_Ok _ _ _ _ _ (now_iso_eq _)).
    rewrite (bind_Ok _ _ _ _ _ (replace_item_Some account_id rec _ (skip_clock 1 (skip_rand 8 w)) Hrec)).
    by intros [= <- _].
  - rewrite (bind_Raise _ _ _ _ _ (read_item_None _ _ Hrec)). discriminate.
Qed.

Import AdminApplication.

(** The SQLite variant does check: on a working connection the code it
    answers is carried by no pharmacy and no laboratory. *)
Lemma generate_access_code_unused fuel (w w' : World AdminApplication.db) code :
  generate_access_code fuel w = (Ok code, w') →
  broken (store w) = false →
  Forall (fun r => a_access_code r ≠ code) (pharmacies (store w) ++ laboratories (store w)).
Proof.
  intros Hrun Hb.
  pose proof (AccessCodeFacts.generate_access_code_sqlite fuel w) as H.
  rewrite Hrun in H. destruct H as (_ & _ & H). destruct (H Hb) as [Hp Hl].
  unfold count_code in Hp, Hl.
  apply Forall_app. split; apply Forall_forall; intros r Hr Heq.
  - assert (Hin : r ∈ filter (fun r => a_access_code r = code) (pharmacies (store w)))
      by (apply list_elem_of_filter; auto).
    destruct (filter _ (pharmacies (store w))); [by apply not_elem_of_nil in Hin | simpl in Hp; lia].
  - assert (Hin : r ∈ filter (fun r => a_access_code r = code) (laboratories (store w)))
      by (apply list_elem_of_filter; auto).
    destruct (filter _ (laboratories (store w))); [by apply not_elem_of_nil in Hin | simpl in Hl; lia].
Qed.

End UniquenessFacts.

(** ** Doctor passwords in the SQLite variant *)

Module DoctorPasswordFacts.
Import Bytes Sha256 Datetime Runtime RuntimeFacts Shape.
Import AdminApplication LabAccountFacts.

Lemma generate_access_code_store fuel (w w' : World db) r :
  generate_access_code fuel w = (r, w') → store w' = store w.
Proof.
  intros H. pose proof (AccessCodeFacts.generate_access_code_sqlite fuel w) as Hs.
  rewrite H in Hs. destruct r; tauto.
Qed.

(** Creating the associated accounts never touches the doctors table. *)
Lemma create_associated_accounts_doctors fuel confirm id name (w w' : World db) r :
  create_associated_accounts fuel confirm id name w = (r, w') →
  doctors (store w') = doctors (store w).
Proof.
  unfold create_associated_accounts, mbind, M_bind, bind, get_store, put_store, now,
    mret, M_ret, ret.
  destruct (broken (store w)); [by intros [= _ <-] |].
  destruct (_ && negb confirm); [by intros [= _ <-] |].
  destruct (generate_access_code fuel w) as [[c1|e1] w1] eqn:H1;
    apply generate_access_code_store in H1; [| by intros [= _ <-]; rewrite H1].
  cbn [store skip_clock].
  destruct (insert_account (pharmacies (store w1)) _ _ _ _ _) as [[ph phs]|];
    [| by intros [= _ <-]; cbn; rewrite H1].
  destruct (generate_access_code fuel _) as [[c2|e2] w2] eqn:H2;
    apply generate_access_code_store in H2; cbn [store with_store skip_clock] in H2;
    [| by intros [= _ <-]; rewrite H2; cbn; rewrite H1].
  cbn [store skip_clock].
  destruct (insert_account (laboratories (store w2)) _ _ _ _ _) as [[lb lbs]|];
    intros [= _ <-]; cbn; rewrite H2; cbn; by rewrite H1.
Qed.

(** A saved doctor is a new last row whose password column is the
    SHA-256 hex digest of the typed password. *)
Lemma add_doctor_saved fuel confirm f (w w' : World db) :
  add_doctor fuel confirm f w = (Ok Saved, w') →
  f_password f ≠ EmptyString ∧
  ∃ row, doctors (store w') = doctors (store w) ++ [row] ∧
         d_username row = f_username f ∧
         d_password row = hash_doctor_password (f_password f).
Proof.
  unfold add_doctor.
  destruct (bool_decide (f_username f = EmptyString)); [intros [=] |].
  destruct (bool_decide (f_password f = EmptyString)) eqn:Hpw; [intros [=] |].
  apply bool_decide_eq_false in Hpw.
  destruct (bool_decide (f_password f ≠ f_confirm_password f)); [intros [=] |].
  destruct (bool_decide (f_name f = EmptyString)); [intros [=] |].
  destruct (negb _ && negb _); [intros [=] |].
  unfold mbind, M_bind, bind, get_store, put_store, now, mret, M_ret, ret.
  destruct (broken (store w)); [intros [=] |].
  cbn [store skip_clock].
  destruct (bool_decide (Exists _ _)); [intros [=] |].
  destruct (f_create_related_accounts f).
  - destruct (create_associated_accounts _ _ _ _ _) as [[o|e] w1] eqn:Hc;
      apply create_associated_accounts_doctors in Hc; cbn [store with_store doctors] in Hc;
      intros [= <-].
    split; [exact Hpw |].
    eexists. rewrite Hc. split; [reflexivity |]. split; reflexivity.
  - intros [= <-]. cbn [store with_store doctors].
    split; [exact Hpw |].
    eexists. split; [reflexivity |]. split; reflexivity.
Qed.

(** An edit that types a password rewrites the password column of the
    edited row with the digest of that password. *)
Lemma edit_doctor_saved doctor_id f (w w' : World db) :
  edit_doctor doctor_id f w = (Ok Saved, w') →
  f_password f ≠ EmptyString →
  Forall (fun r => d_id r = doctor_id → d_password r = hash_doctor_password (f_password f))
    (doctors (store w')).
Proof.
  unfold edit_doctor.
  destruct (negb _ && bool_decide _); [intros [=] |].
  destruct (bool_decide (f_name f = EmptyString)); [intros [=] |].
  destruct (negb _ && negb _); [intros [=] |].
  unfold mbind, M_bind, bind, get_store, put_store, mret, M_ret, ret.
  destruct (broken (store w)); [intros [=] |].
  intros [= <-] Hpw. cbn [store with_store doctors].
  apply Forall_forall. intros r Hr Hid.
  apply list_elem_of_fmap in Hr as (r0 & -> & _).
  unfold set_doctor in *. case_bool_decide as Hr0; [| done].
  cbn [d_password]. by rewrite bool_decide_eq_false_2.
Qed.

(** C10: a doctor's stored password is [sha256(password).hexdigest()], a
    function of the password alone.  Two doctors added with the same
    password, and any doctor whose password is set to it by an edit, carry
    the same value in the password column. *)
Theorem doctor_password_hash_deterministic
    (fuel : nat) (confirm : bool) (f1 f2 f3 : doctor_form) (id : Z) (w w1 w2 w3 : World db) :
  add_doctor fuel confirm f1 w = (Ok Saved, w1) →
  add_doctor fuel confirm f2 w1 = (Ok Saved, w2) →
  edit_doctor id f3 w2 = (Ok Saved, w3) →
  f_password f2 = f_password f1 →
  f_password f3 = f_password f1 →
  ∃ r1 r2,
    doctors (store w2) = doctors (store w) ++ [r1; r2] ∧
    d_username r1 = f_username f1 ∧ d_username r2 = f_username f2 ∧
    d_password r1 = hexdigest (encode_utf8 (f_password f1)) ∧
    d_password r2 = d_password r1 ∧
    Forall (fun r => d_id r = id → d_password r = d_password r1) (doctors (store w3)) ∧
    hash_doctor_password "abc"
    = "ba7816bf8f01cfea414140de5dae2223b00361a396177a9cb410ff61f20015ad".
Proof.
  intros H1 H2 H3 Hp2 Hp3.
  apply add_doctor_saved in H1 as (Hne & r1 & Hd1 & Hu1 & Hh1).
  apply add_doctor_saved in H2 as (_ & r2 & Hd2 & Hu2 & Hh2).
  exists r1, r2.
  split; [by rewrite Hd2, Hd1, <- app_assoc |].
  split; [exact Hu1 |]. split; [exact Hu2 |]. split; [exact Hh1 |].
  split; [by rewrite Hh2, Hh1, Hp2 |].
  split; [| vm_compute; reflexivity].
  rewrite <- Hp3 in Hne.
  apply edit_doctor_saved in H3; [| exact Hne].
  rewrite Hh1, <- Hp3. exact H3.
Qed.

Lemma doctor_password_hash_deterministic_witness :
  add_doctor 10 true form_alice doctors_0 = (Ok Saved, doctors_1) ∧
  add_doctor 10 true form_bob doctors_1 = (Ok Saved, doctors_2) ∧
  edit_doctor 1 form_edit doctors_2 = (Ok Saved, doctors_3) ∧
  map d_password (doctors (store doctors_3))
  = [ "ba7816bf8f01cfea414140de5dae2223b00361a396177a9cb410ff61f20015ad";
      "ba7816bf8f01cfea414140de5dae2223b00361a396177a9cb410ff61f20015ad" ] ∧
  ∃ r1 r2, doctors (store doctors_2) = [r1; r2] ∧ d_password r2 = d_password r1.
Proof.
  assert (H1 : add_doctor 10 true form_alice doctors_0 = (Ok Saved, doctors_1))
    by (vm_compute; reflexivity).
  assert (H2 : add_doctor 10 true form_bob doctors_1 = (Ok Saved, doctors_2))
    by (vm_compute; reflexivity).
  assert (H3 : edit_doctor 1 form_edit doctors_2 = (Ok Saved, doctors_3))
    by (vm_compute; reflexivity).
  split; [exact H1 |]. split; [exact H2 |]. split; [exact H3 |].
  split; [vm_compute; reflexivity |].
  destruct (doctor_password_hash_deterministic 10 true form_alice form_bob form_edit 1
              doctors_0 doctors_1 doctors_2 doctors_3 H1 H2 H3 eq_refl eq_refl)
    as (r1 & r2 & Hd & _ & _ & _ & Hp & _).
  exists r1, r2. split; [exact Hd | exact Hp].
Defined.

End DoctorPasswordFacts.

(** ** Known answers of the library models *)

Module KnownAnswers.
Import Bytes Sha256 Pbkdf2 Base64 Datetime Runtime.

(** FIPS 180-4 test vectors. *)
Example sha256_abc :
  hexdigest (encode_utf8 "abc")
  = "ba7816bf8f01cfea414140de5dae2223b00361a396177a9cb410ff61f20015ad".
Proof. vm_compute. reflexivity. Qed.

Example sha256_empty :
  hexdigest []
  = "e3b0c44298fc1c149afbf4c8996fb92427ae41e4649b934ca495991b7852b855".
Proof. vm_compute. reflexivity. Qed.

Example sha256_two_blocks :
  hexdigest (encode_utf8 "abcdbcdecdefdefgefghfghighijhijkijkljklmklmnlmnomnopnopq")
  = "248d6a61d20638b8e5c026930c3e6039a33ce45964ff2167f6ecedd419db06c1".
Proof. vm_compute. reflexivity. Qed.

(** RFC 4231, test case 2. *)
Example hmac_jefe :
  hex (hmac (encode_utf8 "Jefe") (encode_utf8 "what do ya want for nothing?"))
  = "5bdcc146bf60754e6a042426089575c75a003f089d2739839dec58b964ec3843".
Proof. vm_compute. reflexivity. Qed.

(** PBKDF2-HMAC-SHA256 of ["password"] and ["salt"], one and two iterations. *)
Example pbkdf2_one_iteration :
  hex (pbkdf2_hmac (encode_utf8 "password") (encode_utf8 "salt") 1 32)
  = "120fb6cffcf8b32c43e7225256c4f837a86548c92ccc35480805987cb70be17b".
Proof. vm_compute. reflexivity. Qed.

Example pbkdf2_two_iterations :
  hex (pbkdf2_hmac (encode_utf8 "password") (encode_utf8 "salt") 2 32)
  = "ae4d0c95af6b46d32d0adff928f06dd02a303f8ef3c251dfd6e2d85a95474c43".
Proof. vm_compute. reflexivity. Qed.

(** RFC 4648 test vectors, and the decoder on text that is not Base64. *)
Example b64encode_foobar :
  map (fun s => b64encode (encode_utf8 s)) ["f"; "fo"; "foo"; "foob"; "fooba"; "foobar"]
  = ["Zg=="; "Zm8="; "Zm9v"; "Zm9vYg=="; "Zm9vYmE="; "Zm9vYmFy"].
Proof. vm_compute. reflexivity. Qed.

Example b64decode_examples :
  b64decode "Zm9vYmE=" = Some (encode_utf8 "fooba") ∧
  b64decode "Zm9v YmE=" = Some (encode_utf8 "fooba") ∧
  b64decode "Zm9vYmE" = None ∧
  b64decode "Z" = None ∧
  b64decode EmptyString = Some [].
Proof. repeat split; vm_compute; reflexivity. Qed.

Example ordinals :
  _ymd2ord 1 1 1 = 1 ∧ _ymd2ord 2024 1 1 = 738886 ∧ _ymd2ord 9999 12 31 = _MAXORDINAL ∧
  _ord2ymd 1 = (1, 1, 1) ∧ _ord2ymd 738886 = (2024, 1, 1) ∧
  _ord2ymd 730179 = (2000, 2, 29) ∧ _ord2ymd _MAXORDINAL = (9999, 12, 31).
Proof. repeat split; vm_compute; reflexivity. Qed.

Example fromisoformat_examples :
  fromisoformat "2024-01-01" = Some (Datetime 2024 1 1 0 0 0 0 None) ∧
  fromisoformat "2024-01-01T10:20:30.123456"
  = Some (Datetime 2024 1 1 10 20 30 123456 None) ∧
  fromisoformat (replace_Z "2024-01-01T10:20:30Z")
  = Some (Datetime 2024 1 1 10 20 30 0 (Some 0)) ∧
  fromisoformat "2024-01-01T10:20:30Z" = None ∧
  fromisoformat "2024-02-30" = None ∧
  fromisoformat "not a date" = None.
Proof. repeat split; vm_compute; reflexivity. Qed.

Example isoformat_examples :
  isoformat (Datetime 2024 1 31 0 0 0 0 None) = "2024-01-31T00:00:00" ∧
  isoformat (Datetime 2024 1 1 10 20 30 123 None) = "2024-01-01T10:20:30.000123" ∧
  isoformat (Datetime 2024 1 1 10 20 30 0 (Some 19800000000)) = "2024-01-01T10:20:30+05:30".
Proof. repeat split; vm_compute; reflexivity. Qed.

Example uuid_of_counting_bytes :
  uuid_str (map Z.of_nat (seq 0 16)) = "00010203-0405-4607-8809-0a0b0c0d0e0f".
Proof. vm_compute. reflexivity. Qed.

Example email_examples :
  map AdminApplication.email_matches ["a@b.c"; "a@b."; "a@.c"; "@b.c"; "a.b@c"; "a@b.c@d"]
  = [true; false; false; false; false; true].
Proof. vm_compute. reflexivity. Qed.

End KnownAnswers.

(** ** Calendar arithmetic *)

Module DatetimeFacts.
Import Datetime.

Lemma _is_leap_spec y :
  _is_leap y = true ↔ y mod 4 = 0 ∧ (y mod 100 ≠ 0 ∨ y mod 400 = 0).
Proof.
  unfold _is_leap.
  rewrite andb_true_iff, orb_true_iff, negb_true_iff, !Z.eqb_eq, Z.eqb_neq. tauto.
Qed.

Lemma _days_in_month_leap y m :
  _days_in_month y m
  = nth (Z.to_nat m) _DAYS_IN_MONTH 0 + (if (m =? 2) && _is_leap y then 1 else 0).
Proof.
  unfold _days_in_month. destruct (Z.eqb_spec m 2) as [->|]; [| cbn [andb]; lia].
  destruct (_is_leap y); reflexivity.
Qed.

Lemma _days_in_month_bounds y m : 1 <= m <= 12 → 28 <= _days_in_month y m <= 31.
Proof.
  intros H. rewrite _days_in_month_leap.
  assert (Hc : m = 1 ∨ m = 2 ∨ m = 3 ∨ m = 4 ∨ m = 5 ∨ m = 6 ∨ m = 7 ∨ m = 8 ∨ m = 9 ∨
               m = 10 ∨ m = 11 ∨ m = 12) by lia.
  destruct (_is_leap y); intuition subst; vm_compute; discriminate.
Qed.

(** Month and day of each day of a year, checked day by day: the month is
    in range, the day is in the month, and the days before the month plus
    the day give back the day of the year. *)
Lemma month_day_days :
  forallb
    (fun r =>
       forallb
         (fun leap : bool =>
            let '(m, d) := month_day r leap in
            (1 <=? m) && (m <=? 12) && (1 <=? d)
            && (d <=? nth (Z.to_nat m) _DAYS_IN_MONTH 0 + (if (m =? 2) && leap then 1 else 0))
            && (nth (Z.to_nat m) _DAYS_BEFORE_MONTH 0 + (if (2 <? m) && leap then 1 else 0) + d
                =? r + 1))
         [true; false])
    (map Z.of_nat (seq 0 365))
  = true.
Proof. vm_compute. reflexivity. Qed.

Lemma month_day_spec r leap :
  0 <= r < 365 →
  ∃ m d, month_day r leap = (m, d) ∧ 1 <= m <= 12 ∧
         1 <= d <= nth (Z.to_nat m) _DAYS_IN_MONTH 0 + (if (m =? 2) && leap then 1 else 0) ∧
         nth (Z.to_nat m) _DAYS_BEFORE_MONTH 0 + (if (2 <? m) && leap then 1 else 0) + d = r + 1.
Proof.
  intros Hr. pose proof month_day_days as H.
  rewrite forallb_forall in H.
  specialize (H r). rewrite forallb_forall in H.
  assert (Hin : In r (map Z.of_nat (seq 0 365))).
  { apply in_map_iff. exists (Z.to_nat r). split; [lia |]. apply in_seq. lia. }
  specialize (H Hin leap).
  assert (Hl : In leap [true; false]) by (destruct leap; cbn; auto).
  specialize (H Hl). destruct (month_day r leap) as [m d].
  exists m, d. split; [reflexivity |].
  rewrite !andb_true_iff, !Z.leb_le, Z.eqb_eq in H. lia.
Qed.

(** The date of an ordinal is a date of the calendar, and its ordinal is
    the ordinal started from. *)
Lemma _ord2ymd_spec o :
  1 <= o <= _MAXORDINAL →
  ∃ y m d, _ord2ymd o = (y, m, d) ∧ 1 <= y <= 9999 ∧ 1 <= m <= 12 ∧
           1 <= d <= _days_in_month y m ∧ _ymd2ord y m d = o.
Proof.
  intros Ho. unfold _ord2ymd, _MAXORDINAL, _DI400Y, _DI100Y, _DI4Y in *. cbv zeta.
  set (n := o - 1) in *.
  set (n400 := n / 146097). set (r400 := n mod 146097).
  set (n100 := r400 / 36524). set (r100 := r400 mod 36524).
  set (n4 := r100 / 1461). set (r4 := r100 mod 1461).
  set (n1 := r4 / 365). set (r1 := r4 mod 365).
  assert (H400 : n = 146097 * n400 + r400 ∧ 0 <= r400 < 146097)
    by (subst n400 r400; Z.div_mod_to_equations; lia).
  assert (H100 : r400 = 36524 * n100 + r100 ∧ 0 <= r100 < 36524)
    by (subst n100 r100; Z.div_mod_to_equations; lia).
  assert (H4 : r100 = 1461 * n4 + r4 ∧ 0 <= r4 < 1461)
    by (subst n4 r4; Z.div_mod_to_equations; lia).
  assert (H1 : r4 = 365 * n1 + r1 ∧ 0 <= r1 < 365)
    by (subst n1 r1; Z.div_mod_to_equations; lia).
  clearbody n400 r400 n100 r100 n4 r4 n1 r1.
  assert (Hn : n = o - 1) by reflexivity. clearbody n.
  unfold _ymd2ord, _days_before_year, _days_before_month.
  destruct (Z.eqb_spec n1 4) as [E1|E1]; [| destruct (Z.eqb_spec n100 4) as [E100|E100]];
    cbn [orb].
  - eexists _, _, _. split; [reflexivity |]. rewrite _days_in_month_leap.
    change (nth (Z.to_nat 12) _DAYS_IN_MONTH 0) with 31.
    change (nth (Z.to_nat 12) _DAYS_BEFORE_MONTH 0) with 334.
    change (12 =? 2) with false. change (2 <? 12) with true. cbn [andb].
    assert (Hleap : _is_leap (n400 * 400 + 1 + n100 * 100 + n4 * 4 + n1 - 1) = true).
    { apply _is_leap_spec. Z.div_mod_to_equations. lia. }
    rewrite Hleap. Z.div_mod_to_equations. lia.
  - eexists _, _, _. split; [reflexivity |]. rewrite _days_in_month_leap.
    change (nth (Z.to_nat 12) _DAYS_IN_MONTH 0) with 31.
    change (nth (Z.to_nat 12) _DAYS_BEFORE_MONTH 0) with 334.
    change (12 =? 2) with false. change (2 <? 12) with true. cbn [andb].
    assert (Hleap : _is_leap (n400 * 400 + 1 + n100 * 100 + n4 * 4 + n1 - 1) = true).
    { apply _is_leap_spec. Z.div_mod_to_equations. lia. }
    rewrite Hleap. Z.div_mod_to_equations. lia.
  - set (leapyear := (n1 =? 3) && (negb (n4 =? 24) || (n100 =? 3))).
    assert (Hleap : _is_leap (n400 * 400 + 1 + n100 * 100 + n4 * 4 + n1) = leapyear).
    { subst leapyear. apply eq_true_iff_eq.
      rewrite _is_leap_spec, andb_true_iff, orb_true_iff, negb_true_iff, !Z.eqb_eq, Z.eqb_neq.
      Z.div_mod_to_equations. lia. }
    destruct (month_day_spec r1 leapyear (proj2 H1)) as (m & d & Hmd & Hm & Hd & Hsum).
    rewrite Hmd. eexists _, _, _. split; [reflexivity |].
    rewrite _days_in_month_leap, Hleap. Z.div_mod_to_equations. lia.
Qed.

Lemma valid_spec d :
  valid d = true ↔
  1 <= year d <= 9999 ∧ 1 <= month d <= 12 ∧ 1 <= day d <= _days_in_month (year d) (month d) ∧
  0 <= hour d <= 23 ∧ 0 <= minute d <= 59 ∧ 0 <= second d <= 59 ∧
  0 <= microsecond d <= 999999 ∧
  match tz d with None => True | Some o => -86400000000 < o < 86400000000 end.
Proof.
  unfold valid. rewrite !andb_true_iff, !Z.leb_le.
  destruct (tz d) as [o|].
  - rewrite andb_true_iff, !Z.ltb_lt. tauto.
  - tauto.
Qed.

(** The days of a year before a month and in it stay within the year. *)
Lemma _days_before_month_bounds y m :
  1 <= m <= 12 →
  0 <= _days_before_month y m ∧
  _days_before_month y m + _days_in_month y m <= 365 + (if _is_leap y then 1 else 0).
Proof.
  intros H. rewrite _days_in_month_leap. unfold _days_before_month.
  assert (Hc : m = 1 ∨ m = 2 ∨ m = 3 ∨ m = 4 ∨ m = 5 ∨ m = 6 ∨ m = 7 ∨ m = 8 ∨ m = 9 ∨
               m = 10 ∨ m = 11 ∨ m = 12) by lia.
  destruct (_is_leap y); intuition subst; vm_compute; discriminate.
Qed.

Lemma toordinal_bounds d : valid d = true → 1 <= toordinal d <= _MAXORDINAL.
Proof.
  intros Hv. apply valid_spec in Hv as (Hy & Hm & Hd & _).
  pose proof (_days_before_month_bounds (year d) (month d) Hm) as [Hb0 Hb1].
  unfold toordinal, _ymd2ord, _MAXORDINAL.
  assert (Hyear : 0 <= _days_before_year (year d) ∧
                  _days_before_year (year d) + 365 + (if _is_leap (year d) then 1 else 0)
                  <= 3652059).
  { unfold _days_before_year.
    destruct (_is_leap (year d)) eqn:Hleap.
    - apply _is_leap_spec in Hleap. Z.div_mod_to_equations. lia.
    - Z.div_mod_to_equations. lia. }
  lia.
Qed.

(** Adding days moves the ordinal by as many days and keeps the time of
    day. *)
Lemma add_days_Some d n :
  valid d = true → Z.abs n <= 999999999 → 1 <= toordinal d + n <= _MAXORDINAL →
  ∃ e, add_days d n = Some e ∧ valid e = true ∧ toordinal e = toordinal d + n ∧
       hour e = hour d ∧ minute e = minute d ∧ second e = second d ∧
       microsecond e = microsecond d ∧ tz e = tz d.
Proof.
  intros Hv Hn Ho. unfold add_days.
  rewrite (proj2 (Z.leb_le _ _) Hn), (proj2 (Z.ltb_lt _ _)), (proj2 (Z.leb_le _ _)) by lia.
  cbn [andb].
  destruct (_ord2ymd_spec _ Ho) as (y & m & dd & -> & Hy & Hm & Hd & Hord).
  eexists. split; [reflexivity |]. split; [| by repeat split].
  apply valid_spec. apply valid_spec in Hv. cbn. tauto.
Qed.

Lemma add_days_None d n :
  ¬ (Z.abs n <= 999999999 ∧ 1 <= toordinal d + n <= _MAXORDINAL) → add_days d n = None.
Proof.
  intros H. unfold add_days.
  destruct (Z.leb_spec (Z.abs n) 999999999); [| reflexivity].
  destruct (Z.ltb_spec 0 (toordinal d + n)); [| reflexivity].
  destruct (Z.leb_spec (toordinal d + n) _MAXORDINAL); [| reflexivity].
  exfalso. apply H. lia.
Qed.

(** Two additions in a row are one addition of the sum. *)
Lemma add_days_add d a b e :
  valid d = true → add_days d a = Some e →
  Z.abs b <= 999999999 → Z.abs (a + b) <= 999999999 →
  add_days e b = add_days d (a + b).
Proof.
  intros Hv Ha Hb Hab.
  destruct (decide (Z.abs a <= 999999999 ∧ 1 <= toordinal d + a <= _MAXORDINAL)) as [[H1 H2]|H];
    [| by rewrite add_days_None in Ha].
  destruct (add_days_Some d a Hv H1 H2) as (e' & He' & Hve & Hord & Hh & Hm & Hs & Hu & Htz).
  rewrite Ha in He'. injection He' as <-.
  unfold add_days. rewrite Hord, Hh, Hm, Hs, Hu, Htz.
  rewrite (proj2 (Z.leb_le _ _) Hb), (proj2 (Z.leb_le _ _) Hab).
  by rewrite Z.add_assoc.
Qed.

End DatetimeFacts.

(** ** ISO strings *)

Module IsoFacts.
Import Datetime DatetimeFacts.

Lemma digit_val_digit_char e : 0 <= e <= 9 → digit_val (digit_char e) = Some e.
Proof.
  intros H.
  assert (He : In e (map Z.of_nat (seq 0 10))).
  { apply in_map_iff. exists (Z.to_nat e). split; [lia |]. apply in_seq. lia. }
  clear H. revert e He. apply List.Forall_forall. by repeat constructor.
Qed.

(** A digit is none of the characters that [digit_val] rejects. *)
Lemma digit_eqb c s v : digit_val c = Some v → digit_val s = None → Ascii.eqb c s = false.
Proof.
  intros Hc Hs. destruct (Ascii.eqb_spec c s) as [->|]; [congruence | reflexivity].
Qed.

Ltac digits :=
  repeat match goal with
    | H : digit_val ?c = Some _ |- context [digit_val ?c] => rewrite H
    | H : digit_val ?c = Some _ |- context [Ascii.eqb ?c ?s] =>
        rewrite (digit_eqb c s _ H) by reflexivity
    end.

Lemma _parse_isoformat_date_digits y3 y2 y1 y0 m1 m0 d1 d0 vy3 vy2 vy1 vy0 vm1 vm0 vd1 vd0 :
  digit_val y3 = Some vy3 → digit_val y2 = Some vy2 → digit_val y1 = Some vy1 →
  digit_val y0 = Some vy0 → digit_val m1 = Some vm1 → digit_val m0 = Some vm0 →
  digit_val d1 = Some vd1 → digit_val d0 = Some vd0 →
  _parse_isoformat_date [y3; y2; y1; y0; "-"%char; m1; m0; "-"%char; d1; d0]
  = Some (10 * (10 * (10 * (10 * 0 + vy3) + vy2) + vy1) + vy0,
          10 * (10 * 0 + vm1) + vm0, 10 * (10 * 0 + vd1) + vd0).
Proof.
  intros. unfold _parse_isoformat_date, int_field, slice.
  cbn [firstn skipn length Nat.eqb Nat.sub parse_digits]. digits. reflexivity.
Qed.

Lemma _parse_isoformat_time_seconds h1 h0 i1 i0 s1 s0 vh1 vh0 vi1 vi0 vs1 vs0 :
  digit_val h1 = Some vh1 → digit_val h0 = Some vh0 → digit_val i1 = Some vi1 →
  digit_val i0 = Some vi0 → digit_val s1 = Some vs1 → digit_val s0 = Some vs0 →
  _parse_isoformat_time [h1; h0; ":"%char; i1; i0; ":"%char; s1; s0]
  = Some (10 * (10 * 0 + vh1) + vh0, 10 * (10 * 0 + vi1) + vi0, 10 * (10 * 0 + vs1) + vs0,
          0, None).
Proof.
  intros. unfold _parse_isoformat_time.
  cbn [length Nat.ltb Nat.leb find_char]. digits.
  cbn [Ascii.eqb Bool.eqb andb option_map].
  unfold _parse_hh_mm_ss_ff, int_field.
  cbn [parse_hms firstn skipn length Nat.eqb Nat.leb parse_digits int_field]. digits.
  cbn [Ascii.eqb Bool.eqb andb app nth]. digits. reflexivity.
Qed.

Lemma _parse_isoformat_time_micros h1 h0 i1 i0 s1 s0 u5 u4 u3 u2 u1 u0
    vh1 vh0 vi1 vi0 vs1 vs0 vu5 vu4 vu3 vu2 vu1 vu0 :
  digit_val h1 = Some vh1 → digit_val h0 = Some vh0 → digit_val i1 = Some vi1 →
  digit_val i0 = Some vi0 → digit_val s1 = Some vs1 → digit_val s0 = Some vs0 →
  digit_val u5 = Some vu5 → digit_val u4 = Some vu4 → digit_val u3 = Some vu3 →
  digit_val u2 = Some vu2 → digit_val u1 = Some vu1 → digit_val u0 = Some vu0 →
  _parse_isoformat_time
    [h1; h0; ":"%char; i1; i0; ":"%char; s1; s0; "."%char; u5; u4; u3; u2; u1; u0]
  = Some (10 * (10 * 0 + vh1) + vh0, 10 * (10 * 0 + vi1) + vi0, 10 * (10 * 0 + vs1) + vs0,
          10 * (10 * (10 * (10 * (10 * (10 * 0 + vu5) + vu4) + vu3) + vu2) + vu1) + vu0, None).
Proof.
  intros. unfold _parse_isoformat_time.
  cbn [length Nat.ltb Nat.leb find_char]. digits.
  cbn [Ascii.eqb Bool.eqb andb option_map].
  unfold _parse_hh_mm_ss_ff, int_field.
  cbn [parse_hms firstn skipn length Nat.eqb Nat.leb parse_digits int_field]. digits.
  cbn [Ascii.eqb Bool.eqb andb app nth length parse_digits]. digits. reflexivity.
Qed.

(** A naive value is read back from its ISO string. *)
Lemma fromisoformat_isoformat d :
  valid d = true → tz d = None → fromisoformat (isoformat d) = Some d.
Proof.
  intros Hv Htz. pose proof (proj1 (valid_spec d) Hv) as (Hy & Hm & Hd & Hh & Hi & Hs & Hu & _).
  pose proof (_days_in_month_bounds (year d) (month d) Hm) as Hdim.
  assert (Hdig : ∀ e, digit_val (digit_char (e mod 10)) = Some (e mod 10)).
  { intros e. apply digit_val_digit_char. Z.div_mod_to_equations. lia. }
  unfold isoformat. rewrite Htz.
  destruct (Z.eqb_spec (microsecond d) 0) as [Hus|Hus].
  - cbv beta iota delta [zpad String.append]. unfold fromisoformat.
    cbn [list_ascii_of_string firstn skipn].
    erewrite _parse_isoformat_date_digits by apply Hdig.
    erewrite _parse_isoformat_time_seconds by apply Hdig.
    match goal with
    | |- (if valid ?r then _ else _) = _ => assert (Hr : r = d)
    end.
    { destruct d as [y m dd h mi s us o]. cbn in *. subst us o. f_equal;
        Z.div_mod_to_equations; lia. }
    by rewrite Hr, Hv.
  - cbv beta iota delta [zpad String.append]. unfold fromisoformat.
    cbn [list_ascii_of_string firstn skipn].
    erewrite _parse_isoformat_date_digits by apply Hdig.
    erewrite _parse_isoformat_time_micros by apply Hdig.
    match goal with
    | |- (if valid ?r then _ else _) = _ => assert (Hr : r = d)
    end.
    { destruct d as [y m dd h mi s us o]. cbn in *. subst o. f_equal;
        Z.div_mod_to_equations; lia. }
    by rewrite Hr, Hv.
Qed.

Lemma fromisoformat_valid s d : fromisoformat s = Some d → valid d = true.
Proof.
  unfold fromisoformat. intros H.
  repeat case_match; try discriminate; by simplify_eq.
Qed.

Lemma isoformat_nonempty d : isoformat d ≠ EmptyString.
Proof. unfold isoformat. cbv beta iota delta [zpad String.append]. discriminate. Qed.

Lemma replace_Z_id s :
  Forall (fun c => Ascii.eqb c "Z" = false) (list_ascii_of_string s) → replace_Z s = s.
Proof.
  induction s as [|c s IH]; [reflexivity |].
  cbn [replace_Z list_ascii_of_string]. intros H.
  apply Forall_cons in H as [Hc Hs]. rewrite Hc. f_equal. by apply IH.
Qed.

(** The ISO string of a naive value holds no [Z]. *)
Lemma replace_Z_isoformat d : tz d = None → replace_Z (isoformat d) = isoformat d.
Proof.
  intros Htz.
  assert (Hdig : ∀ e, Ascii.eqb (digit_char (e mod 10)) "Z" = false).
  { intros e. apply (digit_eqb _ _ (e mod 10)); [| reflexivity].
    apply digit_val_digit_char. Z.div_mod_to_equations. lia. }
  apply replace_Z_id. unfold isoformat. rewrite Htz.
  destruct (microsecond d =? 0);
    cbv beta iota delta [zpad String.append list_ascii_of_string];
    repeat (constructor; [apply Hdig || reflexivity |]); constructor.
Qed.

End IsoFacts.

(** ** The owner's credentials *)

Module OwnerCredentialsFacts.
Import Bytes BytesFacts Pbkdf2 Pbkdf2Facts Base64 Base64Facts Datetime.
Import Runtime RuntimeFacts Cosmos SecurityManager SecurityManagerFacts.
Import LabAccountFacts OwnerCredentials OwnerWorlds.

Lemma set_credentials_eq c (w : World state) :
  set_credentials c w
  = (Ok (), with_store (State c (credentials_file (store w)) (writable (store w))) w).
Proof. reflexivity. Qed.

Lemma _save_credentials_eq (w : World state) :
  _save_credentials w = (Ok (), with_store (saved (store w)) w).
Proof.
  unfold _save_credentials, saved, get_store, mbind, M_bind, bind.
  destruct (writable (store w)) eqn:Hw; [reflexivity |].
  unfold mret, M_ret, ret. f_equal. by destruct w as [? ? ? ? ? ? []].
Qed.

Lemma generate_secure_password_eq {St} n (w : World St) :
  generate_secure_password n w = (Ok (drawn_string password_alphabet n w), skip_rand n w).
Proof. apply join_choices_eq. Qed.

Lemma get_store_eq {St} (w : World St) : get_store w = (Ok (store w), w).
Proof. reflexivity. Qed.

Lemma store_with_store {St} (s : St) (w : World St) : store (with_store s w) = s.
Proof. reflexivity. Qed.

Lemma with_store_twice {St} (s1 s2 : St) (w : World St) :
  with_store s2 (with_store s1 w) = with_store s2 w.
Proof. reflexivity. Qed.

(** The three writes of [change_password] and of [reset_password]. *)
Lemma lookup_rehashed (c : item) h t (b : bool) k :
  rehashed c h t b !! k
  = if bool_decide (k = "require_password_change") then Some (VBool b)
    else if bool_decide (k = "last_password_change") then Some (VStr t)
    else if bool_decide (k = "password_hash") then Some (VStr h)
    else c !! k.
Proof.
  unfold rehashed.
  repeat (case_bool_decide; [subst k; by rewrite ?lookup_insert_ne, lookup_insert_eq by done |]).
  by rewrite !lookup_insert_ne by done.
Qed.

Lemma change_password_accepted (w : World state) (old new : string) :
  verify_stored (get_or (credentials (store w)) "password_hash" (VStr EmptyString)) old = true →
  change_password old new w = (Ok true, after_rehash new false w).
Proof.
  intros Hv. unfold change_password.
  rewrite (bind_Ok _ _ _ _ _ (get_store_eq w)), Hv. cbn [negb].
  rewrite (bind_Ok _ _ _ _ _ (hash_password_eq new w)).
  rewrite (bind_Ok _ _ _ _ _ (now_eq _)).
  rewrite (bind_Ok _ _ _ _ _ (set_credentials_eq _ _)).
  rewrite (bind_Ok _ _ _ _ _ (_save_credentials_eq _)).
  reflexivity.
Qed.

Lemma change_password_rejected (w : World state) (old new : string) :
  verify_stored (get_or (credentials (store w)) "password_hash" (VStr EmptyString)) old = false →
  change_password old new w = (Ok false, w).
Proof.
  intros Hv. unfold change_password.
  by rewrite (bind_Ok _ _ _ _ _ (get_store_eq w)), Hv.
Qed.

Lemma credentials_saved (s : state) : credentials (saved s) = credentials s.
Proof. unfold saved. by destruct (writable s). Qed.

Lemma file_saved (s : state) :
  writable s = true → credentials_file (saved s) = Holds (credentials (saved s)).
Proof. unfold saved. by intros ->. Qed.

Lemma credentials_after_rehash p b (w : World state) :
  credentials (store (after_rehash p b w))
  = rehashed (credentials (store w)) (hashed p w) (isoformat (clock w (clock_pos w))) b.
Proof. unfold after_rehash. by rewrite store_with_store, credentials_saved. Qed.

(** After a rehash the stored hash accepts the password it was made from. *)
Lemma verify_after_rehash p b (w : World state) :
  verify_stored (get_or (credentials (store (after_rehash p b w))) "password_hash" (VStr EmptyString)) p
  = true.
Proof.
  rewrite credentials_after_rehash. unfold get_or.
  rewrite lookup_rehashed.
  rewrite !bool_decide_eq_false_2 by discriminate.
  rewrite bool_decide_eq_true_2 by reflexivity. cbn [default from_option id verify_stored].
  unfold hashed. rewrite verify_hash_password. apply bool_decide_eq_true_2; reflexivity.
Qed.

Lemma authenticate_accepted (w : World state) (u p : string) :
  credentials (store w) !! "username" = Some (VStr u) →
  verify_stored (get_or (credentials (store w)) "password_hash" (VStr EmptyString)) p = true →
  authenticate u p w = (Ok true, after_login w).
Proof.
  intros Hu Hv. unfold authenticate.
  rewrite (bind_Ok _ _ _ _ _ (get_store_eq w)).
  unfold get. rewrite Hu. cbn [default from_option id eq_str].
  rewrite bool_decide_eq_true_2 by done. cbn [negb].
  rewrite Hv. cbn [negb].
  rewrite (bind_Ok _ _ _ _ _ (now_eq _)).
  rewrite (bind_Ok _ _ _ _ _ (set_credentials_eq _ _)).
  rewrite (bind_Ok _ _ _ _ _ (_save_credentials_eq _)).
  reflexivity.
Qed.

Lemma authenticate_rejected (w : World state) (u p : string) :
  eq_str (get (credentials (store w)) "username") u
  && verify_stored (get_or (credentials (store w)) "password_hash" (VStr EmptyString)) p = false →
  authenticate u p w = (Ok false, w).
Proof.
  intros H. unfold authenticate.
  rewrite (bind_Ok _ _ _ _ _ (get_store_eq w)).
  destruct (eq_str _ u); [| reflexivity]. cbn in H. by rewrite H.
Qed.

(** X1: [change_password] with the stored password answers [True], stores
    a hash of the new password, clears [require_password_change], leaves
    every other entry of the credentials as it was and, when the file can
    be written, writes them to it; [authenticate] then accepts the new
    password.  With any other old password it answers [False] and changes
    nothing. *)
Theorem change_password_then_authenticate (w : World state) (old new u : string) :
  credentials (store w) !! "username" = Some (VStr u) →
  if verify_stored (get_or (credentials (store w)) "password_hash" (VStr EmptyString)) old
  then ∃ w1 w2,
         change_password old new w = (Ok true, w1) ∧
         credentials (store w1) !! "require_password_change" = Some (VBool false) ∧
         (∀ k, k ∉ ["password_hash"; "last_password_change"; "require_password_change"] →
               credentials (store w1) !! k = credentials (store w) !! k) ∧
         (writable (store w) = true →
          credentials_file (store w1) = Holds (credentials (store w1))) ∧
         authenticate u new w1 = (Ok true, w2)
  else change_password old new w = (Ok false, w).
Proof.
  intros Hu.
  destruct (verify_stored _ old) eqn:Hv; [| by apply change_password_rejected].
  eexists _, _. split; [by apply change_password_accepted |].
  split; [| split; [| split]].
  - rewrite credentials_after_rehash, lookup_rehashed. reflexivity.
  - intros k Hk. rewrite credentials_after_rehash, lookup_rehashed.
    rewrite !bool_decide_eq_false_2; [done | | |]; intros ->; apply Hk; set_solver.
  - intros Hw. unfold after_rehash. rewrite store_with_store.
    apply file_saved. exact Hw.
  - apply authenticate_accepted; [| apply verify_after_rehash].
    rewrite credentials_after_rehash, lookup_rehashed.
    rewrite !bool_decide_eq_false_2 by discriminate. exact Hu.
Qed.

Lemma change_password_then_authenticate_witness :
  ∃ w1 w2,
    change_password "old" "new" (after_rehash "old" true owner_without_hash) = (Ok true, w1) ∧
    authenticate "owner" "new" w1 = (Ok true, w2).
Proof.
  assert (Hu : credentials (store (after_rehash "old" true owner_without_hash)) !! "username"
               = Some (VStr "owner")).
  { rewrite credentials_after_rehash, lookup_rehashed.
    rewrite !bool_decide_eq_false_2 by discriminate. reflexivity. }
  pose proof (change_password_then_authenticate (after_rehash "old" true owner_without_hash)
                "old" "new" "owner" Hu) as H.
  rewrite (verify_after_rehash "old" true owner_without_hash) in H.
  destruct H as (w1 & w2 & H1 & _ & _ & _ & H2).
  exists w1, w2. split; [exact H1 | exact H2].
Defined.

Lemma reset_password_eq (w : World state) :
  reset_password w = (Ok (drawn_password w), after_rehash (drawn_password w) true (skip_rand 16 w)).
Proof.
  unfold reset_password.
  rewrite (bind_Ok _ _ _ _ _ (generate_secure_password_eq 16 w)).
  rewrite (bind_Ok _ _ _ _ _ (hash_password_eq _ _)).
  rewrite (bind_Ok _ _ _ _ _ (now_eq _)).
  rewrite (bind_Ok _ _ _ _ _ (get_store_eq _)).
  rewrite (bind_Ok _ _ _ _ _ (set_credentials_eq _ _)).
  rewrite (bind_Ok _ _ _ _ _ (_save_credentials_eq _)).
  reflexivity.
Qed.

Lemma length_drawn_password {St} (w : World St) : String.length (drawn_password w) = 16%nat.
Proof. apply length_drawn_string. Qed.

(** X2: [OwnerCredentials.reset_password] answers a password of 16
    characters, sets [require_password_change], leaves the entries other
    than the three it writes as they were, and [authenticate] accepts the
    password it answered. *)
Theorem reset_password_authenticates (w : World state) (u : string) :
  credentials (store w) !! "username" = Some (VStr u) →
  ∃ p w1 w2,
    reset_password w = (Ok p, w1) ∧
    String.length p = 16%nat ∧
    credentials (store w1) !! "require_password_change" = Some (VBool true) ∧
    (∀ k, k ∉ ["password_hash"; "last_password_change"; "require_password_change"] →
          credentials (store w1) !! k = credentials (store w) !! k) ∧
    authenticate u p w1 = (Ok true, w2).
Proof.
  intros Hu. eexists _, _, _. split; [apply reset_password_eq |].
  split; [apply length_drawn_password |]. split; [| split].
  - rewrite credentials_after_rehash, lookup_rehashed. reflexivity.
  - intros k Hk. rewrite credentials_after_rehash, lookup_rehashed.
    rewrite !bool_decide_eq_false_2; [done | | |]; intros ->; apply Hk; set_solver.
  - apply authenticate_accepted; [| apply verify_after_rehash].
    rewrite credentials_after_rehash, lookup_rehashed.
    rewrite !bool_decide_eq_false_2 by discriminate. exact Hu.
Qed.

Lemma reset_password_authenticates_witness :
  credentials (store owner_without_hash) !! "username" = Some (VStr "owner") ∧
  ∃ p w1 w2, reset_password owner_without_hash = (Ok p, w1) ∧
             authenticate "owner" p w1 = (Ok true, w2).
Proof.
  assert (Hu : credentials (store owner_without_hash) !! "username" = Some (VStr "owner"))
    by (vm_compute; reflexivity).
  split; [exact Hu |].
  destruct (reset_password_authenticates owner_without_hash "owner" Hu)
    as (p & w1 & w2 & Hr & _ & _ & _ & Ha).
  exists p, w1, w2. split; [exact Hr | exact Ha].
Defined.

(** The empty text decodes to no bytes, which no derived key equals. *)
Lemma verify_password_empty p : verify_password EmptyString p = false.
Proof.
  unfold verify_password.
  change (b64decode EmptyString) with (Some (@nil Z)). cbn [firstn skipn].
  unfold Bytes.eqb. apply bool_decide_eq_false. intros H.
  apply (f_equal length) in H. rewrite length_pbkdf2_hmac in H. discriminate.
Qed.

Lemma eq_str_true v s : eq_str v s = true → v = VStr s.
Proof. destruct v; try discriminate. cbn. intros H. apply bool_decide_eq_true in H. by subst. Qed.

Lemma get_VStr (c : item) k s : get c k = VStr s → c !! k = Some (VStr s).
Proof. unfold get. destruct (c !! k); cbn; [congruence | discriminate]. Qed.

Lemma authenticate_eq (w : World state) (u p : string) :
  authenticate u p w
  = if eq_str (get (credentials (store w)) "username") u
       && verify_stored (get_or (credentials (store w)) "password_hash" (VStr EmptyString)) p
    then (Ok true, after_login w) else (Ok false, w).
Proof.
  destruct (eq_str _ u && _) eqn:H; [| by apply authenticate_rejected].
  apply andb_true_iff in H as [Hu Hv].
  apply authenticate_accepted; [| exact Hv].
  by apply get_VStr, eq_str_true.
Qed.

(** X3: credentials whose [password_hash] is missing or is not a string,
    or whose [username] is not the name given, admit nobody: whatever the
    password, [authenticate] answers [False] and changes nothing, and
    without such a hash [change_password] answers [False] and changes
    nothing as well. *)
Theorem authenticate_needs_stored_values (w : World state) (u p : string) :
  (∀ h, credentials (store w) !! "password_hash" ≠ Some (VStr h))
  ∨ credentials (store w) !! "username" ≠ Some (VStr u) →
  authenticate u p w = (Ok false, w) ∧
  ∀ new, (∀ h, credentials (store w) !! "password_hash" ≠ Some (VStr h)) →
         change_password p new w = (Ok false, w).
Proof.
  assert (Hhash : (∀ h, credentials (store w) !! "password_hash" ≠ Some (VStr h)) →
                  verify_stored (get_or (credentials (store w)) "password_hash" (VStr EmptyString)) p
                  = false).
  { intros Hh. unfold get_or.
    destruct (credentials (store w) !! "password_hash") as [[| | |h|]|]; try reflexivity.
    - by destruct (Hh h).
    - apply verify_password_empty. }
  intros H. split.
  - apply authenticate_rejected. destruct H as [Hh | Hu].
    + rewrite (Hhash Hh). apply andb_false_r.
    + apply andb_false_intro1. unfold get.
      destruct (credentials (store w) !! "username") as [[| | |u'|]|]; try reflexivity.
      cbn. apply bool_decide_eq_false. congruence.
  - intros new Hh. apply change_password_rejected, Hhash, Hh.
Qed.

Lemma authenticate_needs_stored_values_witness :
  credentials (store owner_without_hash) !! "password_hash" = None ∧
  authenticate "owner" "secret" owner_without_hash = (Ok false, owner_without_hash).
Proof.
  split; [vm_compute; reflexivity |].
  refine (proj1 (authenticate_needs_stored_values owner_without_hash "owner" "secret" _)).
  left. intros h. vm_compute. discriminate.
Defined.

Lemma _create_initial_credentials_eq (w : World state) :
  _create_initial_credentials w = (Ok (drawn_password w), after_initial w).
Proof.
  unfold _create_initial_credentials.
  rewrite (bind_Ok _ _ _ _ _ (generate_secure_password_eq 16 w)).
  rewrite (bind_Ok _ _ _ _ _ (hash_password_eq _ _)).
  rewrite (bind_Ok _ _ _ _ _ (now_eq _)).
  rewrite (bind_Ok _ _ _ _ _ (now_eq _)).
  rewrite (bind_Ok _ _ _ _ _ (set_credentials_eq _ _)).
  rewrite (bind_Ok _ _ _ _ _ (_save_credentials_eq _)).
  reflexivity.
Qed.

Lemma _load_credentials_eq (w : World state) :
  _load_credentials w
  = (Ok (match credentials_file (store w) with Holds content => content | _ => ∅ end), w).
Proof. reflexivity. Qed.

Lemma init_without_credentials (w : World state) :
  match credentials_file (store w) with Holds c => c = ∅ | _ => True end →
  __init__ w = (Ok (Some (drawn_password w)), after_initial w).
Proof.
  intros Hf. unfold __init__.
  rewrite (bind_Ok _ _ _ _ _ (_load_credentials_eq w)).
  assert (Hc : match credentials_file (store w) with Holds content => content | _ => ∅ end
               = (∅ : item)) by (by destruct (credentials_file (store w))).
  rewrite Hc.
  rewrite (bind_Ok _ _ _ _ _ (set_credentials_eq _ _)).
  rewrite bool_decide_eq_true_2 by reflexivity.
  by rewrite (bind_Ok _ _ _ _ _ (_create_initial_credentials_eq _)).
Qed.

Lemma init_with_credentials (w : World state) (c : item) :
  credentials_file (store w) = Holds c → c ≠ ∅ →
  __init__ w = (Ok None, with_store (State c (Holds c) (writable (store w))) w).
Proof.
  intros Hf Hc. unfold __init__.
  rewrite (bind_Ok _ _ _ _ _ (_load_credentials_eq w)), Hf.
  rewrite (bind_Ok _ _ _ _ _ (set_credentials_eq _ _)).
  rewrite bool_decide_eq_false_2 by exact Hc.
  unfold mret, M_ret, ret. by rewrite Hf.
Qed.

Lemma credentials_after_login (w : World state) :
  credentials (store (after_login w))
  = <["last_login" := VStr (isoformat (clock w (clock_pos w)))]> (credentials (store w)).
Proof. unfold after_login. by rewrite store_with_store, credentials_saved. Qed.

Lemma credentials_after_initial (w : World state) :
  credentials (store (after_initial w))
  = initial_credentials (hashed (drawn_password w) (skip_rand 16 w))
      (isoformat (clock w (clock_pos w))) (isoformat (clock w (S (clock_pos w)))).
Proof. unfold after_initial. by rewrite store_with_store, credentials_saved. Qed.

Lemma requires_password_change_eq (w : World state) :
  requires_password_change w
  = (Ok (get_or (credentials (store w)) "require_password_change" (VBool true)), w).
Proof. reflexivity. Qed.

Lemma nonempty_length s : String.length s ≠ 0%nat → bool_decide (s = EmptyString) = false.
Proof. intros H. apply bool_decide_eq_false. by intros ->. Qed.

Lemma len_nonempty s : 0 < len s → bool_decide (s = EmptyString) = false.
Proof. intros H. apply bool_decide_eq_false. intros ->. by vm_compute in H. Qed.

(** The login screen in full. *)
Lemma _handle_login_eq (w : World state) (u p : string) :
  _handle_login u p w
  = if bool_decide (u = EmptyString) || bool_decide (p = EmptyString)
    then (Ok (ShowError "Please enter both username and password."), w)
    else if eq_str (get (credentials (store w)) "username") u
            && verify_stored (get_or (credentials (store w)) "password_hash" (VStr EmptyString)) p
    then (Ok (if truthy (get_or (credentials (store w)) "require_password_change" (VBool true))
              then PasswordChangeScreen else MainApp),
          after_login w)
    else (Ok (ShowError "Invalid credentials. Please try again."), w).
Proof.
  unfold _handle_login. destruct (_ || _); [reflexivity |].
  pose proof (authenticate_eq w u p) as H.
  destruct (eq_str _ u && _).
  - rewrite (bind_Ok _ _ _ _ _ H).
    rewrite (bind_Ok _ _ _ _ _ (requires_password_change_eq _)).
    rewrite credentials_after_login. unfold get_or at 1.
    rewrite lookup_insert_ne by discriminate. fold (get_or (credentials (store w)) "require_password_change" (VBool true)).
    by destruct (truthy _).
  - by rewrite (bind_Ok _ _ _ _ _ H).
Qed.

Lemma _handle_login_accepted (w : World state) (u p : string) :
  u ≠ EmptyString → p ≠ EmptyString →
  credentials (store w) !! "username" = Some (VStr u) →
  verify_stored (get_or (credentials (store w)) "password_hash" (VStr EmptyString)) p = true →
  _handle_login u p w
  = (Ok (if truthy (get_or (credentials (store w)) "require_password_change" (VBool true))
         then PasswordChangeScreen else MainApp),
     after_login w).
Proof.
  intros Hu Hp Hname Hv. rewrite _handle_login_eq.
  rewrite !bool_decide_eq_false_2 by assumption. cbn [orb].
  unfold get. rewrite Hname. cbn [default from_option id eq_str].
  rewrite bool_decide_eq_true_2 by reflexivity. by rewrite Hv.
Qed.


(** The password screen in full. *)
Lemma _handle_password_change_eq (w : World state) (cur new confirm : string) :
  _handle_password_change cur new confirm w
  = if bool_decide (cur = EmptyString) || bool_decide (new = EmptyString)
       || bool_decide (confirm = EmptyString)
    then (Ok (ShowError "Please fill in all fields."), w)
    else if bool_decide (new ≠ confirm)
    then (Ok (ShowError "New password and confirmation do not match."), w)
    else if len new <? 8
    then (Ok (ShowError "New password must be at least 8 characters long."), w)
    else if verify_stored (get_or (credentials (store w)) "password_hash" (VStr EmptyString)) cur
    then (Ok MainApp, after_rehash new false w)
    else (Ok (ShowError "Current password is incorrect."), w).
Proof.
  unfold _handle_password_change.
  destruct (_ || _); [reflexivity |].
  destruct (bool_decide (new ≠ confirm)); [reflexivity |].
  destruct (len new <? 8); [reflexivity |].
  destruct (verify_stored _ cur) eqn:Hv.
  - by rewrite (bind_Ok _ _ _ _ _ (change_password_accepted w cur new Hv)).
  - by rewrite (bind_Ok _ _ _ _ _ (change_password_rejected w cur new Hv)).
Qed.

(** X5: [_handle_password_change] never raises.  It reaches the main
    window only when the confirmation equals the new password, the new
    password has 8 characters or more and the current password is the
    stored one; the stored hash then accepts the new password and
    [require_password_change] is cleared.  Whenever it shows an error,
    nothing was changed. *)
Theorem handle_password_change_outcomes (w : World state) (cur new confirm : string) :
  ∃ r w',
    _handle_password_change cur new confirm w = (Ok r, w') ∧
    match r with
    | ShowError _ => w' = w
    | PasswordChangeScreen => False
    | MainApp =>
        confirm = new ∧ 8 <= len new ∧
        verify_stored (get_or (credentials (store w)) "password_hash" (VStr EmptyString)) cur = true ∧
        verify_stored (get_or (credentials (store w')) "password_hash" (VStr EmptyString)) new = true ∧
        credentials (store w') !! "require_password_change" = Some (VBool false)
    end.
Proof.
  rewrite _handle_password_change_eq.
  destruct (_ || _); [by eexists _, _ |].
  case_bool_decide as Hc; [by eexists _, _ |].
  destruct (len new <? 8) eqn:Hlen; [by eexists _, _ |].
  destruct (verify_stored _ cur) eqn:Hv; [| by eexists _, _].
  eexists _, _. split; [reflexivity |].
  split; [by destruct (decide (new = confirm)) |].
  split; [by apply Z.ltb_ge |]. split; [reflexivity |].
  split; [apply verify_after_rehash |].
  rewrite credentials_after_rehash, lookup_rehashed. reflexivity.
Qed.

(** X6: on a first run, that is with no credentials file or one that
    holds no credentials, [OwnerCredentials()] creates the user [owner] with
    a password of 16 characters.  No login reaches the main window before
    the password is changed: the created password leads to the
    password-change screen, a new password of 8 characters or more leads
    from there to the main window, and the next login with the new
    password leads to the main window at once. *)
Theorem first_run_forces_password_change (w : World state) (new : string) :
  match credentials_file (store w) with Holds c => c = ∅ | _ => True end →
  8 <= len new →
  ∃ p w1 w2 w3 w4,
    __init__ w = (Ok (Some p), w1) ∧
    String.length p = 16%nat ∧
    credentials (store w1) !! "username" = Some (VStr "owner") ∧
    (∀ u candidate w', _handle_login u candidate w1 ≠ (Ok MainApp, w')) ∧
    _handle_login "owner" p w1 = (Ok PasswordChangeScreen, w2) ∧
    _handle_password_change p new new w2 = (Ok MainApp, w3) ∧
    _handle_login "owner" new w3 = (Ok MainApp, w4).
Proof.
  intros Hfile Hlen.
  assert (Hp : bool_decide (drawn_password w = EmptyString) = false)
    by (apply nonempty_length; by rewrite length_drawn_password).
  assert (Hnew : bool_decide (new = EmptyString) = false) by (apply len_nonempty; lia).
  assert (Hp' : drawn_password w ≠ EmptyString) by (by apply bool_decide_eq_false in Hp).
  assert (Hnew' : new ≠ EmptyString) by (by apply bool_decide_eq_false in Hnew).
  assert (Hflag : get_or (credentials (store (after_initial w))) "require_password_change" (VBool true)
                  = VBool true).
  { rewrite credentials_after_initial. reflexivity. }
  assert (Hname : credentials (store (after_initial w)) !! "username" = Some (VStr "owner")).
  { rewrite credentials_after_initial. reflexivity. }
  assert (Hhash : get_or (credentials (store (after_initial w))) "password_hash" (VStr EmptyString)
                  = VStr (hashed (drawn_password w) (skip_rand 16 w))).
  { rewrite credentials_after_initial. reflexivity. }
  assert (Hv : verify_stored (VStr (hashed (drawn_password w) (skip_rand 16 w))) (drawn_password w)
               = true).
  { cbn [verify_stored]. unfold hashed. rewrite verify_hash_password.
    apply bool_decide_eq_true_2; reflexivity. }
  exists (drawn_password w), (after_initial w), (after_login (after_initial w)),
    (after_rehash new false (after_login (after_initial w))),
    (after_login (after_rehash new false (after_login (after_initial w)))).
  split; [by apply init_without_credentials |].
  split; [apply length_drawn_password |].
  split; [exact Hname |].
  split; [| split; [| split]].
  - intros u candidate w'. rewrite _handle_login_eq, Hflag. cbn [truthy].
    repeat case_match; congruence.
  - rewrite _handle_login_accepted; [by rewrite Hflag | done | done | done |].
    by rewrite Hhash.
  - rewrite _handle_password_change_eq, Hp, Hnew.
    rewrite bool_decide_eq_false_2 by (intros H; by apply H).
    rewrite (proj2 (Z.ltb_ge _ _)) by exact Hlen. cbn [orb].
    rewrite credentials_after_login. unfold get_or.
    rewrite lookup_insert_ne by discriminate.
    fold (get_or (credentials (store (after_initial w))) "password_hash" (VStr EmptyString)).
    by rewrite Hhash, Hv.
  - rewrite _handle_login_accepted; [| done | done | | apply verify_after_rehash].
    + rewrite credentials_after_rehash. unfold get_or. by rewrite lookup_rehashed.
    + rewrite credentials_after_rehash, lookup_rehashed.
      rewrite !bool_decide_eq_false_2 by discriminate.
      by rewrite credentials_after_login, lookup_insert_ne by discriminate.
Qed.

Lemma first_run_forces_password_change_witness :
  8 <= len "correct horse" ∧
  ∃ p w1 w2 w3 w4,
    __init__ fresh_install = (Ok (Some p), w1) ∧
    _handle_login "owner" p w1 = (Ok PasswordChangeScreen, w2) ∧
    _handle_password_change p "correct horse" "correct horse" w2 = (Ok MainApp, w3) ∧
    _handle_login "owner" "correct horse" w3 = (Ok MainApp, w4).
Proof.
  assert (H : 8 <= len "correct horse") by (vm_compute; discriminate).
  split; [exact H |].
  destruct (first_run_forces_password_change fresh_install "correct horse" I H)
    as (p & w1 & w2 & w3 & w4 & H1 & _ & _ & _ & H2 & H3 & H4).
  exists p, w1, w2, w3, w4.
  split; [exact H1 |]. split; [exact H2 |]. split; [exact H3 | exact H4].
Defined.

(** A process started on a file that holds the credentials in memory
    finds them again. *)
Lemma restart_loads (w : World state) :
  credentials_file (store w) = Holds (credentials (store w)) →
  credentials (store w) ≠ ∅ →
  __init__ (restarted w) = (Ok None, w).
Proof.
  intros Hf Hc.
  rewrite (init_with_credentials (restarted w) (credentials (store w)) Hf Hc).
  destruct w as [r rp c cp g gp [cr f wr]]. cbn in *. by subst f.
Qed.

Lemma file_unsaved (s : state) :
  writable s = false → credentials_file (saved s) = credentials_file s.
Proof. unfold saved. by intros ->. Qed.

(** X7: what [reset_password] and an accepted [change_password] write to a
    writable file is what they hold in memory: a new [OwnerCredentials()]
    started on that file loads exactly these credentials and creates none.
    A file that cannot be written is left as it was. *)
Theorem credentials_survive_restart (w : World state) (old new : string) :
  (∃ p w1,
     reset_password w = (Ok p, w1) ∧
     if writable (store w) then __init__ (restarted w1) = (Ok None, w1)
     else credentials_file (store w1) = credentials_file (store w)) ∧
  (if verify_stored (get_or (credentials (store w)) "password_hash" (VStr EmptyString)) old
   then ∃ w1,
          change_password old new w = (Ok true, w1) ∧
          if writable (store w) then __init__ (restarted w1) = (Ok None, w1)
          else credentials_file (store w1) = credentials_file (store w)
   else change_password old new w = (Ok false, w)).
Proof.
  assert (Hre : ∀ p b w0,
            if writable (store w0) then __init__ (restarted (after_rehash p b w0))
                                       = (Ok None, after_rehash p b w0)
            else credentials_file (store (after_rehash p b w0)) = credentials_file (store w0)).
  { intros p b w0. destruct (writable (store w0)) eqn:Hw.
    - apply restart_loads.
      + unfold after_rehash. rewrite store_with_store. by apply file_saved.
      + rewrite credentials_after_rehash. apply insert_non_empty.
    - unfold after_rehash. rewrite store_with_store.
      rewrite file_unsaved by exact Hw. reflexivity. }
  split.
  - eexists _, _. split; [apply reset_password_eq |]. apply (Hre _ _ (skip_rand 16 w)).
  - destruct (verify_stored _ old) eqn:Hv; [| by apply change_password_rejected].
    eexists. split; [by apply change_password_accepted |]. apply Hre.
Qed.

End OwnerCredentialsFacts.

(** ** Activation, deletion and password reset of accounts *)

Module AccountLifecycleFacts.
Import Datetime Runtime RuntimeFacts Cosmos CosmosFacts SecurityManager.
Import LabAccountFacts OwnerCredentialsFacts Accounts AccountShapes.

Lemma lookup_set_active a t (r : item) k :
  set_active a t r !! k
  = if bool_decide (k = "updatedAt") then Some (VStr t)
    else if bool_decide (k = "isActive") then Some (VBool a)
    else r !! k.
Proof.
  unfold set_active.
  repeat (case_bool_decide; [subst k; by rewrite ?lookup_insert_ne, lookup_insert_eq by done |]).
  by rewrite !lookup_insert_ne by done.
Qed.

Lemma lookup_link_alter link a t (u : gmap string item) id :
  link_alter link a t u !! id
  = if eq_str link id && truthy link then set_active a t <$> u !! id else u !! id.
Proof.
  unfold link_alter. destruct link as [| | |s|]; try reflexivity.
  destruct (truthy (VStr s)); [| by rewrite andb_false_r].
  rewrite andb_true_r. cbn [eq_str]. case_bool_decide as H.
  - subst s. apply lookup_alter_eq.
  - by apply lookup_alter_ne.
Qed.

Lemma replace_item_alter id rec body (u : gmap string item) :
  u !! id = Some rec → <[id := body]> u = alter (fun _ => body) id u.
Proof.
  intros H. apply map_eq. intros i. destruct (decide (i = id)) as [->|Hne].
  - by rewrite lookup_insert_eq, lookup_alter_eq, H.
  - by rewrite lookup_insert_ne, lookup_alter_ne.
Qed.

(** The linked write in closed form. *)
Lemma set_linked_account_eq link a (w : World db) :
  link_ok link →
  ∃ w' t,
    set_linked_account link a w = (Ok (), w') ∧
    users (store w') = link_alter link a t (users (store w)) ∧
    containers (store w') = containers (store w).
Proof.
  intros Hlink. unfold set_linked_account, link_alter.
  destruct (truthy link) eqn:Ht.
  - destruct link as [| | |account_id|]; try (cbn in Hlink, Ht; congruence).
    unfold except_not_found.
    destruct (users (store w) !! account_id) as [rec|] eqn:Hrec.
    + rewrite (bind_Ok _ _ _ _ _ (read_item_Some _ _ _ Hrec)).
      rewrite (bind_Ok _ _ _ _ _ (now_eq _)).
      rewrite (bind_Ok _ _ _ _ _ (replace_item_Some account_id rec _ (skip_clock 1 w) Hrec)).
      eexists _, (isoformat (clock w (clock_pos w))). split; [reflexivity |].
      split; [| reflexivity].
      cbn [store users with_store skip_clock].
      apply map_eq. intros i. destruct (decide (i = account_id)) as [->|Hne].
      * by rewrite lookup_insert_eq, lookup_alter_eq, Hrec.
      * by rewrite lookup_insert_ne, lookup_alter_ne.
    + rewrite (bind_Raise _ _ _ _ _ (read_item_None _ _ Hrec)).
      exists w, EmptyString. split; [reflexivity |]. split; [| reflexivity].
      apply map_eq. intros i. destruct (decide (i = account_id)) as [->|Hne].
      * by rewrite lookup_alter_eq, Hrec.
      * by rewrite lookup_alter_ne.
  - exists w, EmptyString. split; [reflexivity |]. split; [| reflexivity].
    by destruct link.
Qed.

Lemma eq_str_false v s : v ≠ VStr s → eq_str v s = false.
Proof.
  destruct v; try reflexivity. intros H. cbn. apply bool_decide_eq_false. congruence.
Qed.

Lemma eq_str_VStr s s' : s ≠ EmptyString → eq_str (VStr s) s' && truthy (VStr s) = bool_decide (s = s').
Proof.
  intros H. cbn. rewrite (bool_decide_eq_false_2 (s = EmptyString)) by done.
  apply andb_true_r.
Qed.

Lemma link_alter_ne link a t (u : gmap string item) id :
  link ≠ VStr id → link_alter link a t u !! id = u !! id.
Proof. intros H. by rewrite lookup_link_alter, eq_str_false. Qed.

Lemma link_alter_is_Some link a t (u : gmap string item) id :
  is_Some (link_alter link a t u !! id) ↔ is_Some (u !! id).
Proof. rewrite lookup_link_alter. destruct (_ && _); [apply fmap_is_Some | done]. Qed.

Lemma link_alter_inv link a t (u : gmap string item) id r' :
  link_alter link a t u !! id = Some r' →
  ∃ r, u !! id = Some r ∧ (r' = r ∨ r' = set_active a t r).
Proof.
  rewrite lookup_link_alter. destruct (_ && _).
  - destruct (u !! id) as [r|]; [| discriminate]. intros [= <-]. eauto.
  - eauto.
Qed.

Lemma link_alter_linked s a t (u : gmap string item) :
  s ≠ EmptyString → link_alter (VStr s) a t u !! s = set_active a t <$> u !! s.
Proof.
  intros H. rewrite lookup_link_alter, eq_str_VStr by done.
  by rewrite bool_decide_eq_true_2.
Qed.

Lemma set_active_fields a t (r : item) k :
  k ≠ "isActive" → k ≠ "updatedAt" → set_active a t r !! k = r !! k.
Proof. intros H1 H2. rewrite lookup_set_active. by rewrite !bool_decide_eq_false_2. Qed.

Lemma set_active_flag a t (r : item) : set_active a t r !! "isActive" = Some (VBool a).
Proof. by rewrite lookup_set_active. Qed.

(** The flow shared by the three methods: the doctor document gets [flag]
    and a new [updatedAt], then the accounts named by [links] are written
    in turn. *)
Lemma doctor_flow_one (flag link : string) (w : World db) did rec active :
  flag ≠ link → link ≠ "updatedAt" →
  users (store w) !! did = Some rec → link_ok (get rec link) →
  ∃ w' t,
    (doctor_record ← read_item did;
     t ← now;
     updated_doctor ← replace_item did
       (<["updatedAt" := VStr (isoformat t)]> (<[flag := VBool active]> doctor_record));
     _ ← set_linked_account
           (get (<["updatedAt" := VStr (isoformat t)]> (<[flag := VBool active]> doctor_record)) link)
           active;
     mret updated_doctor) w
    = (Ok (<["updatedAt" := VStr (isoformat (clock w (clock_pos w)))]> (<[flag := VBool active]> rec)),
       w') ∧
    users (store w')
    = link_alter (get rec link) active t
        (<[did := <["updatedAt" := VStr (isoformat (clock w (clock_pos w)))]>
                    (<[flag := VBool active]> rec)]> (users (store w))) ∧
    containers (store w') = containers (store w).
Proof.
  intros Hf Hu Hrec Hlink.
  rewrite (bind_Ok _ _ _ _ _ (read_item_Some _ _ _ Hrec)).
  rewrite (bind_Ok _ _ _ _ _ (now_eq _)).
  rewrite (bind_Ok _ _ _ _ _ (replace_item_Some did rec _ (skip_clock 1 w) Hrec)).
  assert (Hget : get (<["updatedAt" := VStr (isoformat (clock w (clock_pos w)))]>
                        (<[flag := VBool active]> rec)) link = get rec link).
  { unfold get. by rewrite !lookup_insert_ne by done. }
  rewrite Hget.
  match goal with
  | |- context [(set_linked_account _ _ ≫= _) ?w1] =>
      destruct (set_linked_account_eq (get rec link) active w1 Hlink) as (w' & t & Hrun & Hus & Hcs)
  end.
  rewrite (bind_Ok _ _ _ _ _ Hrun).
  exists w', t. split; [reflexivity |]. split; [exact Hus | exact Hcs].
Qed.

Lemma activation_flow (run : string → bool → M db item) (flag link : string)
    (w : World db) (did : string) (rec : item) (active : bool) :
  flag ≠ link → link ≠ "updatedAt" → flag ≠ "updatedAt" →
  run did active
  = (doctor_record ← read_item did;
     t ← now;
     updated_doctor ← replace_item did
       (<["updatedAt" := VStr (isoformat t)]> (<[flag := VBool active]> doctor_record));
     _ ← set_linked_account
           (get (<["updatedAt" := VStr (isoformat t)]> (<[flag := VBool active]> doctor_record)) link)
           active;
     mret updated_doctor) →
  users (store w) !! did = Some rec → link_ok (get rec link) →
  activates run flag link w did rec active.
Proof.
  intros Hne1 Hne2 Hne3 Heq Hrec Hlink. unfold activates. rewrite Heq.
  destruct (doctor_flow_one flag link w did rec active Hne1 Hne2 Hrec Hlink)
    as (w' & t & Hrun' & Hus & _).
  eexists _, w'. split; [exact Hrun' |].
  split; [by rewrite lookup_insert_ne, lookup_insert_eq by done |].
  split; [intros k Hk1 Hk2; by rewrite !lookup_insert_ne by done |].
  rewrite Hus. split; [| split; [| split; [| split]]].
  - intros Hself. rewrite link_alter_ne by done. apply lookup_insert_eq.
  - intros id r' Hid Hne. rewrite Hid, link_alter_linked by done.
    intros Hr'. apply fmap_Some in Hr' as (r & _ & ->). apply set_active_flag.
  - intros id Hid Hnl. by rewrite link_alter_ne, lookup_insert_ne.
  - intros id. rewrite link_alter_is_Some.
    destruct (decide (id = did)) as [->|Hne].
    + rewrite lookup_insert_eq, Hrec. split; eauto.
    + by rewrite lookup_insert_ne.
  - intros id r r' k Hid Hr Hr' Hk1 Hk2.
    apply link_alter_inv in Hr' as (r0 & Hr0 & Hcase).
    rewrite lookup_insert_ne, Hr in Hr0 by done. injection Hr0 as <-.
    destruct Hcase as [-> | ->]; [done | by apply set_active_fields].
Qed.

(** X8: [activate_pharmacy_account] and [activate_lab_account], for a
    doctor in the container whose link field is an id or empty, answer the
    doctor document with the flag of the account set as asked and nothing
    else changed but [updatedAt]; this is the document the container then
    holds for the doctor, unless the doctor names itself as the account.
    The linked account, when it is in the container, gets [isActive] set as
    asked and keeps its other fields but [updatedAt]; a linked account that
    is missing is passed over.  No other document changes, and none appears
    or disappears. *)
Theorem activate_linked_account (w : World db) (did : string) (rec : item) (active : bool) :
  users (store w) !! did = Some rec →
  link_ok (get rec "pharmacyAccountId") → link_ok (get rec "labAccountId") →
  activates activate_pharmacy_account "pharmacyAccountActive" "pharmacyAccountId" w did rec active ∧
  activates activate_lab_account "labAccountActive" "labAccountId" w did rec active.
Proof.
  intros Hrec Hp Hl. split; by apply activation_flow.
Qed.

Lemma activate_linked_account_witness :
  users (store sample_clinic) !! "doctor-1" = Some sample_doctor_record ∧
  link_ok (get sample_doctor_record "pharmacyAccountId") ∧
  link_ok (get sample_doctor_record "labAccountId") ∧
  activates activate_pharmacy_account "pharmacyAccountActive" "pharmacyAccountId"
    sample_clinic "doctor-1" sample_doctor_record false.
Proof.
  assert (H1 : users (store sample_clinic) !! "doctor-1" = Some sample_doctor_record)
    by (unfold sample_clinic; apply lookup_insert_eq).
  assert (H2 : link_ok (get sample_doctor_record "pharmacyAccountId")) by exact I.
  assert (H3 : link_ok (get sample_doctor_record "labAccountId")) by reflexivity.
  split; [exact H1 |]. split; [exact H2 |]. split; [exact H3 |].
  exact (proj1 (activate_linked_account sample_clinic "doctor-1" sample_doctor_record false
                  H1 H2 H3)).
Defined.

(** [deactivate_all_accounts_for_doctor] in closed form. *)
Lemma deactivate_flow (w : World db) did rec :
  users (store w) !! did = Some rec →
  link_ok (get rec "pharmacyAccountId") → link_ok (get rec "labAccountId") →
  ∃ w' t1 t2,
    deactivate_all_accounts_for_doctor did w = (Ok true, w') ∧
    users (store w')
    = link_alter (get rec "labAccountId") false t2
        (link_alter (get rec "pharmacyAccountId") false t1
           (<[did := set_active false (isoformat (clock w (clock_pos w))) rec]> (users (store w)))) ∧
    containers (store w') = containers (store w).
Proof.
  intros Hrec Hp Hl. unfold deactivate_all_accounts_for_doctor.
  rewrite (bind_Ok _ _ _ _ _ (read_item_Some _ _ _ Hrec)).
  rewrite (bind_Ok _ _ _ _ _ (now_eq _)).
  rewrite (bind_Ok _ _ _ _ _ (replace_item_Some did rec _ (skip_clock 1 w) Hrec)).
  fold (set_active false (isoformat (clock w (clock_pos w))) rec).
  assert (Hget : ∀ k, k ≠ "isActive" → k ≠ "updatedAt" →
                      get (set_active false (isoformat (clock w (clock_pos w))) rec) k = get rec k).
  { intros k H1 H2. unfold get. by rewrite set_active_fields. }
  rewrite !Hget by done.
  match goal with
  | |- context [(set_linked_account _ _ ≫= _) ?w1] =>
      destruct (set_linked_account_eq (get rec "pharmacyAccountId") false w1 Hp)
        as (w2 & t1 & Hrun1 & Hus1 & Hcs1)
  end.
  rewrite (bind_Ok _ _ _ _ _ Hrun1).
  destruct (set_linked_account_eq (get rec "labAccountId") false w2 Hl)
    as (w3 & t2 & Hrun2 & Hus2 & Hcs2).
  rewrite (bind_Ok _ _ _ _ _ Hrun2).
  exists w3, t1, t2. split; [reflexivity |]. split.
  - by rewrite Hus2, Hus1.
  - by rewrite Hcs2, Hcs1.
Qed.

(** X9: [deactivate_all_accounts_for_doctor], for a doctor in the
    container whose link fields are ids or empty, answers [True] and leaves
    the doctor and each linked account found in the container with
    [isActive] false.  Every other document is unchanged, none appears or
    disappears, and the documents written keep all fields but [isActive]
    and [updatedAt]. *)
Theorem deactivate_all_accounts (w : World db) (did : string) (rec : item) :
  users (store w) !! did = Some rec →
  link_ok (get rec "pharmacyAccountId") → link_ok (get rec "labAccountId") →
  ∃ w',
    deactivate_all_accounts_for_doctor did w = (Ok true, w') ∧
    (∀ id r',
       id = did
       ∨ (get rec "pharmacyAccountId" = VStr id ∧ id ≠ EmptyString)
       ∨ (get rec "labAccountId" = VStr id ∧ id ≠ EmptyString) →
       users (store w') !! id = Some r' → r' !! "isActive" = Some (VBool false)) ∧
    (∀ id, id ≠ did → get rec "pharmacyAccountId" ≠ VStr id → get rec "labAccountId" ≠ VStr id →
           users (store w') !! id = users (store w) !! id) ∧
    (∀ id, is_Some (users (store w') !! id) ↔ is_Some (users (store w) !! id)) ∧
    (∀ id r r' k, users (store w) !! id = Some r → users (store w') !! id = Some r' →
                  k ≠ "isActive" → k ≠ "updatedAt" → r' !! k = r !! k).
Proof.
  intros Hrec Hp Hl.
  destruct (deactivate_flow w did rec Hrec Hp Hl) as (w' & t1 & t2 & Hrun & Hus & _).
  exists w'. split; [exact Hrun |]. rewrite Hus.
  set (u1 := <[did := set_active false (isoformat (clock w (clock_pos w))) rec]> (users (store w))).
  set (u2 := link_alter (get rec "pharmacyAccountId") false t1 u1).
  assert (Hkeep : ∀ link t (u : gmap string item) id,
            (∀ r, u !! id = Some r → r !! "isActive" = Some (VBool false)) →
            ∀ r', link_alter link false t u !! id = Some r' → r' !! "isActive" = Some (VBool false)).
  { intros link t u id Hu r' Hr'. apply link_alter_inv in Hr' as (r & Hr & [-> | ->]).
    - by apply Hu.
    - apply set_active_flag. }
  assert (Hset : ∀ t (u : gmap string item) id r',
            id ≠ EmptyString →
            link_alter (VStr id) false t u !! id = Some r' → r' !! "isActive" = Some (VBool false)).
  { intros t u id r' Hne. rewrite link_alter_linked by done.
    intros Hr'. apply fmap_Some in Hr' as (r & _ & ->). apply set_active_flag. }
  split; [| split; [| split]].
  - intros id r' [-> | [[Hid Hne] | [Hid Hne]]].
    + apply Hkeep, Hkeep. unfold u1. rewrite lookup_insert_eq.
      intros r [= <-]. apply set_active_flag.
    + apply Hkeep. unfold u2. rewrite Hid. intros r. by apply Hset.
    + rewrite Hid. by apply Hset.
  - intros id H1 H2 H3. unfold u2, u1.
    by rewrite !link_alter_ne, lookup_insert_ne by done.
  - intros id. unfold u2, u1. rewrite !link_alter_is_Some.
    destruct (decide (id = did)) as [->|Hne].
    + rewrite lookup_insert_eq, Hrec. split; eauto.
    + by rewrite lookup_insert_ne.
  - intros id r r' k Hr Hr' Hk1 Hk2.
    apply link_alter_inv in Hr' as (r2 & Hr2 & Hc2).
    apply link_alter_inv in Hr2 as (r1 & Hr1 & Hc1).
    assert (H1 : r1 !! k = r !! k).
    { unfold u1 in Hr1. destruct (decide (id = did)) as [->|Hne].
      - rewrite lookup_insert_eq in Hr1. injection Hr1 as <-.
        rewrite Hrec in Hr. injection Hr as <-. by apply set_active_fields.
      - rewrite lookup_insert_ne in Hr1 by done. congruence. }
    assert (H2 : r2 !! k = r1 !! k).
    { destruct Hc1 as [-> | ->]; [done | by apply set_active_fields]. }
    destruct Hc2 as [-> | ->]; [congruence |].
    rewrite set_active_fields by done. congruence.
Qed.

Lemma deactivate_all_accounts_witness :
  users (store sample_clinic) !! "doctor-1" = Some sample_doctor_record ∧
  link_ok (get sample_doctor_record "pharmacyAccountId") ∧
  link_ok (get sample_doctor_record "labAccountId") ∧
  ∃ w', deactivate_all_accounts_for_doctor "doctor-1" sample_clinic = (Ok true, w').
Proof.
  assert (H1 : users (store sample_clinic) !! "doctor-1" = Some sample_doctor_record)
    by (unfold sample_clinic; apply lookup_insert_eq).
  assert (H2 : link_ok (get sample_doctor_record "pharmacyAccountId")) by exact I.
  assert (H3 : link_ok (get sample_doctor_record "labAccountId")) by reflexivity.
  split; [exact H1 |]. split; [exact H2 |]. split; [exact H3 |].
  destruct (deactivate_all_accounts sample_clinic "doctor-1" sample_doctor_record H1 H2 H3)
    as (w' & Hrun & _).
  exists w'. exact Hrun.
Defined.

Lemma graph_call_eq {St} (w : World St) :
  graph_call w
  = (match graph w (graph_pos w) with Some oid => Ok oid | None => Raise GraphError end,
     skip_graph 1 w).
Proof. unfold graph_call. by destruct (graph w (graph_pos w)). Qed.

Lemma new_admin_record_id data id oid c u : new_admin_record data id oid c u !! "id" = Some (VStr id).
Proof. apply lookup_insert_eq. Qed.

Lemma query_role_eq role (w : World db) :
  query_role role w
  = (Ok (filter (fun it => eq_str (get it "role") role = true)
           (map snd (map_to_list (users (store w))))), w).
Proof. reflexivity. Qed.

(** A query by role lists the documents of that role. *)
Lemma elem_of_query_role role (u : gmap string item) (it : item) :
  it ∈ filter (fun it => eq_str (get it "role") role = true) (map snd (map_to_list u))
  ↔ get it "role" = VStr role ∧ ∃ id, u !! id = Some it.
Proof.
  rewrite list_elem_of_filter, list_elem_of_fmap. split.
  - intros [Hrole ((id & it') & -> & Hin)]. apply elem_of_map_to_list in Hin.
    split; [by apply eq_str_true | by exists id].
  - intros [Hrole (id & Hid)]. split.
    + rewrite Hrole. cbn. by apply bool_decide_eq_true_2.
    + exists (id, it). split; [done | by apply elem_of_map_to_list].
Qed.

(** X10: [create_admin_account] writes nothing when the directory refuses
    the user or when the drawn id is already in the container.  Otherwise it
    answers the drawn id, the e-mail address given and a password of 16
    characters, and adds one document under that id to the container: an
    active [admin] that carries the id, the e-mail address and the object
    id of the directory, and that [get_admin_accounts] lists from then
    on. *)
Theorem create_admin_account_outcome (w : World db) (data : admin_data) :
  match graph w (graph_pos w) with
  | None =>
      ∃ w', create_admin_account data w = (Raise GraphError, w') ∧ store w' = store w
  | Some object_id =>
      let id := uuid_str (drawn_bytes 16 (skip_rand 16 w)) in
      match users (store w) !! id with
      | Some _ =>
          ∃ w', create_admin_account data w = (Raise ResourceExistsError, w') ∧
                store w' = store w
      | None =>
          ∃ c rec w' admins,
            create_admin_account data w = (Ok c, w') ∧
            admin_id c = id ∧ admin_email c = email data ∧
            String.length (admin_password c) = 16%nat ∧
            users (store w') = <[id := rec]> (users (store w)) ∧
            rec !! "id" = Some (VStr id) ∧
            rec !! "role" = Some (VStr "admin") ∧
            rec !! "isActive" = Some (VBool true) ∧
            rec !! "userId" = Some (VStr object_id) ∧
            rec !! "email" = Some (VStr (email data)) ∧
            get_admin_accounts w' = (Ok admins, w') ∧ rec ∈ admins
      end
  end.
Proof.
  unfold create_admin_account.
  rewrite (bind_Ok _ _ _ _ _ (generate_secure_password_eq 16 w)).
  pose proof (graph_call_eq (skip_rand 16 w)) as Hg.
  change (graph (skip_rand 16 w) (graph_pos (skip_rand 16 w))) with (graph w (graph_pos w)) in Hg.
  destruct (graph w (graph_pos w)) as [oid|].
  - rewrite (bind_Ok _ _ _ _ _ Hg).
    rewrite (bind_Ok _ _ _ _ _ (uuid4_eq _)).
    rewrite (bind_Ok _ _ _ _ _ (now_eq _)).
    rewrite (bind_Ok _ _ _ _ _ (now_eq _)).
    change (drawn_bytes 16 (skip_graph 1 (skip_rand 16 w))) with (drawn_bytes 16 (skip_rand 16 w)).
    set (id := uuid_str (drawn_bytes 16 (skip_rand 16 w))).
    cbv zeta.
    destruct (users (store w) !! id) as [old|] eqn:Hid.
    + match goal with
      | |- context [(create_item ?body ≫= _) ?w1] =>
          rewrite (bind_Raise _ _ _ _ _
                     (create_item_taken id body old w1 (new_admin_record_id _ _ _ _ _) Hid))
      end.
      eexists. split; reflexivity.
    + match goal with
      | |- context [(create_item ?body ≫= _) ?w1] =>
          rewrite (bind_Ok _ _ _ _ _
                     (create_item_fresh id body w1 (new_admin_record_id _ _ _ _ _) Hid))
      end.
      eexists _, _, _, _. split; [reflexivity |].
      cbn [admin_id admin_email admin_password].
      split; [reflexivity |]. split; [reflexivity |].
      split; [apply length_drawn_string |].
      split; [reflexivity |].
      split; [apply new_admin_record_id |].
      unfold new_admin_record.
      split; [by rewrite !lookup_insert_ne, lookup_insert_eq by discriminate |].
      split; [by rewrite !lookup_insert_ne, lookup_insert_eq by discriminate |].
      split; [by rewrite !lookup_insert_ne, lookup_insert_eq by discriminate |].
      split; [by rewrite !lookup_insert_ne, lookup_insert_eq by discriminate |].
      split; [apply query_role_eq |].
      apply elem_of_query_role. split.
      * unfold get. by rewrite !lookup_insert_ne, lookup_insert_eq by discriminate.
      * exists id. cbn [store users with_store]. apply lookup_insert_eq.
  - rewrite (bind_Raise _ _ _ _ _ Hg). eexists. split; reflexivity.
Qed.

Lemma delete_item_Some id old (w : World db) :
  users (store w) !! id = Some old →
  delete_item id w
  = (Ok (), with_store (Db (delete id (users (store w))) (containers (store w))) w).
Proof. intros H. unfold delete_item, get_store, mbind, M_bind, bind. by rewrite H. Qed.

(** X11: [delete_admin_account] raises [ResourceNotFoundError] for an id
    that is not in the container and [ValueError] for a document whose role
    is not [admin], changing nothing in either case.  For an admin it
    removes the document from the container, and only that one, before it
    turns to the directory: the document is gone also when the call then
    raises because the document has no [userId] or because the directory
    fails, and the answer is [True] exactly when neither happens. *)
Theorem delete_admin_account_outcome (w : World db) (id : string) :
  match users (store w) !! id with
  | None => delete_admin_account id w = (Raise ResourceNotFoundError, w)
  | Some rec =>
      if eq_str (get rec "role") "admin" then
        ∃ r w',
          delete_admin_account id w = (r, w') ∧
          users (store w') = delete id (users (store w)) ∧
          (r = Ok true ↔ is_Some (rec !! "userId") ∧ is_Some (graph w (graph_pos w)))
      else
        delete_admin_account id w
        = (Raise (ValueError "The account is not an admin account"), w)
  end.
Proof.
  unfold delete_admin_account.
  destruct (users (store w) !! id) as [rec|] eqn:Hrec.
  - rewrite (bind_Ok _ _ _ _ _ (read_item_Some _ _ _ Hrec)).
    destruct (eq_str (get rec "role") "admin"); cbn [negb]; [| reflexivity].
    rewrite (bind_Ok _ _ _ _ _ (delete_item_Some id rec w Hrec)).
    unfold index. destruct (rec !! "userId") as [uid|].
    + rewrite bind_ret.
      match goal with
      | |- context [(graph_call ≫= _) ?w1] => pose proof (graph_call_eq w1) as Hg
      end.
      cbn [graph graph_pos with_store] in Hg.
      destruct (graph w (graph_pos w)) as [oid|].
      * rewrite (bind_Ok _ _ _ _ _ Hg). eexists _, _. split; [reflexivity |].
        split; [reflexivity |]. split; eauto.
      * rewrite (bind_Raise _ _ _ _ _ Hg). eexists _, _. split; [reflexivity |].
        split; [reflexivity |]. split; [discriminate | intros [_ [? [=]]]].
    + eexists _, _. split; [reflexivity |]. split; [reflexivity |].
      split; [discriminate | intros [[? [=]] _]].
  - by rewrite (bind_Raise _ _ _ _ _ (read_item_None _ _ Hrec)).
Qed.

Lemma password_alphabet_chars :
  Forall (fun c => is_password_char c = true) (list_ascii_of_string OwnerWorlds.password_alphabet).
Proof.
  apply Forall_forall. intros c Hc. apply list_elem_of_In in Hc. revert c Hc.
  apply forallb_forall. reflexivity.
Qed.

(** X12: [generate_secure_password], and [_generate_secure_password] of
    the admin application, which is the same function, answer exactly
    [length] characters, each of them a printable ASCII character other
    than the space, and consume [length] random draws. *)
Theorem generate_secure_password_shape {St} (w : World St) (length : nat) :
  ∃ p,
    generate_secure_password length w = (Ok p, skip_rand length w) ∧
    AdminAzureServices._generate_secure_password length
      = generate_secure_password (St := db) length ∧
    String.length p = length ∧
    Forall (fun c => is_password_char c = true) (list_ascii_of_string p).
Proof.
  eexists. split; [apply generate_secure_password_eq |]. split; [reflexivity |].
  split; [apply length_drawn_string |].
  apply drawn_string_chars; [discriminate | apply password_alphabet_chars].
Qed.

(** X13: [AzureServices.reset_password] never writes to the container.  It
    raises [ResourceNotFoundError] for an id that is not in the container,
    [KeyError] for a document without [userId], the error of the directory
    when the directory fails, and otherwise answers a password of 16
    printable characters. *)
Theorem reset_password_leaves_container (w : World db) (id : string) :
  store (snd (reset_password id w)) = store w ∧
  match users (store w) !! id with
  | None => reset_password id w = (Raise ResourceNotFoundError, w)
  | Some rec =>
      match rec !! "userId", graph w (graph_pos w) with
      | Some _, Some _ =>
          ∃ p w', reset_password id w = (Ok p, w') ∧ String.length p = 16%nat ∧
                  Forall (fun c => is_password_char c = true) (list_ascii_of_string p)
      | Some _, None => ∃ w', reset_password id w = (Raise GraphError, w')
      | None, _ => ∃ w', reset_password id w = (Raise (KeyError "userId"), w')
      end
  end.
Proof.
  unfold reset_password.
  destruct (users (store w) !! id) as [rec|] eqn:Hrec.
  - rewrite (bind_Ok _ _ _ _ _ (read_item_Some _ _ _ Hrec)).
    rewrite (bind_Ok _ _ _ _ _ (generate_secure_password_eq 16 w)).
    unfold index. destruct (rec !! "userId") as [uid|].
    + rewrite bind_ret.
      pose proof (graph_call_eq (skip_rand 16 w)) as Hg.
      cbn [graph graph_pos skip_rand] in Hg.
      destruct (graph w (graph_pos w)) as [oid|].
      * rewrite (bind_Ok _ _ _ _ _ Hg). split; [reflexivity |].
        eexists _, _. split; [reflexivity |]. split; [apply length_drawn_string |].
        apply drawn_string_chars; [discriminate | apply password_alphabet_chars].
      * rewrite (bind_Raise _ _ _ _ _ Hg). split; [reflexivity |]. by eexists.
    + split; [reflexivity |]. by eexists.
  - by rewrite (bind_Raise _ _ _ _ _ (read_item_None _ _ Hrec)).
Qed.

Import AdminAzureServices.

(** X14: every method of the two [AzureServices] classes that works on
    one account raises [ResourceNotFoundError] for an id that is not in the
    container, and leaves the container, the clock and the random source
    as they were. *)
Theorem unknown_account_raises (w : World db) (id : string) (active : bool) (days : Z)
    (update_data : item) :
  users (store w) !! id = None →
  activate_pharmacy_account id active w = (Raise ResourceNotFoundError, w) ∧
  activate_lab_account id active w = (Raise ResourceNotFoundError, w) ∧
  activate_doctor_account id active w = (Raise ResourceNotFoundError, w) ∧
  update_doctor_account id update_data w = (Raise ResourceNotFoundError, w) ∧
  add_lab_account_to_doctor id w = (Raise ResourceNotFoundError, w) ∧
  regenerate_access_code id w = (Raise ResourceNotFoundError, w) ∧
  update_subscription id days w = (Raise ResourceNotFoundError, w) ∧
  OwnerAzureServices.update_admin_account id update_data w = (Raise ResourceNotFoundError, w) ∧
  delete_admin_account id w = (Raise ResourceNotFoundError, w) ∧
  deactivate_all_accounts_for_doctor id w = (Raise ResourceNotFoundError, w) ∧
  reset_password id w = (Raise ResourceNotFoundError, w).
Proof.
  intros H. pose proof (read_item_None _ _ H) as Hread.
  repeat split;
    unfold activate_pharmacy_account, activate_lab_account, activate_doctor_account,
      update_doctor_account, add_lab_account_to_doctor, regenerate_access_code,
      update_subscription, OwnerAzureServices.update_admin_account, delete_admin_account,
      deactivate_all_accounts_for_doctor, reset_password;
    by rewrite (bind_Raise _ _ _ _ _ Hread).
Qed.

Lemma unknown_account_raises_witness :
  users (store empty_clinic) !! "nobody" = None ∧
  update_subscription "nobody" 30 empty_clinic = (Raise ResourceNotFoundError, empty_clinic).
Proof.
  assert (H : users (store empty_clinic) !! "nobody" = None) by apply lookup_empty.
  split; [exact H |].
  destruct (unknown_account_raises empty_clinic "nobody" true 30 ∅ H)
    as (_ & _ & _ & _ & _ & _ & Hrun & _).
  exact Hrun.
Defined.

End AccountLifecycleFacts.

(** ** Subscriptions over time *)

Module SubscriptionDates.
Import Datetime DatetimeFacts IsoFacts Runtime RuntimeFacts Cosmos CosmosFacts Shape.
Import AdminAzureServices LabAccountFacts SubscriptionFacts AccountShapes.

(** One extension, from an end date on record that is naive. *)
Lemma extend_from_end (w : World db) did rec s cur days :
  users (store w) !! did = Some rec →
  get rec "subscriptionEndDate" = VStr s → s ≠ EmptyString →
  fromisoformat (replace_Z s) = Some cur → tz cur = None →
  Z.abs days <= 999999999 → 1 <= toordinal cur + days <= _MAXORDINAL →
  ∃ e doc,
    add_days cur days = Some e ∧ valid e = true ∧ tz e = None ∧
    toordinal e = toordinal cur + days ∧
    hour e = hour cur ∧ minute e = minute cur ∧ second e = second cur ∧
    microsecond e = microsecond cur ∧
    update_subscription did days w = (Ok doc, extend did days w) ∧
    users (store (extend did days w)) = <[did := doc]> (users (store w)) ∧
    doc = <["updatedAt" := VStr (isoformat (clock w (clock_pos w)))]>
            (<["subscriptionEndDate" := VStr (isoformat e)]> rec) ∧
    get doc "subscriptionEndDate" = VStr (isoformat e) ∧
    fromisoformat (replace_Z (isoformat e)) = Some e.
Proof.
  intros Hrec Hs Hne Hcur Htz Hdays Hord.
  pose proof (fromisoformat_valid _ _ Hcur) as Hv.
  destruct (add_days_Some cur days Hv Hdays Hord)
    as (e & He & Hve & Hoe & Hh & Hm & Hsec & Hus & Htze).
  destruct (update_subscription_from_end w did rec s cur e days Hrec Hs Hne Hcur He)
    as (w' & Hrun & Hstore).
  assert (Hw' : extend did days w = w') by (unfold extend; by rewrite Hrun).
  rewrite Htz in Htze.
  eexists e, _. rewrite Hw'.
  split; [exact He |]. split; [exact Hve |]. split; [exact Htze |].
  split; [exact Hoe |]. split; [exact Hh |]. split; [exact Hm |]. split; [exact Hsec |].
  split; [exact Hus |]. split; [exact Hrun |]. split; [exact Hstore |].
  split; [reflexivity |]. split.
  - unfold get. by rewrite lookup_insert_ne, lookup_insert_eq.
  - rewrite replace_Z_isoformat by exact Htze. by apply fromisoformat_isoformat.
Qed.



Import OwnerApp.

Lemma get_or_of_get (r : item) k s dflt : get r k = VStr s → get_or r k dflt = VStr s.
Proof. unfold get, get_or. destruct (r !! k); cbn; [done | discriminate]. Qed.

Lemma to_microseconds_shift d e n :
  toordinal e = toordinal d + n → hour e = hour d → minute e = minute d →
  second e = second d → microsecond e = microsecond d →
  to_microseconds e = to_microseconds d + n * 86400000000.
Proof. unfold to_microseconds. intros -> -> -> -> ->. lia. Qed.



(** X17: [update_subscription], [update_doctor_account],
    [regenerate_access_code] and [add_lab_account_to_doctor] either raise
    and leave the container as it was, or answer what the container then
    holds: the document stored under the id, the access code stored in it,
    and for a laboratory added the laboratory document with its code.  A
    doctor who already has a laboratory gets the stored document and
    nothing is written. *)
Theorem failed_update_writes_nothing (w : World db) (id : string) (days : Z)
    (update_data : item) :
  match update_subscription id days w with
  | (Raise _, w') => store w' = store w
  | (Ok doc, w') => users (store w') !! id = Some doc
  end ∧
  match update_doctor_account id update_data w with
  | (Raise _, w') => store w' = store w
  | (Ok doc, w') => users (store w') !! id = Some doc
  end ∧
  match regenerate_access_code id w with
  | (Raise _, w') => store w' = store w
  | (Ok code, w') => ∃ doc, users (store w') !! id = Some doc ∧ doc !! "accessCode" = Some (VStr code)
  end ∧
  match add_lab_account_to_doctor id w with
  | (Raise _, w') => store w' = store w
  | (Ok (Existing doc), w') => w' = w ∧ users (store w) !! id = Some doc
  | (Ok (Added doc lab_id lab_code), w') =>
      users (store w') !! id = Some doc ∧
      ∃ lab, users (store w') !! lab_id = Some lab ∧ lab !! "accessCode" = Some (VStr lab_code)
  end.
Proof.
  split; [| split; [| split]].
  - unfold update_subscription.
    destruct (users (store w) !! id) as [rec|] eqn:Hrec;
      [rewrite (bind_Ok _ _ _ _ _ (read_item_Some _ _ _ Hrec))
      | by rewrite (bind_Raise _ _ _ _ _ (read_item_None _ _ Hrec))].
    destruct (truthy (get rec "subscriptionEndDate")).
    + destruct (get rec "subscriptionEndDate") as [| | |s|]; try reflexivity.
      destruct (fromisoformat (replace_Z s)) as [cur|]; [| reflexivity].
      rewrite bind_ret. destruct (add_days cur days); [| reflexivity].
      rewrite (bind_Ok _ _ _ _ _ (now_iso_eq _)).
      rewrite (replace_item_Some id rec _ (skip_clock 1 w) Hrec).
      apply lookup_insert_eq.
    + rewrite (bind_Ok _ _ _ _ _ (now_eq _)).
      destruct (add_days _ days); [| reflexivity].
      rewrite (bind_Ok _ _ _ _ _ (now_iso_eq _)).
      rewrite (replace_item_Some id rec _ (skip_clock 1 (skip_clock 1 w)) Hrec).
      apply lookup_insert_eq.
  - unfold update_doctor_account.
    destruct (users (store w) !! id) as [rec|] eqn:Hrec;
      [rewrite (bind_Ok _ _ _ _ _ (read_item_Some _ _ _ Hrec))
      | by rewrite (bind_Raise _ _ _ _ _ (read_item_None _ _ Hrec))].
    rewrite (bind_Ok _ _ _ _ _ (now_iso_eq _)).
    rewrite (replace_item_Some id rec _ (skip_clock 1 w) Hrec).
    apply lookup_insert_eq.
  - unfold regenerate_access_code.
    destruct (users (store w) !! id) as [rec|] eqn:Hrec;
      [rewrite (bind_Ok _ _ _ _ _ (read_item_Some _ _ _ Hrec))
      | by rewrite (bind_Raise _ _ _ _ _ (read_item_None _ _ Hrec))].
    destruct (negb _); [reflexivity |].
    unfold _generate_access_code.
    rewrite (bind_Ok _ _ _ _ _ (join_choices_eq _ 8 w)).
    rewrite (bind_Ok _ _ _ _ _ (now_iso_eq _)).
    rewrite (bind_Ok _ _ _ _ _
               (replace_item_Some id rec _ (skip_clock 1 (skip_rand 8 w)) Hrec)).
    eexists. split; [apply lookup_insert_eq |].
    by rewrite lookup_insert_ne, lookup_insert_eq.
  - unfold add_lab_account_to_doctor.
    destruct (users (store w) !! id) as [rec|] eqn:Hrec;
      [rewrite (bind_Ok _ _ _ _ _ (read_item_Some _ _ _ Hrec))
      | by rewrite (bind_Raise _ _ _ _ _ (read_item_None _ _ Hrec))].
    destruct (_ && _); [done |].
    rewrite (bind_Ok _ _ _ _ _ (uuid4_eq _)).
    unfold _generate_access_code.
    rewrite (bind_Ok _ _ _ _ _ (join_choices_eq _ 8 _)).
    rewrite (bind_Ok _ _ _ _ _ (now_iso_eq _)).
    rewrite (bind_Ok _ _ _ _ _ (now_iso_eq _)).
    set (lab_id := uuid_str (drawn_bytes 16 w)).
    destruct (users (store w) !! lab_id) as [old|] eqn:Hlab.
    + match goal with
      | |- context [(create_item ?body ≫= _) ?w1] =>
          rewrite (bind_Raise _ _ _ _ _
                     (create_item_taken lab_id body old w1 (access_record_id _ _ _ _ _ _ _ _) Hlab))
      end.
      reflexivity.
    + match goal with
      | |- context [(create_item ?body ≫= _) ?w1] =>
          rewrite (bind_Ok _ _ _ _ _
                     (create_item_fresh lab_id body w1 (access_record_id _ _ _ _ _ _ _ _) Hlab))
      end.
      rewrite (bind_Ok _ _ _ _ _ (now_iso_eq _)).
      assert (Hne : lab_id ≠ id) by congruence.
      match goal with
      | |- context [(replace_item id ?body ≫= _) ?w1] =>
          assert (Hrec' : users (store w1) !! id = Some rec)
            by (cbn [store users with_store skip_clock skip_rand];
                by rewrite lookup_insert_ne);
          rewrite (bind_Ok _ _ _ _ _ (replace_item_Some id rec body w1 Hrec'))
      end.
      unfold mret, M_ret, ret. cbn [store users with_store skip_clock skip_rand].
      split; [apply lookup_insert_eq |].
      eexists. split; [by rewrite lookup_insert_ne, lookup_insert_eq |].
      unfold access_record. by rewrite !lookup_insert_ne, lookup_insert_eq by discriminate.
Qed.

End SubscriptionDates.

(** ** The tables of the SQLite variant *)

Module TablesFacts.
Import Bytes Sha256 Datetime Runtime RuntimeFacts Shape.
Import AdminApplication LabAccountFacts DoctorPasswordFacts UniquenessFacts Tables.

Lemma map_fmap {A B} (f : A → B) (l : list A) : map f l = f <$> l.
Proof. induction l as [|x l IH]; [done |]. cbn. by rewrite IH. Qed.

Lemma insert_account_inv t seq name code doctor_id created_at t' seq' :
  insert_account t seq name code doctor_id created_at = Some (t', seq') →
  t' = t ++ [AccountRow (seq + 1) name None None code (Some doctor_id) created_at] ∧
  seq' = seq + 1.
Proof. unfold insert_account. case_bool_decide; [discriminate |]. by intros [= <- <-]. Qed.

Lemma account_ids_ok_snoc t seq row :
  account_ids_ok t seq → a_id row = seq + 1 → account_ids_ok (t ++ [row]) (seq + 1).
Proof.
  intros [Hnd Hle] Hid. split.
  - rewrite fmap_app. apply NoDup_app. split; [exact Hnd |]. split; [| apply NoDup_singleton].
    intros x Hx Hx'. apply list_elem_of_singleton in Hx'. subst x.
    apply list_elem_of_fmap in Hx as (r & Hr & Hin).
    rewrite Forall_forall in Hle. specialize (Hle r Hin). cbn in Hr. lia.
  - apply Forall_app. split.
    + eapply Forall_impl; [exact Hle |]. intros r Hr. cbn in *. lia.
    + constructor; [lia | constructor].
Qed.

Lemma account_ids_ok_filter (P : account_row → Prop) `{∀ r, Decision (P r)} t seq :
  account_ids_ok t seq → account_ids_ok (filter P t) seq.
Proof.
  intros [Hnd Hle]. split.
  - eapply sublist_NoDup; [exact Hnd |]. apply fmap_sublist, sublist_filter.
  - apply Forall_forall. intros r Hr. apply list_elem_of_filter in Hr as [_ Hr].
    rewrite Forall_forall in Hle. by apply Hle.
Qed.

Lemma codes_fresh (ph lb : list account_row) code :
  Forall (fun r => a_access_code r ≠ code) (ph ++ lb) →
  code ∉ a_access_code <$> ph ++ lb.
Proof.
  intros H Hin. apply list_elem_of_fmap in Hin as (r & -> & Hr).
  rewrite Forall_forall in H. by apply (H r).
Qed.

Lemma codes_unique_pharmacy (ph lb : list account_row) row :
  NoDup (a_access_code <$> ph ++ lb) → a_access_code row ∉ a_access_code <$> ph ++ lb →
  NoDup (a_access_code <$> (ph ++ [row]) ++ lb).
Proof.
  intros Hnd Hnew.
  assert (Hp : (ph ++ [row]) ++ lb ≡ₚ row :: ph ++ lb).
  { rewrite <- app_assoc. cbn. by rewrite Permutation_middle. }
  rewrite Hp. cbn. by apply NoDup_cons.
Qed.

Lemma codes_unique_laboratory (ph lb : list account_row) row :
  NoDup (a_access_code <$> ph ++ lb) → a_access_code row ∉ a_access_code <$> ph ++ lb →
  NoDup (a_access_code <$> ph ++ lb ++ [row]).
Proof.
  intros Hnd Hnew.
  assert (Hp : ph ++ lb ++ [row] ≡ₚ row :: ph ++ lb).
  { rewrite app_assoc. by rewrite <- Permutation_cons_append. }
  rewrite Hp. cbn. by apply NoDup_cons.
Qed.

Lemma owners_ok_snoc (ph lb : list account_row) row (P : account_row → Prop) :
  Forall P (ph ++ lb) → P row → Forall P ((ph ++ [row]) ++ lb) ∧ Forall P (ph ++ lb ++ [row]).
Proof.
  rewrite !Forall_app. intros [Hp Hl] Hrow. repeat split; try done; by constructor.
Qed.

(** Creating the associated accounts keeps the constraints, whatever it
    answers. *)
Lemma create_associated_accounts_tables_ok fuel confirm id name (w : World db) :
  tables_ok (store w) → id <= doctors_seq (store w) →
  tables_ok (store (snd (create_associated_accounts fuel confirm id name w))).
Proof.
  intros (Hd & Hp & Hl & Hc & Ho) Hid.
  unfold create_associated_accounts, mbind, M_bind, bind, get_store, put_store, now,
    mret, M_ret, ret.
  destruct (broken (store w)) eqn:Hb; [done |].
  destruct (_ && negb confirm); [done |].
  destruct (generate_access_code fuel w) as [[c1|e1] w1] eqn:H1.
  2: { apply generate_access_code_store in H1. cbn [snd]. by rewrite H1. }
  pose proof (generate_access_code_unused _ _ _ _ H1 Hb) as Hfresh1.
  apply generate_access_code_store in H1.
  cbn [store skip_clock]. rewrite H1.
  destruct (insert_account (pharmacies (store w)) _ _ _ _ _) as [[ph phs]|] eqn:Hi1;
    [| cbn [snd store skip_clock]; by rewrite H1].
  apply insert_account_inv in Hi1 as [-> ->].
  set (row1 := AccountRow _ _ _ _ c1 _ _).
  assert (Hc1 : NoDup (a_access_code <$> (pharmacies (store w) ++ [row1]) ++ laboratories (store w))).
  { apply codes_unique_pharmacy; [exact Hc | by apply codes_fresh]. }
  assert (Hp1 : account_ids_ok (pharmacies (store w) ++ [row1]) (pharmacies_seq (store w) + 1))
    by (by apply account_ids_ok_snoc).
  assert (Ho1 : Forall (fun r => ∀ i, a_doctor_id r = Some i → i <= doctors_seq (store w))
                  ((pharmacies (store w) ++ [row1]) ++ laboratories (store w))).
  { apply (owners_ok_snoc _ _ row1); [exact Ho |]. intros i [= <-]. exact Hid. }
  match goal with
  | |- context [generate_access_code fuel ?w2] =>
      destruct (generate_access_code fuel w2) as [[c2|e2] w3] eqn:H2;
      [pose proof (generate_access_code_unused _ _ _ _ H2 Hb) as Hfresh2 |];
      apply generate_access_code_store in H2
  end.
  2: { cbn [snd]. rewrite H2. cbn [store with_store skip_clock].
       split; [exact Hd |]. split; [exact Hp1 |]. split; [exact Hl |].
       split; [exact Hc1 | exact Ho1]. }
  cbn [store with_store skip_clock pharmacies laboratories] in Hfresh2, H2.
  cbn [store skip_clock]. rewrite H2.
  cbn [laboratories laboratories_seq doctors doctors_seq pharmacies pharmacies_seq broken].
  destruct (insert_account (laboratories (store w)) _ _ _ _ _) as [[lb lbs]|] eqn:Hi2;
    [| cbn [snd store skip_clock]; rewrite H2;
       split; [exact Hd |]; split; [exact Hp1 |]; split; [exact Hl |];
       split; [exact Hc1 | exact Ho1]].
  apply insert_account_inv in Hi2 as [-> ->].
  cbn [snd store with_store].
  split; [exact Hd |]. split; [exact Hp1 |]. split; [by apply account_ids_ok_snoc |].
  split.
  - unfold codes_unique. cbn [pharmacies laboratories].
    apply codes_unique_laboratory; [exact Hc1 | by apply codes_fresh].
  - unfold owners_ok. cbn [pharmacies laboratories doctors_seq].
    match goal with
    | |- Forall _ (_ ++ _ ++ [?row2]) =>
        apply (owners_ok_snoc _ _ row2); [exact Ho1 |]
    end.
    intros i [= <-]. exact Hid.
Qed.

Lemma snd_bind_ret {St A B} (m : M St A) (b : B) (w : World St) :
  snd ((m ≫= fun _ => mret b) w) = snd (m w).
Proof. unfold mbind, M_bind, bind. by destruct (m w) as [[a|e] w']. Qed.

Lemma fmap_set_doctor {B} (g : doctor_row → B) id f (l : list doctor_row) :
  (∀ r, g (set_doctor id f r) = g r) → g <$> map (set_doctor id f) l = g <$> l.
Proof. intros Hg. induction l as [|r l IH]; [done |]. cbn. by rewrite Hg, IH. Qed.

Lemma set_doctor_keeps id f r :
  d_id (set_doctor id f r) = d_id r ∧ d_username (set_doctor id f r) = d_username r ∧
  d_created_at (set_doctor id f r) = d_created_at r.
Proof. unfold set_doctor. by case_bool_decide. Qed.

(** What a saved doctor looks like. *)
Lemma add_doctor_cases fuel confirm f (w : World db) :
  (∃ msg w', add_doctor fuel confirm f w = (Ok (ErrorLabel msg), w') ∧ store w' = store w) ∨
  (form_ok f ∧ broken (store w) = false ∧
   Forall (fun r => d_username r ≠ f_username f) (doctors (store w)) ∧
   let row := DoctorRow (doctors_seq (store w) + 1) (f_username f)
                (hash_doctor_password (f_password f)) (f_name f) (f_specialty f) (f_email f)
                (f_phone f) (strftime_seconds (clock w (clock_pos w))) in
   let w1 := with_store
               (Db (doctors (store w) ++ [row]) (doctors_seq (store w) + 1)
                  (pharmacies (store w)) (pharmacies_seq (store w))
                  (laboratories (store w)) (laboratories_seq (store w)) (broken (store w)))
               (skip_clock 1 w) in
   if f_create_related_accounts f then
     snd (add_doctor fuel confirm f w)
     = snd (create_associated_accounts fuel confirm (doctors_seq (store w) + 1) (f_name f) w1) ∧
     (∀ msg, fst (add_doctor fuel confirm f w) ≠ Ok (ErrorLabel msg))
   else add_doctor fuel confirm f w = (Ok Saved, w1)).
Proof.
  unfold add_doctor, form_ok.
  destruct (bool_decide (f_username f = EmptyString)) eqn:Hu;
    [left; eexists _, _; split; reflexivity |].
  destruct (bool_decide (f_password f = EmptyString)) eqn:Hp;
    [left; eexists _, _; split; reflexivity |].
  destruct (bool_decide (f_password f ≠ f_confirm_password f)) eqn:Hc;
    [left; eexists _, _; split; reflexivity |].
  destruct (bool_decide (f_name f = EmptyString)) eqn:Hn;
    [left; eexists _, _; split; reflexivity |].
  destruct (negb _ && negb _) eqn:He; [left; eexists _, _; split; reflexivity |].
  unfold mbind, M_bind, bind, get_store, put_store, now, mret, M_ret, ret.
  destruct (broken (store w)) eqn:Hb; [left; eexists _, _; split; reflexivity |].
  cbn [store skip_clock].
  destruct (bool_decide (Exists _ _)) eqn:Hex; [left; eexists _, _; split; reflexivity |].
  apply bool_decide_eq_false in Hu, Hp, Hn, Hex.
  apply bool_decide_eq_false in Hc.
  right. split; [| split; [done | split]].
  - split; [done |]. split; [done |].
    split; [by destruct (decide (f_password f = f_confirm_password f)) as [->|] |].
    split; [done |].
    apply andb_false_iff in He as [He | He].
    + left. by apply negb_false_iff, bool_decide_eq_true in He.
    + right. by apply negb_false_iff in He.
  - apply Forall_forall. intros r Hr Heq. apply Hex. apply Exists_exists. by exists r.
  - cbv zeta. destruct (f_create_related_accounts f); [| reflexivity].
    destruct (create_associated_accounts _ _ _ _ _) as [[o|e] w2]; split; try done.
Qed.

Lemma doctors_ok_add (d : db) row :
  doctors_ok d → d_id row = doctors_seq d + 1 →
  Forall (fun r => d_username r ≠ d_username row) (doctors d) →
  NoDup (d_username <$> doctors d ++ [row]) ∧ NoDup (d_id <$> doctors d ++ [row]) ∧
  Forall (fun r => d_id r <= doctors_seq d + 1) (doctors d ++ [row]).
Proof.
  intros (Hu & Hi & Hle) Hid Hnew. rewrite !fmap_app. split; [| split].
  - apply NoDup_app. split; [exact Hu |]. split; [| apply NoDup_singleton].
    intros x Hx Hx'. apply list_elem_of_singleton in Hx'. subst x.
    apply list_elem_of_fmap in Hx as (r & Hr & Hin).
    rewrite Forall_forall in Hnew. by apply (Hnew r Hin).
  - apply NoDup_app. split; [exact Hi |]. split; [| apply NoDup_singleton].
    intros x Hx Hx'. apply list_elem_of_singleton in Hx'. subst x.
    apply list_elem_of_fmap in Hx as (r & Hr & Hin).
    rewrite Forall_forall in Hle. specialize (Hle r Hin). lia.
  - apply Forall_app. split.
    + eapply Forall_impl; [exact Hle |]. intros r Hr. cbn in *. lia.
    + constructor; [lia | constructor].
Qed.

Lemma owners_ok_mono (t : list account_row) (s s' : Z) :
  s <= s' → Forall (fun r => ∀ i, a_doctor_id r = Some i → i <= s) t →
  Forall (fun r => ∀ i, a_doctor_id r = Some i → i <= s') t.
Proof.
  intros Hs H. eapply Forall_impl; [exact H |]. intros r Hr i Hi. specialize (Hr i Hi). lia.
Qed.

Lemma add_doctor_tables_ok fuel confirm f (w : World db) :
  tables_ok (store w) → tables_ok (store (snd (add_doctor fuel confirm f w))).
Proof.
  intros Hok.
  destruct (add_doctor_cases fuel confirm f w) as [(msg & w' & -> & Hs) | (_ & _ & Hnew & H)].
  { cbn [snd]. by rewrite Hs. }
  cbv zeta in H.
  set (row := DoctorRow _ _ _ _ _ _ _ _) in H.
  set (w1 := with_store _ _) in H.
  assert (Hok1 : tables_ok (store w1)).
  { destruct Hok as (Hd & Hp & Hl & Hc & Ho).
    destruct (doctors_ok_add (store w) row Hd eq_refl Hnew) as (H1 & H2 & H3).
    split; [by repeat split |]. split; [exact Hp |]. split; [exact Hl |]. split; [exact Hc |].
    unfold owners_ok. cbn [store with_store w1 pharmacies laboratories doctors_seq].
    eapply owners_ok_mono; [| exact Ho]. lia. }
  destruct (f_create_related_accounts f).
  - destruct H as [-> _]. apply create_associated_accounts_tables_ok; [exact Hok1 |].
    cbn. lia.
  - by rewrite H.
Qed.

Lemma edit_doctor_cases id f (w : World db) :
  (∃ msg, edit_doctor id f w = (Ok (ErrorLabel msg), w)) ∨
  edit_doctor id f w
  = (Ok Saved,
     with_store
       (Db (map (set_doctor id f) (doctors (store w))) (doctors_seq (store w))
          (pharmacies (store w)) (pharmacies_seq (store w))
          (laboratories (store w)) (laboratories_seq (store w)) (broken (store w))) w).
Proof.
  unfold edit_doctor.
  destruct (negb _ && bool_decide _); [left; by eexists |].
  destruct (bool_decide (f_name f = EmptyString)); [left; by eexists |].
  destruct (negb _ && negb _); [left; by eexists |].
  unfold mbind, M_bind, bind, get_store, put_store, mret, M_ret, ret.
  destruct (broken (store w)); [left; by eexists |].
  by right.
Qed.

Lemma edit_doctor_tables_ok id f (w : World db) :
  tables_ok (store w) → tables_ok (store (snd (edit_doctor id f w))).
Proof.
  intros Hok. destruct (edit_doctor_cases id f w) as [[msg ->] | ->]; [exact Hok |].
  destruct Hok as ((Hu & Hi & Hle) & Hp & Hl & Hc & Ho).
  cbn [snd store with_store].
  split; [| split; [exact Hp |]; split; [exact Hl |]; split; [exact Hc | exact Ho]].
  unfold doctors_ok. cbn [doctors doctors_seq].
  rewrite !fmap_set_doctor by (intros r; apply set_doctor_keeps).
  split; [exact Hu |]. split; [exact Hi |].
  rewrite map_fmap. apply Forall_fmap. eapply Forall_impl; [exact Hle |].
  intros r Hr. cbn. by rewrite (proj1 (set_doctor_keeps id f r)).
Qed.

Lemma codes_unique_sublist (ph ph' lb lb' : list account_row) :
  ph' `sublist_of` ph → lb' `sublist_of` lb →
  NoDup (a_access_code <$> ph ++ lb) → NoDup (a_access_code <$> ph' ++ lb').
Proof.
  intros Hp Hl Hnd. eapply sublist_NoDup; [exact Hnd |].
  by apply fmap_sublist, sublist_app.
Qed.

Lemma Forall_sublist_app {A} (R : A → Prop) (l l' k k' : list A) :
  l' `sublist_of` l → k' `sublist_of` k → Forall R (l ++ k) → Forall R (l' ++ k').
Proof.
  intros Hl Hk H. apply Forall_forall. intros x Hx.
  rewrite Forall_forall in H. apply H.
  eapply elem_of_sublist; [exact Hx |]. by apply sublist_app.
Qed.

Lemma delete_doctor_tables_ok confirm id (w : World db) :
  tables_ok (store w) → tables_ok (store (snd (delete_doctor confirm id w))).
Proof.
  intros Hok. unfold delete_doctor.
  destruct confirm; cbn [negb]; [| exact Hok].
  unfold mbind, M_bind, bind, get_store, put_store, mret, M_ret, ret.
  destruct (broken (store w)); [exact Hok |].
  destruct Hok as ((Hu & Hi & Hle) & Hp & Hl & Hc & Ho).
  cbn [snd store with_store].
  split; [| split; [| split; [| split]]].
  - split; [| split].
    + eapply sublist_NoDup; [exact Hu |]. apply fmap_sublist, sublist_filter.
    + eapply sublist_NoDup; [exact Hi |]. apply fmap_sublist, sublist_filter.
    + apply Forall_forall. intros r Hr. apply list_elem_of_filter in Hr as [_ Hr].
      rewrite Forall_forall in Hle. by apply Hle.
  - by apply account_ids_ok_filter.
  - by apply account_ids_ok_filter.
  - eapply codes_unique_sublist; [apply sublist_filter | apply sublist_filter | exact Hc].
  - eapply Forall_sublist_app; [apply sublist_filter | apply sublist_filter | exact Ho].
Qed.

Lemma delete_account_tables_ok confirm id (w : World db) :
  tables_ok (store w) →
  tables_ok (store (snd (delete_pharmacy confirm id w))) ∧
  tables_ok (store (snd (delete_lab confirm id w))).
Proof.
  intros Hok. unfold delete_pharmacy, delete_lab.
  destruct confirm; cbn [negb]; [| by split].
  unfold mbind, M_bind, bind, get_store, put_store, mret, M_ret, ret.
  destruct (broken (store w)); [by split |].
  destruct Hok as (Hd & Hp & Hl & Hc & Ho).
  cbn [snd store with_store]. split.
  - split; [exact Hd |]. split; [by apply account_ids_ok_filter |]. split; [exact Hl |].
    split.
    + eapply codes_unique_sublist; [apply sublist_filter | reflexivity | exact Hc].
    + eapply Forall_sublist_app; [apply sublist_filter | reflexivity | exact Ho].
  - split; [exact Hd |]. split; [exact Hp |]. split; [by apply account_ids_ok_filter |].
    split.
    + eapply codes_unique_sublist; [reflexivity | apply sublist_filter | exact Hc].
    + eapply Forall_sublist_app; [reflexivity | apply sublist_filter | exact Ho].
Qed.

(** X18: the constraints of the schema are kept by every write of the
    SQLite variant that is modelled: after [add_doctor], [edit_doctor],
    [delete_doctor], [delete_pharmacy], [delete_lab] and
    [create_associated_accounts] (for the id of a doctor that was handed
    out), whatever their outcome, user names and ids are still unique,
    no id is above the counter of its table, no access code is held twice
    among pharmacies and laboratories, and every account belongs to no
    doctor or to an id that was handed out. *)
Theorem tables_stay_consistent (w : World db) (fuel : nat) (confirm : bool) (f : doctor_form)
    (id : Z) (name : string) :
  tables_ok (store w) →
  tables_ok (store (snd (add_doctor fuel confirm f w))) ∧
  tables_ok (store (snd (edit_doctor id f w))) ∧
  tables_ok (store (snd (delete_doctor confirm id w))) ∧
  tables_ok (store (snd (delete_pharmacy confirm id w))) ∧
  tables_ok (store (snd (delete_lab confirm id w))) ∧
  (id <= doctors_seq (store w) →
   tables_ok (store (snd (create_associated_accounts fuel confirm id name w)))).
Proof.
  intros Hok.
  split; [by apply add_doctor_tables_ok |].
  split; [by apply edit_doctor_tables_ok |].
  split; [by apply delete_doctor_tables_ok |].
  split; [by apply delete_account_tables_ok |].
  split; [by apply delete_account_tables_ok |].
  intros Hid. by apply create_associated_accounts_tables_ok.
Qed.

Lemma tables_ok_empty : tables_ok (store empty_tables).
Proof.
  repeat split; try apply NoDup_nil_2; by constructor.
Qed.

Lemma tables_stay_consistent_witness :
  tables_ok (store empty_tables) ∧
  tables_ok (store (snd (add_doctor 10 true form_alice empty_tables))).
Proof.
  split; [exact tables_ok_empty |].
  exact (proj1 (tables_stay_consistent empty_tables 10 true form_alice 1 "Alice"
                  tables_ok_empty)).
Defined.

(** X19: [add_doctor] on consistent tables either shows an error in the
    form and writes nothing, or the form passed every check and exactly one
    row was appended to [doctors]: it holds the fields of the form, the
    SHA-256 digest of the password and the time of the call, its id is above
    every id in the table, its user name is new, and no pharmacy or
    laboratory belongs to its id yet. *)
Theorem add_doctor_outcomes (w : World db) (fuel : nat) (confirm : bool) (f : doctor_form) :
  tables_ok (store w) →
  match add_doctor fuel confirm f w with
  | (Ok (ErrorLabel _), w') => store w' = store w
  | (_, w') =>
      form_ok f ∧
      ∃ row,
        doctors (store w') = doctors (store w) ++ [row] ∧
        d_username row = f_username f ∧
        d_password row = hash_doctor_password (f_password f) ∧
        d_name row = f_name f ∧ d_specialty row = f_specialty f ∧
        d_email row = f_email f ∧ d_phone row = f_phone f ∧
        d_created_at row = strftime_seconds (clock w (clock_pos w)) ∧
        Forall (fun r => d_id r < d_id row ∧ d_username r ≠ d_username row) (doctors (store w)) ∧
        Forall (fun a => a_doctor_id a ≠ Some (d_id row))
          (pharmacies (store w) ++ laboratories (store w))
  end.
Proof.
  intros ((_ & _ & Hle) & _ & _ & _ & Ho).
  destruct (add_doctor_cases fuel confirm f w) as [(msg & w' & -> & Hs) | (Hf & _ & Hnew & H)];
    [exact Hs |].
  cbv zeta in H.
  set (row := DoctorRow _ _ _ _ _ _ _ _) in H.
  assert (Hrow : ∀ w', doctors (store w') = doctors (store w) ++ [row] →
            form_ok f ∧
            ∃ row,
              doctors (store w') = doctors (store w) ++ [row] ∧
              d_username row = f_username f ∧
              d_password row = hash_doctor_password (f_password f) ∧
              d_name row = f_name f ∧ d_specialty row = f_specialty f ∧
              d_email row = f_email f ∧ d_phone row = f_phone f ∧
              d_created_at row = strftime_seconds (clock w (clock_pos w)) ∧
              Forall (fun r => d_id r < d_id row ∧ d_username r ≠ d_username row)
                (doctors (store w)) ∧
              Forall (fun a => a_doctor_id a ≠ Some (d_id row))
                (pharmacies (store w) ++ laboratories (store w))).
  { intros w' Hw'. split; [exact Hf |]. exists row. split; [exact Hw' |].
    do 7 (split; [reflexivity |]). split.
    - apply Forall_forall. intros r Hr. rewrite Forall_forall in Hle, Hnew.
      specialize (Hle r Hr). specialize (Hnew r Hr). cbn. split; [lia | exact Hnew].
    - eapply Forall_impl; [exact Ho |]. intros a Ha Heq. specialize (Ha _ Heq). cbn in Ha. lia. }
  destruct (f_create_related_accounts f).
  - destruct H as [Hsnd Hfst].
    destruct (add_doctor fuel confirm f w) as [[o|e] w'] eqn:Hrun; cbn [snd fst] in *.
    + assert (Hd : doctors (store w') = doctors (store w) ++ [row]).
      { rewrite Hsnd.
        match goal with
        | |- doctors (store (snd ?run)) = _ =>
            destruct run as [r0 w0] eqn:Hc; apply create_associated_accounts_doctors in Hc;
            cbn [snd]; by rewrite Hc
        end. }
      destruct o; try (by apply Hrow). by destruct (Hfst text).
    + apply Hrow. rewrite Hsnd.
      match goal with
      | |- doctors (store (snd ?run)) = _ =>
          destruct run as [r0 w0] eqn:Hc; apply create_associated_accounts_doctors in Hc;
          cbn [snd]; by rewrite Hc
      end.
  - rewrite H. by apply Hrow.
Qed.

Lemma add_doctor_outcomes_witness :
  tables_ok (store empty_tables) ∧
  match add_doctor 10 true form_alice empty_tables with
  | (Ok (ErrorLabel _), w') => store w' = store empty_tables
  | (_, w') => form_ok form_alice
  end.
Proof.
  split; [exact tables_ok_empty |].
  pose proof (add_doctor_outcomes empty_tables 10 true form_alice tables_ok_empty) as H.
  destruct (add_doctor 10 true form_alice empty_tables) as [[[| |msg|]|e] w'];
    [apply H | apply H | exact H | apply H | apply H].
Defined.

(** X20: [edit_doctor], when it saves, keeps the id, the user name and
    the creation time of every doctor, changes no other doctor and no
    pharmacy or laboratory, writes name, specialty, e-mail address and
    telephone of the form into the doctor edited, and replaces the password
    digest only when a password was entered (which then equals its
    confirmation).  When it does not save, nothing is changed. *)
Theorem edit_doctor_keeps_login (w : World db) (id : Z) (f : doctor_form) :
  match edit_doctor id f w with
  | (Ok Saved, w') =>
      Forall2
        (fun r r' =>
           d_id r' = d_id r ∧ d_username r' = d_username r ∧ d_created_at r' = d_created_at r ∧
           (d_id r ≠ id → r' = r) ∧
           (d_id r = id →
            d_name r' = f_name f ∧ d_specialty r' = f_specialty f ∧ d_email r' = f_email f ∧
            d_phone r' = f_phone f ∧
            d_password r'
            = if bool_decide (f_password f = EmptyString) then d_password r
              else hash_doctor_password (f_password f)))
        (doctors (store w)) (doctors (store w')) ∧
      pharmacies (store w') = pharmacies (store w) ∧
      laboratories (store w') = laboratories (store w) ∧
      f_name f ≠ EmptyString ∧
      (f_password f = EmptyString ∨ f_confirm_password f = f_password f)
  | (_, w') => w' = w
  end.
Proof.
  unfold edit_doctor.
  destruct (bool_decide (f_password f = EmptyString)) eqn:Hp; cbn [negb andb].
  - apply bool_decide_eq_true in Hp.
    destruct (bool_decide (f_name f = EmptyString)) eqn:Hn; [reflexivity |].
    apply bool_decide_eq_false in Hn.
    destruct (negb _ && negb _); [reflexivity |].
    unfold mbind, M_bind, bind, get_store, put_store, mret, M_ret, ret.
    destruct (broken (store w)); [reflexivity |].
    cbn [store with_store doctors pharmacies laboratories].
    split; [| by auto].
    rewrite map_fmap. apply Forall2_fmap_r, Forall_Forall2_diag, Forall_forall.
    intros r _. unfold compose, set_doctor. cbv beta. rewrite (bool_decide_eq_true_2 _ Hp).
    case_bool_decide; cbn; by repeat split.
  - apply bool_decide_eq_false in Hp.
    destruct (bool_decide (f_password f ≠ f_confirm_password f)) eqn:Hc; [reflexivity |].
    apply bool_decide_eq_false in Hc.
    destruct (bool_decide (f_name f = EmptyString)) eqn:Hn; [reflexivity |].
    apply bool_decide_eq_false in Hn.
    destruct (negb _ && negb _); [reflexivity |].
    unfold mbind, M_bind, bind, get_store, put_store, mret, M_ret, ret.
    destruct (broken (store w)); [reflexivity |].
    cbn [store with_store doctors pharmacies laboratories].
    split; [| repeat split; auto; right; by destruct (decide (f_password f = f_confirm_password f))].
    rewrite map_fmap. apply Forall2_fmap_r, Forall_Forall2_diag, Forall_forall.
    intros r _. unfold compose, set_doctor. cbv beta. rewrite (bool_decide_eq_false_2 _ Hp).
    case_bool_decide; cbn; by repeat split.
Qed.

(** X21: [delete_doctor], once confirmed, removes the doctor with the id
    together with every pharmacy and laboratory of that doctor and nothing
    else, and does not touch the counter of ids: a doctor added afterwards
    gets an id above every id handed out before, never the id of the doctor
    deleted.  When it is not confirmed or the database fails, nothing is
    changed. *)
Theorem delete_doctor_cascades (w : World db) (confirm : bool) (id : Z) :
  match delete_doctor confirm id w with
  | (Ok Saved, w') =>
      confirm = true ∧
      (∀ r, r ∈ doctors (store w') ↔ r ∈ doctors (store w) ∧ d_id r ≠ id) ∧
      (∀ a, a ∈ pharmacies (store w') ↔ a ∈ pharmacies (store w) ∧ a_doctor_id a ≠ Some id) ∧
      (∀ a, a ∈ laboratories (store w') ↔ a ∈ laboratories (store w) ∧ a_doctor_id a ≠ Some id) ∧
      doctors_seq (store w') = doctors_seq (store w) ∧
      (tables_ok (store w) → ∀ fuel c f,
         match add_doctor fuel c f w' with
         | (Ok (ErrorLabel _), _) => True
         | (_, w'') =>
             ∃ row, doctors (store w'') = doctors (store w') ++ [row] ∧
                    doctors_seq (store w) < d_id row
         end)
  | (_, w') => w' = w
  end.
Proof.
  pose proof (delete_doctor_tables_ok confirm id w) as Hinv.
  unfold delete_doctor in *.
  destruct confirm; cbn [negb] in *; [| reflexivity].
  unfold mbind, M_bind, bind, get_store, put_store, mret, M_ret, ret in *.
  destruct (broken (store w)); [reflexivity |].
  cbn [snd store with_store doctors pharmacies laboratories doctors_seq] in *.
  split; [reflexivity |].
  split; [intros r; rewrite list_elem_of_filter; tauto |].
  split; [intros r; rewrite list_elem_of_filter; tauto |].
  split; [intros r; rewrite list_elem_of_filter; tauto |].
  split; [reflexivity |].
  intros Hok fuel c f. specialize (Hinv Hok).
  match goal with
  | |- context [add_doctor fuel c f ?w1] =>
      destruct (add_doctor_cases fuel c f w1) as [(msg & w' & -> & Hs) | (_ & _ & _ & H)];
      [exact I |]
  end.
  cbv zeta in H.
  set (row := DoctorRow _ _ _ _ _ _ _ _) in H.
  match type of H with
  | context [add_doctor fuel c f ?w1] => set (w1' := w1) in *
  end.
  assert (Hrow : ∀ w'', doctors (store w'') = doctors (store w1') ++ [row] →
            ∃ row, doctors (store w'') = doctors (store w1') ++ [row] ∧
                   doctors_seq (store w) < d_id row).
  { intros w'' Hw''. exists row. split; [exact Hw'' |]. cbn. lia. }
  destruct (f_create_related_accounts f).
  - destruct H as [Hsnd Hfst].
    destruct (add_doctor fuel c f w1') as [[o|e] w''] eqn:Hrun; cbn [snd fst] in *.
    + assert (Hd : doctors (store w'') = doctors (store w1') ++ [row]).
      { rewrite Hsnd.
        match goal with
        | |- doctors (store (snd ?run)) = _ =>
            destruct run as [r0 w0] eqn:Hc; apply create_associated_accounts_doctors in Hc;
            cbn [snd]; by rewrite Hc
        end. }
      destruct o; try (by apply Hrow). exact I.
    + apply Hrow. rewrite Hsnd.
      match goal with
      | |- doctors (store (snd ?run)) = _ =>
          destruct run as [r0 w0] eqn:Hc; apply create_associated_accounts_doctors in Hc;
          cbn [snd]; by rewrite Hc
      end.
  - rewrite H. by apply Hrow.
Qed.

Lemma insert_account_fresh t seq name code doctor_id created_at :
  Forall (fun r => a_access_code r ≠ code) t →
  insert_account t seq name code doctor_id created_at
  = Some (t ++ [AccountRow (seq + 1) name None None code (Some doctor_id) created_at], seq + 1).
Proof.
  intros H. unfold insert_account. rewrite bool_decide_eq_false_2; [done |].
  intros Hex. apply Exists_exists in Hex as (r & Hr & Heq).
  rewrite Forall_forall in H. by apply (H r).
Qed.


End TablesFacts.

(** ** The check of e-mail addresses *)

Module EmailFacts.
Import AdminApplication.

Lemma until_at_no_at l : "@"%char ∉ l → until_at l = l.
Proof.
  induction l as [|c l IH]; [done |]. intros H. apply not_elem_of_cons in H as [Hc Hl].
  cbn. destruct (Ascii.eqb_spec c "@"); [done |]. by rewrite IH.
Qed.

Lemma until_at_app_at l m : "@"%char ∉ l → until_at (l ++ ("@"%char :: m)) = l.
Proof.
  induction l as [|c l IH]; [done |]. intros H. apply not_elem_of_cons in H as [Hc Hl].
  cbn. destruct (Ascii.eqb_spec c "@"); [done |]. by rewrite IH.
Qed.

Lemma until_at_app l m : "@"%char ∉ l → until_at (l ++ m) = l ++ until_at m.
Proof.
  induction l as [|c l IH]; [done |]. intros H. apply not_elem_of_cons in H as [Hc Hl].
  cbn. destruct (Ascii.eqb_spec c "@"); [done |]. by rewrite IH.
Qed.

Lemma until_at_spec l : ("@"%char ∉ until_at l) ∧
  (drop (length (until_at l)) l = [] ∨ ∃ m, drop (length (until_at l)) l = "@"%char :: m).
Proof.
  induction l as [|c l [IH1 IH2]]; [split; [apply not_elem_of_nil | by left] |].
  cbn. destruct (Ascii.eqb_spec c "@") as [->|Hc].
  - split; [apply not_elem_of_nil | right; by eexists].
  - split; [by apply not_elem_of_cons | exact IH2].
Qed.

Lemma dot_then_char_spec l :
  dot_then_char l = true ↔ ∃ a c b, l = a ++ ("."%char :: c :: b).
Proof.
  induction l as [|x l IH].
  - split; [discriminate | intros (a & c & b & H); by destruct a].
  - cbn [dot_then_char]. rewrite orb_true_iff, andb_true_iff, IH. split.
    + intros [[Hx Hl] | (a & c & b & ->)].
      * destruct (Ascii.eqb_spec x "."); [subst x | discriminate].
        destruct l as [|c b]; [discriminate |]. by exists [], c, b.
      * by exists (x :: a), c, b.
    + intros (a & c & b & H). destruct a as [|y a]; cbn in H; injection H as -> ->.
      * left. by split.
      * right. by exists a, c, b.
Qed.

(** The list of characters of an address that the pattern
    [[^@]+@[^@]+\.[^@]+] matches at its start. *)
Lemma email_chars s :
  email_matches (string_of_list_ascii s) = true ↔
  ∃ name host c rest,
    s = name ++ ("@"%char :: (host ++ ("."%char :: c :: rest))) ∧
    name ≠ [] ∧ host ≠ [] ∧ ("@"%char ∉ name) ∧ ("@"%char ∉ host) ∧ c ≠ "@"%char.
Proof.
  unfold email_matches. rewrite list_ascii_of_string_of_list_ascii. cbv zeta. split.
  - destruct (until_at_spec s) as [Hno Hdrop].
    pose proof (take_drop (length (until_at s)) s) as Hs.
    destruct (until_at s) as [|n0 name] eqn:Hname; [discriminate |].
    destruct Hdrop as [-> | [m Hm]]; [discriminate |]. rewrite Hm.
    destruct (until_at_spec m) as [Hno' _].
    pose proof (take_drop (length (until_at m)) m) as Hm'.
    destruct (until_at m) as [|h0 seg] eqn:Hseg; [discriminate |].
    intros Hdot. apply dot_then_char_spec in Hdot as (a & c & b & ->).
    exists (n0 :: name), (h0 :: a), c, (b ++ drop (length (h0 :: a ++ ("."%char :: c :: b))) m).
    assert (Htake : take (length (until_at s)) s = until_at s).
    { clear. induction s as [|x s IH]; [done |]. cbn.
      destruct (Ascii.eqb_spec x "@"); [done |]. cbn. by rewrite IH. }
    assert (Htake' : take (length (until_at m)) m = until_at m).
    { clear. induction m as [|x s IH]; [done |]. cbn.
      destruct (Ascii.eqb_spec x "@"); [done |]. cbn. by rewrite IH. }
    rewrite Hname in Htake. rewrite Hseg in Htake'.
    split.
    + rewrite <- Hs, Htake, Hm. f_equal. f_equal.
      rewrite <- Hm' at 1. rewrite Htake'. cbn. by rewrite <- !app_assoc.
    + split; [done |]. split; [done |]. split; [exact Hno |].
      apply not_elem_of_cons in Hno' as [Hh Hrest].
      rewrite not_elem_of_app in Hrest. destruct Hrest as [Ha Hrest].
      apply not_elem_of_cons in Hrest as [_ Hrest].
      apply not_elem_of_cons in Hrest as [Hc _].
      split; [by apply not_elem_of_cons | done].
  - intros (name & host & c & rest & -> & Hn & Hh & Hna & Hha & Hc).
    rewrite (until_at_app_at name _ Hna).
    destruct name as [|n0 name]; [done |]. cbv iota beta.
    rewrite drop_app_length.
    destruct host as [|h0 host]; [done |].
    apply not_elem_of_cons in Hha as [Hh0 Hha].
    cbn [app until_at]. destruct (Ascii.eqb_spec h0 "@"); [done |].
    rewrite (until_at_app host _ Hha). cbn [until_at].
    destruct (Ascii.eqb_spec "." "@"); [done |].
    destruct (Ascii.eqb_spec c "@"); [done |].
    apply dot_then_char_spec. by eexists host, c, _.
Qed.

Lemma list_ascii_of_string_app a b :
  list_ascii_of_string (a +:+ b) = list_ascii_of_string a ++ list_ascii_of_string b.
Proof.
  induction a as [|c a IH]; [done |].
  change (list_ascii_of_string (String c a +:+ b)) with (c :: list_ascii_of_string (a +:+ b)).
  rewrite IH. reflexivity.
Qed.

Lemma string_of_list_ascii_app a b :
  string_of_list_ascii (a ++ b) = string_of_list_ascii a +:+ string_of_list_ascii b.
Proof.
  induction a as [|c a IH]; [done |]. cbn [app string_of_list_ascii]. rewrite IH. reflexivity.
Qed.

Lemma append_assoc (a b c : string) : (a +:+ b) +:+ c = a +:+ (b +:+ c).
Proof.
  induction a as [| x a IH]; [reflexivity |].
  change (String x ((a +:+ b) +:+ c) = String x (a +:+ (b +:+ c))). by rewrite IH.
Qed.

(** X23: the check of [validate_and_save] accepts exactly the addresses
    that begin with a match of the pattern [[^@]+@[^@]+\.[^@]+]: a
    non-empty name without [@], an [@], a non-empty host without [@], a dot
    and one more character other than [@].  What follows is not looked at,
    so an accepted address stays accepted whatever is appended, a second
    [@] included. *)
Theorem email_matches_pattern (email : string) :
  (email_matches email = true ↔
   ∃ name host c rest,
     email = name +:+ "@" +:+ host +:+ "." +:+ String c rest ∧
     name ≠ EmptyString ∧ host ≠ EmptyString ∧
     ("@"%char ∉ list_ascii_of_string name) ∧ ("@"%char ∉ list_ascii_of_string host) ∧
     c ≠ "@"%char) ∧
  (∀ more, email_matches email = true → email_matches (email +:+ more) = true) ∧
  email_matches "a@b.c@@" = true ∧ email_matches "a@b" = false ∧ email_matches "@b.c" = false.
Proof.
  assert (Hiff : ∀ e, email_matches e = true ↔
            ∃ name host c rest,
              e = name +:+ "@" +:+ host +:+ "." +:+ String c rest ∧
              name ≠ EmptyString ∧ host ≠ EmptyString ∧
              ("@"%char ∉ list_ascii_of_string name) ∧ ("@"%char ∉ list_ascii_of_string host) ∧
              c ≠ "@"%char).
  { intros e. rewrite <- (string_of_list_ascii_of_string e) at 1. rewrite email_chars. split.
    - intros (name & host & c & rest & Hs & Hn & Hh & Hna & Hha & Hc).
      exists (string_of_list_ascii name), (string_of_list_ascii host), c,
        (string_of_list_ascii rest).
      rewrite !list_ascii_of_string_of_list_ascii.
      split; [| split; [by destruct name | split; [by destruct host | done]]].
      rewrite <- (string_of_list_ascii_of_string e), Hs.
      rewrite string_of_list_ascii_app. cbn [string_of_list_ascii].
      rewrite string_of_list_ascii_app. reflexivity.
    - intros (name & host & c & rest & -> & Hn & Hh & Hna & Hha & Hc).
      exists (list_ascii_of_string name), (list_ascii_of_string host), c,
        (list_ascii_of_string rest).
      split; [| split; [by destruct name | split; [by destruct host | done]]].
      rewrite !list_ascii_of_string_app. reflexivity. }
  split; [apply Hiff |]. split; [| by vm_compute].
  intros more. rewrite !Hiff.
  intros (name & host & c & rest & -> & H).
  exists name, host, c, (rest +:+ more). split; [| exact H].
  rewrite !append_assoc. reflexivity.
Qed.

End EmailFacts.
